(** * Travel itinerary service: job orchestration, generation client,
      content validator and document store adapter.

    A shallow embedding of [models.py], [services/itinerary_generator.py],
    [services/openai_service.py], [services/mongodb_service.py] and the two
    job endpoints of [main.py], with the properties of the job lifecycle
    proved over it. *)

From Stdlib Require Import ZArith String Ascii List Sorted Lia.
From stdpp Require Import base option list gmap strings pretty.

Local Open Scope Z_scope.
Local Open Scope string_scope.

(** ** Python strings *)

Module PyStr.

(** A string is a sequence of code points below 256.  [str.isspace] there:
    TAB..CR, FS..US, the blank, NEL and the no-break space. *)
Definition isspace (c : ascii) : bool :=
  let n := nat_of_ascii c in
  (((9 <=? n)%nat && (n <=? 13)%nat) || ((28 <=? n)%nat && (n <=? 32)%nat)
   || (n =? 133)%nat || (n =? 160)%nat)%bool.

Fixpoint lstrip (s : string) : string :=
  match s with
  | EmptyString => EmptyString
  | String c r => if isspace c then lstrip r else s
  end.

Definition rstrip (s : string) : string := String.rev (lstrip (String.rev s)).

(** [s.strip()] *)
Definition strip (s : string) : string := rstrip (lstrip s).

(** Truth value of a string: only the empty string is falsy. *)
Definition truthy (s : string) : bool :=
  match s with EmptyString => false | String _ _ => true end.

(** [not s or not s.strip()] *)
Definition blank (s : string) : bool := (negb (truthy s) || negb (truthy (strip s)))%bool.

(** [sep.join(parts)] *)
Fixpoint join (sep : string) (parts : list string) : string :=
  match parts with
  | [] => ""
  | [p] => p
  | p :: rest => p +:+ sep +:+ join sep rest
  end.

(** [s.replace('Z', '+00:00')] *)
Fixpoint replace_Z (s : string) : string :=
  match s with
  | EmptyString => EmptyString
  | String c r =>
      if Ascii.eqb c "Z"%char then "+00:00" +:+ replace_Z r else String c (replace_Z r)
  end.

End PyStr.

(** ** Exceptions

    One constructor per exception class that the services raise, catch or
    let through.  Every class below derives from [Exception]. *)

Inductive exn : Type :=
  | ValueError (msg : string)
  | JSONDecodeError (msg : string)      (* json; a ValueError *)
  | ValidationError (msg : string)      (* pydantic; a ValueError *)
  | KeyError (key_repr : string)
  | IndexError (msg : string)
  | TypeError (msg : string)
  | AttributeError (msg : string)
  | TimeoutError                        (* asyncio.TimeoutError *)
  | ClientError (msg : string)          (* aiohttp.ClientError and subclasses *)
  | PyMongoError (msg : string)         (* any error raised by the driver *)
  | HTTPException (status_code : Z) (detail : string)
  | PyException (msg : string).         (* a bare Exception(msg) *)

(** [str(e)]; an [HTTPException] renders as Starlette's [__str__] does. *)
Definition str_of_exn (e : exn) : string :=
  match e with
  | ValueError m | JSONDecodeError m | ValidationError m | IndexError m
  | TypeError m | AttributeError m | ClientError m | PyMongoError m
  | PyException m | KeyError m => m
  | TimeoutError => ""
  | HTTPException c d => pretty c +:+ ": " +:+ d
  end.

Inductive result (A : Type) : Type :=
  | Return (a : A)
  | Raise (e : exn).
Arguments Return {A} a.
Arguments Raise {A} e.

(** ** models.py *)

Record Activity : Type := mkActivity {
  time : string;
  description : string;
  location : string
}.

Record DayItinerary : Type := mkDayItinerary {
  day : Z;
  theme : string;
  activities : list Activity
}.

Record TravelRequest : Type := mkTravelRequest {
  destination : string;
  durationDays : Z
}.

(** ** services/itinerary_generator.py: the content validator *)

Module Validator.

(** What a failed check reports; [reason_message] renders the text that the
    source puts in the [ValueError]. *)
Inductive reason : Type :=
  | EmptyItinerary
  | DayCount (expected : Z) (got : nat)
  | DayNumbering (i : Z) (got : Z)
  | MissingTheme (i : Z)
  | NoActivities (i : Z)
  | MissingSlots (i : Z) (missing : gset string)
  | MissingDescription (i : Z) (slot : string)
  | MissingLocation (i : Z) (slot : string).

Definition required_times : gset string := {[ "Morning"; "Afternoon"; "Evening" ]}.

(** [{activity.time for activity in day.activities}] *)
Definition activity_times (acts : list Activity) : gset string :=
  list_to_set (time <$> acts).

(** The iteration order of a Python set of strings is not fixed; neither is
    that of [elements]. *)
Definition reason_message (r : reason) : string :=
  match r with
  | EmptyItinerary => "Generated itinerary is empty"
  | DayCount n got =>
      "Expected " +:+ pretty n +:+ " days, but got " +:+ pretty got +:+ " days"
  | DayNumbering i d =>
      "Day numbering mismatch: expected day " +:+ pretty i +:+ ", got day " +:+ pretty d
  | MissingTheme i => "Day " +:+ pretty i +:+ " is missing a theme"
  | NoActivities i => "Day " +:+ pretty i +:+ " has no activities"
  | MissingSlots i missing =>
      "Day " +:+ pretty i +:+ " is missing activities for: "
        +:+ PyStr.join ", " (elements missing)
  | MissingDescription i slot =>
      "Day " +:+ pretty i +:+ ", " +:+ slot +:+ " activity is missing description"
  | MissingLocation i slot =>
      "Day " +:+ pretty i +:+ ", " +:+ slot +:+ " activity is missing location"
  end.

(** The inner loop [for activity in day.activities]. *)
Fixpoint check_activities (i : Z) (acts : list Activity) : option reason :=
  match acts with
  | [] => None
  | a :: rest =>
      if PyStr.blank (description a) then Some (MissingDescription i (time a))
      else if PyStr.blank (location a) then Some (MissingLocation i (time a))
      else check_activities i rest
  end.

(** The body of the loop [for i, day in enumerate(itinerary, 1)]. *)
Definition check_day (i : Z) (d : DayItinerary) : option reason :=
  if negb (day d =? i)%Z then Some (DayNumbering i (day d))
  else if PyStr.blank (theme d) then Some (MissingTheme i)
  else if bool_decide (activities d = []) then Some (NoActivities i)
  else if negb (bool_decide (required_times ⊆ activity_times (activities d)))
       then Some (MissingSlots i (required_times ∖ activity_times (activities d)))
  else check_activities i (activities d).

Fixpoint check_days (i : Z) (days : list DayItinerary) : option reason :=
  match days with
  | [] => None
  | d :: rest =>
      match check_day i d with
      | Some r => Some r
      | None => check_days (i + 1) rest
      end
  end.

(** The checks of [_validate_itinerary], in the order the source runs them. *)
Definition violation (itinerary : list DayItinerary) (expected_days : Z) : option reason :=
  if bool_decide (itinerary = []) then Some EmptyItinerary
  else if negb (Z.of_nat (length itinerary) =? expected_days)%Z
       then Some (DayCount expected_days (length itinerary))
  else check_days 1 itinerary.

End Validator.

(** ** Python values: documents and decoded JSON *)

Record datetime : Type := mkDatetime {
  dt_year : Z; dt_month : Z; dt_day : Z;
  dt_hour : Z; dt_minute : Z; dt_second : Z; dt_microsecond : Z;
  dt_utcoffset : option Z
}.

(** A [dict] is kept as its items in insertion order, keys distinct. *)
#[warnings="-register-all"]
Inductive value : Type :=
  | VNone
  | VBool (b : bool)
  | VInt (z : Z)
  | VStr (s : string)
  | VDatetime (d : datetime)
  | VList (items : list value)
  | VDict (items : list (string * value)).

Abbreviation pydict := (list (string * value)).

(** [d.get(k)] / [d[k]] *)
Fixpoint dict_get (k : string) (d : pydict) : option value :=
  match d with
  | [] => None
  | (k', v) :: rest => if String.eqb k' k then Some v else dict_get k rest
  end.

(** [d[k] = v]: overwrite in place, or append a new item. *)
Fixpoint dict_set (k : string) (v : value) (d : pydict) : pydict :=
  match d with
  | [] => [(k, v)]
  | (k', v') :: rest =>
      if String.eqb k' k then (k', v) :: rest else (k', v') :: dict_set k v rest
  end.

(** [d.update(other)], also the effect of MongoDB's [$set] on a document. *)
Definition dict_update (other d : pydict) : pydict :=
  fold_left (fun acc kv => dict_set kv.1 kv.2 acc) other d.

(** Library functions that the services call and this development does not
    define: [json.loads], aiohttp's [response.json()] on the body of a reply
    served as JSON, [str] on a decoded value, [datetime.isoformat],
    [datetime.fromisoformat] and pydantic's coercion of a field value to
    [str] and to [int]. *)
Class PyRuntime : Type := {
  json_loads : string -> string + value;      (* inl: the JSONDecodeError text *)
  response_json : string -> string + value;   (* inl: the JSONDecodeError text *)
  str_of_value : value -> string;             (* str(v) *)
  isoformat : datetime -> string;
  fromisoformat : string -> option datetime;
  pydantic_str : value -> option string;
  pydantic_int : value -> option Z
}.

(** ** Effects: a reader/state/writer monad with exceptions *)

Inductive log_level : Type := INFO | WARNING | ERROR.

(** What one attempt of the generation client meets: the request times
    out, the transport fails (any [aiohttp.ClientError], also while the
    body is read), or a complete response arrives.  [HttpResponse] is a
    response served as JSON.  [HttpNotJson] is a response with another
    content type: [response.status] and [response.text()] are as usual, and
    [response.json()] raises a [ContentTypeError], an [aiohttp.ClientError],
    whose text is [msg]. *)
Inductive http_outcome : Type :=
  | HttpTimeout
  | HttpClientError (msg : string)
  | HttpResponse (status : Z) (text : string)
  | HttpNotJson (status : Z) (text : string) (msg : string).

(** The inputs the environment decides: whether the n-th driver call fails,
    what the n-th request meets, the n-th clock reading and the n-th uuid. *)
Record env : Type := mkEnv {
  db_fault : nat -> option string;
  http : nat -> http_outcome;
  clock : nat -> datetime;
  uuid4 : nat -> string
}.

(** A background task queued by [BackgroundTasks.add_task]. *)
Record task : Type := mkTask {
  task_job_id : string;
  task_destination : string;
  task_duration_days : Z
}.

Record world : Type := mkWorld {
  store : gmap string pydict;      (* the itineraries collection, by _id *)
  pending : list task;
  db_calls : nat;
  http_calls : nat;
  clock_reads : nat;
  uuid_calls : nat
}.

Inductive event : Type :=
  | Log (level : log_level) (msg : string)
  | HttpPost
  | Sleep (seconds : Z)
  | DbInsertOne (doc : pydict)
  | DbUpdateOne (id : string) (fields : pydict)
  | DbFindOne (id : string).

Definition M (A : Type) : Type := env -> world -> result A * world * list event.

Definition ret {A} (a : A) : M A := fun _ w => (Return a, w, []).

Definition bind {A B} (m : M A) (k : A -> M B) : M B :=
  fun e w =>
    match m e w with
    | (Return a, w1, t1) =>
        match k a e w1 with
        | (r, w2, t2) => (r, w2, (t1 ++ t2)%list)
        end
    | (Raise x, w1, t1) => (Raise x, w1, t1)
    end.

Definition raise {A} (x : exn) : M A := fun _ w => (Raise x, w, []).

(** [try: m  except ...: h]; [h x = None] when no clause matches [x]. *)
Definition try_except {A} (m : M A) (h : exn -> option (M A)) : M A :=
  fun e w =>
    match m e w with
    | (Return a, w1, t1) => (Return a, w1, t1)
    | (Raise x, w1, t1) =>
        match h x with
        | Some k =>
            match k e w1 with
            | (r, w2, t2) => (r, w2, (t1 ++ t2)%list)
            end
        | None => (Raise x, w1, t1)
        end
    end.

Definition emit (ev : event) : M unit := fun _ w => (Return tt, w, [ev]).
Definition log (l : log_level) (msg : string) : M unit := emit (Log l msg).
Definition lift {A} (r : result A) : M A := fun _ w => (r, w, []).

Notation "'do' x <- m ; k" := (bind m (fun x => k))
  (at level 10, x name, m at level 100, k at level 200).

(** [datetime.utcnow()] *)
Definition utcnow : M datetime := fun e w =>
  (Return (clock e (clock_reads w)),
   mkWorld (store w) (pending w) (db_calls w) (http_calls w) (S (clock_reads w)) (uuid_calls w),
   []).

(** [str(uuid.uuid4())] *)
Definition new_uuid : M string := fun e w =>
  (Return (uuid4 e (uuid_calls w)),
   mkWorld (store w) (pending w) (db_calls w) (http_calls w) (clock_reads w) (S (uuid_calls w)),
   []).

(** [background_tasks.add_task(...)] *)
Definition add_task (t : task) : M unit := fun _ w =>
  (Return tt,
   mkWorld (store w) (pending w ++ [t])%list (db_calls w) (http_calls w) (clock_reads w) (uuid_calls w),
   []).

(** [await asyncio.sleep(seconds)] *)
Definition sleep (seconds : Z) : M unit := emit (Sleep seconds).

(** One [session.post(...)]: the next outcome the environment holds. *)
Definition http_post : M http_outcome := fun e w =>
  (Return (http e (http_calls w)),
   mkWorld (store w) (pending w) (db_calls w) (S (http_calls w)) (clock_reads w) (uuid_calls w),
   [HttpPost]).

(** ** The collection behind the adapter (the motor driver)

    A driver call either fails as the environment dictates, leaving the
    collection as it was, or takes effect. *)

Definition with_db_call (st : gmap string pydict) (w : world) : world :=
  mkWorld st (pending w) (S (db_calls w)) (http_calls w) (clock_reads w) (uuid_calls w).

(** [collection.insert_one(doc)]; returns [inserted_id].  An _id already
    present is a duplicate-key error. *)
Definition insert_one (doc : pydict) : M string := fun e w =>
  match db_fault e (db_calls w) with
  | Some msg => (Raise (PyMongoError msg), with_db_call (store w) w, [DbInsertOne doc])
  | None =>
      match dict_get "_id" doc with
      | Some (VStr id) =>
          match store w !! id with
          | Some _ =>
              (Raise (PyMongoError "E11000 duplicate key error"),
               with_db_call (store w) w, [DbInsertOne doc])
          | None => (Return id, with_db_call (<[id := doc]> (store w)) w, [DbInsertOne doc])
          end
      | _ =>
          (Raise (PyMongoError "document without a string _id"),
           with_db_call (store w) w, [DbInsertOne doc])
      end
  end.

(** [collection.update_one({"_id": id}, {"$set": fields})]; returns
    [matched_count]. *)
Definition update_one (id : string) (fields : pydict) : M Z := fun e w =>
  match db_fault e (db_calls w) with
  | Some msg => (Raise (PyMongoError msg), with_db_call (store w) w, [DbUpdateOne id fields])
  | None =>
      match store w !! id with
      | Some doc =>
          (Return 1, with_db_call (<[id := dict_update fields doc]> (store w)) w,
           [DbUpdateOne id fields])
      | None => (Return 0, with_db_call (store w) w, [DbUpdateOne id fields])
      end
  end.

(** [collection.find_one({"_id": id})] *)
Definition find_one (id : string) : M (option pydict) := fun e w =>
  match db_fault e (db_calls w) with
  | Some msg => (Raise (PyMongoError msg), with_db_call (store w) w, [DbFindOne id])
  | None => (Return (store w !! id), with_db_call (store w) w, [DbFindOne id])
  end.

(** [x.dict()] of the pydantic models *)
Definition Activity_dict (a : Activity) : value :=
  VDict [("time", VStr (time a)); ("description", VStr (description a));
         ("location", VStr (location a))].

Definition DayItinerary_dict (d : DayItinerary) : value :=
  VDict [("day", VInt (day d)); ("theme", VStr (theme d));
         ("activities", VList (Activity_dict <$> activities d))].

(** ** services/mongodb_service.py *)

Module MongoDBService.
Section WithRuntime.
Context {rt : PyRuntime}.

(** The branch that [_prepare_data_for_mongodb] takes on one item value;
    a list element is processed only when it is a dict. *)
Fixpoint prepare_value (v : value) : value :=
  match v with
  | VDatetime d => VStr (isoformat d)
  | VDict items => VDict (map (fun kv => (kv.1, prepare_value kv.2)) items)
  | VList l =>
      VList (map (fun x => match x with VDict _ => prepare_value x | _ => x end) l)
  | _ => v
  end.

Definition _prepare_data_for_mongodb (data : pydict) : pydict :=
  map (fun kv => (kv.1, prepare_value kv.2)) data.

Definition _is_iso_datetime (s : string) : bool :=
  match fromisoformat (PyStr.replace_Z s) with
  | Some _ => true
  | None => false
  end.

(** The loop of [_process_data_from_mongodb]: the _id item is skipped. *)
Fixpoint process_value (v : value) : value :=
  match v with
  | VStr s =>
      if _is_iso_datetime s then
        match fromisoformat (PyStr.replace_Z s) with
        | Some d => VDatetime d
        | None => VStr s
        end
      else VStr s
  | VDict items =>
      VDict ((fix go (l : pydict) : pydict :=
                match l with
                | [] => []
                | (k, x) :: rest =>
                    if String.eqb k "_id" then go rest else (k, process_value x) :: go rest
                end) items)
  | VList l =>
      VList (map (fun x => match x with VDict _ => process_value x | _ => x end) l)
  | _ => v
  end.

Fixpoint _process_data_from_mongodb (data : pydict) : pydict :=
  match data with
  | [] => []
  | (k, x) :: rest =>
      if String.eqb k "_id" then _process_data_from_mongodb rest
      else (k, process_value x) :: _process_data_from_mongodb rest
  end.

Definition create_document (document_id : string) (data : pydict) : M unit :=
  try_except
    (let data := dict_set "jobId" (VStr document_id)
                   (dict_set "_id" (VStr document_id) data) in
     let processed_data := _prepare_data_for_mongodb data in
     do inserted_id <- insert_one processed_data ;
     log INFO ("Document created with ID: " +:+ inserted_id))
    (fun e => Some (
       do _ <- log ERROR ("Failed to create document " +:+ document_id +:+ ": " +:+ str_of_exn e) ;
       raise e)).

Definition update_document (document_id : string) (data : pydict) : M unit :=
  try_except
    (let processed_data := _prepare_data_for_mongodb data in
     do matched_count <- update_one document_id processed_data ;
     if (matched_count =? 0)%Z
     then log WARNING ("No document found with ID: " +:+ document_id)
     else log INFO ("Document updated: " +:+ document_id))
    (fun e => Some (
       do _ <- log ERROR ("Failed to update document " +:+ document_id +:+ ": " +:+ str_of_exn e) ;
       raise e)).

(** [if document:] holds for a dict with at least one item. *)
Definition get_document (document_id : string) : M (option pydict) :=
  try_except
    (do document <- find_one document_id ;
     match document with
     | Some (item :: items) =>
         let document := _process_data_from_mongodb (item :: items) in
         do _ <- log INFO ("Document retrieved: " +:+ document_id) ;
         ret (Some document)
     | _ =>
         do _ <- log INFO ("Document not found: " +:+ document_id) ;
         ret None
     end)
    (fun e => Some (
       do _ <- log ERROR ("Failed to retrieve document " +:+ document_id +:+ ": " +:+ str_of_exn e) ;
       raise e)).

Definition mark_as_completed (document_id : string) (itinerary_data : list DayItinerary)
  : M unit :=
  do now <- utcnow ;
  let update_data :=
    [("status", VStr "completed");
     ("completedAt", VDatetime now);
     ("itinerary", VList (DayItinerary_dict <$> itinerary_data));
     ("error", VNone)] in
  update_document document_id update_data.

Definition mark_as_failed (document_id : string) (error_message : string) : M unit :=
  do now <- utcnow ;
  let update_data :=
    [("status", VStr "failed");
     ("completedAt", VDatetime now);
     ("error", VStr error_message)] in
  update_document document_id update_data.

End WithRuntime.
End MongoDBService.

(** ** services/openai_service.py *)

Module OpenAIService.

Record t : Type := mk { max_retries : Z; retry_delay : Z }.

(** [__init__] *)
Definition init : t := {| max_retries := 3; retry_delay := 1 |}.

(** How the body of the [for attempt in range(...)] loop ends when it does
    not raise: [continue], or [return x]. *)
Inductive loop_exit (A : Type) : Type :=
  | Continue
  | Done (a : A).
Arguments Continue {A}.
Arguments Done {A} a.

(** [repr] of a string key; exact for the quote-free literals used here. *)
Definition repr_key (k : string) : string := "'" +:+ k +:+ "'".

(** The name of a value's type, as the error texts of Python show it. *)
Definition type_name (v : value) : string :=
  match v with
  | VNone => "NoneType"
  | VBool _ => "bool"
  | VInt _ => "int"
  | VStr _ => "str"
  | VDatetime _ => "datetime.datetime"
  | VList _ => "list"
  | VDict _ => "dict"
  end.

(** The errors of CPython 3.11 for an operation that a type lacks. *)
Definition not_subscriptable (v : value) : exn :=
  TypeError ("'" +:+ type_name v +:+ "' object is not subscriptable").

Definition not_iterable (v : value) : exn :=
  TypeError ("'" +:+ type_name v +:+ "' object is not iterable").

Definition no_attribute (v : value) (name : string) : exn :=
  AttributeError ("'" +:+ type_name v +:+ "' object has no attribute '" +:+ name +:+ "'").

(** [v[k]] for a string [k] *)
Definition getitem (v : value) (k : string) : result value :=
  match v with
  | VDict items =>
      match dict_get k items with
      | Some x => Return x
      | None => Raise (KeyError (repr_key k))
      end
  | VList _ => Raise (TypeError "list indices must be integers or slices, not str")
  | VStr _ => Raise (TypeError "string indices must be integers, not 'str'")
  | _ => Raise (not_subscriptable v)
  end.

(** [v[0]]; the keys of a decoded JSON object are strings, never [0]. *)
Definition getitem_0 (v : value) : result value :=
  match v with
  | VList (x :: _) => Return x
  | VList [] => Raise (IndexError "list index out of range")
  | VStr (String c _) => Return (VStr (String c EmptyString))
  | VStr EmptyString => Raise (IndexError "string index out of range")
  | VDict _ => Raise (KeyError "0")
  | _ => Raise (not_subscriptable v)
  end.

(** [v.strip()] *)
Definition strip_value (v : value) : result string :=
  match v with
  | VStr s => Return (PyStr.strip s)
  | _ => Raise (no_attribute v "strip")
  end.

(** [for x in v]: a list yields its elements, a dict its keys, a string
    its characters. *)
Definition iterate (v : value) : result (list value) :=
  match v with
  | VList l => Return l
  | VDict items => Return ((fun kv => VStr kv.1) <$> items)
  | VStr s => Return ((fun c => VStr (String c EmptyString)) <$> list_ascii_of_string s)
  | _ => Raise (not_iterable v)
  end.

Definition rbind {A B} (r : result A) (k : A -> result B) : result B :=
  match r with
  | Return a => k a
  | Raise e => Raise e
  end.

Notation "'let?' x := r 'in' k" := (rbind r (fun x => k))
  (at level 10, x name, r at level 100, k at level 200).

Section WithRuntime.
Context {rt : PyRuntime}.

(** pydantic's check of a [str] field and of [day: int = Field(..., ge=1)];
    the text of its report is cut to the model's name. *)
Definition str_field (model : string) (v : value) : result string :=
  match pydantic_str v with
  | Some s => Return s
  | None => Raise (ValidationError ("validation error for " +:+ model))
  end.

Definition day_field (v : value) : result Z :=
  match pydantic_int v with
  | Some z =>
      if (1 <=? z)%Z then Return z
      else Raise (ValidationError "validation error for DayItinerary")
  | None => Raise (ValidationError "validation error for DayItinerary")
  end.

(** [Activity(time=activity["time"], description=..., location=...)] *)
Definition parse_activity (activity : value) : result Activity :=
  let? t := getitem activity "time" in
  let? d := getitem activity "description" in
  let? l := getitem activity "location" in
  let? t := str_field "Activity" t in
  let? d := str_field "Activity" d in
  let? l := str_field "Activity" l in
  Return (mkActivity t d l).

Fixpoint parse_activities (l : list value) : result (list Activity) :=
  match l with
  | [] => Return []
  | a :: rest =>
      let? a := parse_activity a in
      let? rest := parse_activities rest in
      Return (a :: rest)
  end.

(** The [try] block of [_parse_itinerary] for one [day_data]. *)
Definition parse_day (day_data : value) : result DayItinerary :=
  let? acts := getitem day_data "activities" in
  let? acts := iterate acts in
  let? activities := parse_activities acts in
  let? d := getitem day_data "day" in
  let? t := getitem day_data "theme" in
  let? d := day_field d in
  let? t := str_field "DayItinerary" t in
  Return (mkDayItinerary d t activities).

(** [day_data.get('day', 'unknown')], rendered in the message. *)
Definition day_label (day_data : value) : result string :=
  match day_data with
  | VDict items =>
      match dict_get "day" items with
      | Some v => Return (str_of_value v)
      | None => Return "unknown"
      end
  | _ => Raise (no_attribute day_data "get")
  end.

(** [except (KeyError, TypeError) as e: raise ValueError(...)] *)
Definition parse_day_guarded (day_data : value) : result DayItinerary :=
  match parse_day day_data with
  | Raise (KeyError m as e) | Raise (TypeError m as e) =>
      let? label := day_label day_data in
      Raise (ValueError ("Invalid itinerary structure for day " +:+ label +:+ ": "
                           +:+ str_of_exn e))
  | r => r
  end.

Fixpoint parse_days (l : list value) : result (list DayItinerary) :=
  match l with
  | [] => Return []
  | d :: rest =>
      let? d := parse_day_guarded d in
      let? rest := parse_days rest in
      Return (d :: rest)
  end.

Definition _parse_itinerary (itinerary_data : value) : result (list DayItinerary) :=
  let? days := iterate itinerary_data in
  parse_days days.

(** [json.loads(text)] *)
Definition loads (text : string) : result value :=
  match json_loads text with
  | inr v => Return v
  | inl msg => Raise (JSONDecodeError msg)
  end.

(** The inner [try] of the status-200 branch, with its
    [except (json.JSONDecodeError, KeyError)] clause. *)
Definition parse_content (content : string) : result (list DayItinerary) :=
  match (let? itinerary_data := loads content in
         let? itinerary := getitem itinerary_data "itinerary" in
         _parse_itinerary itinerary) with
  | Raise (JSONDecodeError m as e) | Raise (KeyError m as e) =>
      Raise (ValueError ("Invalid JSON response from OpenAI: " +:+ str_of_exn e))
  | r => r
  end.

(** [await response.json()] on a reply served as JSON. *)
Definition json_of_response (text : string) : result value :=
  match response_json text with
  | inr v => Return v
  | inl msg => Raise (JSONDecodeError msg)
  end.

(** The status-200 branch on a reply served as JSON: [response.json()],
    the path to the message content, then [parse_content]. *)
Definition on_success (text : string) : result (list DayItinerary) :=
  let? result := json_of_response text in
  let? choices := getitem result "choices" in
  let? choice := getitem_0 choices in
  let? message := getitem choice "message" in
  let? content := getitem message "content" in
  let? content := strip_value content in
  parse_content content.

(** [if attempt < self.max_retries - 1: sleep; continue  else: raise] *)
Definition backoff_or (self : t) (attempt : Z) (final : exn)
  : M (loop_exit (list DayItinerary)) :=
  if (attempt <? max_retries self - 1)%Z then
    let wait_time := (retry_delay self * 2 ^ attempt)%Z in
    do _ <- sleep wait_time ;
    ret Continue
  else raise final.

(** What is inside the outer [try] of one attempt. *)
Definition attempt_body (self : t) (attempt : Z) : M (loop_exit (list DayItinerary)) :=
  do outcome <- http_post ;
  match outcome with
  | HttpTimeout => raise TimeoutError
  | HttpClientError msg => raise (ClientError msg)
  | HttpResponse status text =>
      if (status =? 200)%Z then
        do itinerary <- lift (on_success text) ;
        ret (Done itinerary)
      else if (status =? 429)%Z then
        backoff_or self attempt (PyException "Rate limit exceeded after all retries")
      else
        raise (PyException ("OpenAI API error " +:+ pretty status +:+ ": " +:+ text))
  | HttpNotJson status text msg =>
      if (status =? 200)%Z then
        raise (ClientError msg)
      else if (status =? 429)%Z then
        backoff_or self attempt (PyException "Rate limit exceeded after all retries")
      else
        raise (PyException ("OpenAI API error " +:+ pretty status +:+ ": " +:+ text))
  end.

(** The clauses [except asyncio.TimeoutError] and [except aiohttp.ClientError]. *)
Definition attempt_handlers (self : t) (attempt : Z) (e : exn)
  : option (M (loop_exit (list DayItinerary))) :=
  match e with
  | TimeoutError =>
      Some (backoff_or self attempt (PyException "Request timeout after all retries"))
  | ClientError msg =>
      Some (backoff_or self attempt
              (PyException ("Network error after all retries: " +:+ msg)))
  | _ => None
  end.

Fixpoint attempt_loop (self : t) (attempts : list Z) : M (list DayItinerary) :=
  match attempts with
  | [] => raise (PyException "Failed to generate itinerary after all retries")
  | attempt :: rest =>
      do r <- try_except (attempt_body self attempt) (attempt_handlers self attempt) ;
      match r with
      | Continue => attempt_loop self rest
      | Done itinerary => ret itinerary
      end
  end.

(** [for attempt in range(self.max_retries)].  The prompt and the payload
    are fixed by the two arguments and do not steer the control flow. *)
Definition generate_itinerary (self : t) (destination : string) (duration_days : Z)
  : M (list DayItinerary) :=
  attempt_loop self (seqZ 0 (max_retries self)).

End WithRuntime.
End OpenAIService.

(** ** services/itinerary_generator.py: the orchestrator *)

Module ItineraryGenerator.
Section WithRuntime.
Context {rt : PyRuntime}.

Definition _validate_itinerary (itinerary : list DayItinerary) (expected_days : Z) : M unit :=
  match Validator.violation itinerary expected_days with
  | Some r => raise (ValueError (Validator.reason_message r))
  | None =>
      log INFO ("Itinerary validation passed: " +:+ pretty (length itinerary)
                  +:+ " days with all required fields")
  end.

Definition generate_and_save_itinerary (openai_service : OpenAIService.t)
    (job_id destination : string) (duration_days : Z) : M unit :=
  try_except
    (do _ <- log INFO ("Starting itinerary generation for job " +:+ job_id) ;
     do itinerary <- OpenAIService.generate_itinerary openai_service destination duration_days ;
     do _ <- _validate_itinerary itinerary duration_days ;
     do _ <- MongoDBService.mark_as_completed job_id itinerary ;
     log INFO ("Successfully completed itinerary generation for job " +:+ job_id))
    (fun e => Some (
       let error_message := "Failed to generate itinerary: " +:+ str_of_exn e in
       do _ <- log ERROR ("Error for job " +:+ job_id +:+ ": " +:+ error_message) ;
       try_except
         (MongoDBService.mark_as_failed job_id error_message)
         (fun mongodb_error => Some (
            log ERROR ("Failed to update MongoDB with error status for job " +:+ job_id
                         +:+ ": " +:+ str_of_exn mongodb_error))))).

End WithRuntime.
End ItineraryGenerator.

(** ** main.py: the two job endpoints *)

Module Main.

(** What the framework sends back: a status code and a JSON body. *)
Record reply : Type := Reply { reply_status : Z; reply_body : value }.

(** [TravelRequest(destination=..., durationDays=...)]: [destination] is a
    required [str], [durationDays] an [int] with [gt=0, le=30]. *)
Definition TravelRequest_validate (destination : string) (durationDays : Z)
  : result TravelRequest :=
  if ((0 <? durationDays)%Z && (durationDays <=? 30)%Z)%bool
  then Return (mkTravelRequest destination durationDays)
  else Raise (ValidationError "validation error for TravelRequest").

(** The framework around a handler: an [HTTPException] becomes a reply with
    its status code, any other exception a 500. *)
Definition respond (ok_status : Z) (handler : M value) : M reply :=
  try_except
    (do body <- handler ; ret (Reply ok_status body))
    (fun e => Some (
       match e with
       | HTTPException code detail => ret (Reply code (VDict [("detail", VStr detail)]))
       | _ => ret (Reply 500 (VStr "Internal Server Error"))
       end)).

Section WithRuntime.
Context {rt : PyRuntime}.

(** [ItineraryData(status="processing", ...).dict()] *)
Definition initial_data (request : TravelRequest) (now : datetime) : pydict :=
  [("status", VStr "processing");
   ("destination", VStr (destination request));
   ("durationDays", VInt (durationDays request));
   ("createdAt", VDatetime now);
   ("completedAt", VNone);
   ("itinerary", VList []);
   ("error", VNone)].

(** The body of the handler of [POST /generate-itinerary]. *)
Definition generate_itinerary (request : TravelRequest) : M value :=
  do job_id <- new_uuid ;
  try_except
    (do now <- utcnow ;
     do _ <- MongoDBService.create_document job_id (initial_data request now) ;
     do _ <- add_task (mkTask job_id (destination request) (durationDays request)) ;
     ret (VDict [("jobId", VStr job_id)]))
    (fun e => Some (
       raise (HTTPException 500 ("Failed to process request: " +:+ str_of_exn e)))).

(** [POST /generate-itinerary]: the request model is checked before the
    handler runs; a request it rejects is answered with 422. *)
Definition post_generate_itinerary (destination : string) (durationDays : Z) : M reply :=
  match TravelRequest_validate destination durationDays with
  | Return request => respond 202 (generate_itinerary request)
  | Raise e => ret (Reply 422 (VDict [("detail", VStr (str_of_exn e))]))
  end.

(** The body of the handler of [GET /job-status/{job_id}]. *)
Definition get_job_status (job_id : string) : M value :=
  try_except
    (do document <- MongoDBService.get_document job_id ;
     match document with
     | Some (item :: items) => ret (VDict (item :: items))
     | _ => raise (HTTPException 404 "Job ID not found")
     end)
    (fun e => Some (
       raise (HTTPException 500 ("Failed to retrieve job status: " +:+ str_of_exn e)))).

Definition get_job_status_endpoint (job_id : string) : M reply :=
  respond 200 (get_job_status job_id).

End WithRuntime.
End Main.

(** ** The checks of the content validator, as the design lists them *)

Module Spec.

Definition nonblank (s : string) : Prop := PyStr.strip s <> "".

Definition canonical_slots : list string := ["Morning"; "Afternoon"; "Evening"].

Definition activity_ok (a : Activity) : Prop :=
  nonblank (description a) /\ nonblank (location a).

Definition slots_present (d : DayItinerary) : Prop :=
  forall slot, slot ∈ canonical_slots -> exists a, a ∈ activities d /\ time a = slot.

Definition check1 (candidate : list DayItinerary) : Prop := candidate <> [].

Definition check2 (candidate : list DayItinerary) (expectedDays : Z) : Prop :=
  Z.of_nat (length candidate) = expectedDays.

Definition check3 (candidate : list DayItinerary) (expectedDays : Z) : Prop :=
  forall i, (1 <= i <= expectedDays)%Z ->
    exists d, candidate !! Z.to_nat (i - 1) = Some d /\ day d = i.

Definition check4 (candidate : list DayItinerary) : Prop :=
  Forall (fun d => nonblank (theme d)) candidate.

Definition check5 (candidate : list DayItinerary) : Prop :=
  Forall (fun d => activities d <> []) candidate.

Definition check6 (candidate : list DayItinerary) : Prop :=
  Forall slots_present candidate.

Definition check7 (candidate : list DayItinerary) : Prop :=
  Forall (fun d => Forall activity_ok (activities d)) candidate.

(** The k-th check of the list, k = 1..7. *)
Definition check (k : nat) (candidate : list DayItinerary) (expectedDays : Z) : Prop :=
  match k with
  | 1%nat => check1 candidate
  | 2%nat => check2 candidate expectedDays
  | 3%nat => check3 candidate expectedDays
  | 4%nat => check4 candidate
  | 5%nat => check5 candidate
  | 6%nat => check6 candidate
  | 7%nat => check7 candidate
  | _ => True
  end.

Definition valid (candidate : list DayItinerary) (expectedDays : Z) : Prop :=
  forall k, check k candidate expectedDays.

(** Check [k] is the first of the list that fails. *)
Definition first_failing (k : nat) (candidate : list DayItinerary) (expectedDays : Z) : Prop :=
  (forall j, (j < k)%nat -> check j candidate expectedDays) /\
  ~ check k candidate expectedDays.

(** The check a reported reason belongs to. *)
Definition check_of_reason (r : Validator.reason) : nat :=
  match r with
  | Validator.EmptyItinerary => 1
  | Validator.DayCount _ _ => 2
  | Validator.DayNumbering _ _ => 3
  | Validator.MissingTheme _ => 4
  | Validator.NoActivities _ => 5
  | Validator.MissingSlots _ _ => 6
  | Validator.MissingDescription _ _ | Validator.MissingLocation _ _ => 7
  end%nat.

(** Checks 3 to 7 on the day plan at position [i]. *)
Definition day_ok (i : Z) (d : DayItinerary) : Prop :=
  day d = i /\ nonblank (theme d) /\ activities d <> [] /\ slots_present d /\
  Forall activity_ok (activities d).

(** The first of checks 3 to 7 that the day plan at position [i] fails,
    and what is reported for it. *)
Inductive day_reason (i : Z) (d : DayItinerary) : Validator.reason -> Prop :=
  | fails_numbering :
      day d <> i ->
      day_reason i d (Validator.DayNumbering i (day d))
  | fails_theme :
      day d = i -> ~ nonblank (theme d) ->
      day_reason i d (Validator.MissingTheme i)
  | fails_activities :
      day d = i -> nonblank (theme d) -> activities d = [] ->
      day_reason i d (Validator.NoActivities i)
  | fails_slots :
      day d = i -> nonblank (theme d) -> activities d <> [] -> ~ slots_present d ->
      day_reason i d
        (Validator.MissingSlots i
           (Validator.required_times ∖ Validator.activity_times (activities d)))
  | fails_description before a after :
      day d = i -> nonblank (theme d) -> slots_present d ->
      activities d = (before ++ a :: after)%list ->
      Forall activity_ok before -> ~ nonblank (description a) ->
      day_reason i d (Validator.MissingDescription i (time a))
  | fails_location before a after :
      day d = i -> nonblank (theme d) -> slots_present d ->
      activities d = (before ++ a :: after)%list ->
      Forall activity_ok before -> nonblank (description a) -> ~ nonblank (location a) ->
      day_reason i d (Validator.MissingLocation i (time a)).

(** What is reported for a candidate: checks 1 and 2 first, then the day
    plans in order, each against checks 3 to 7. *)
Inductive reported (candidate : list DayItinerary) (expectedDays : Z)
  : Validator.reason -> Prop :=
  | reports_empty :
      candidate = [] ->
      reported candidate expectedDays Validator.EmptyItinerary
  | reports_count :
      candidate <> [] -> Z.of_nat (length candidate) <> expectedDays ->
      reported candidate expectedDays
        (Validator.DayCount expectedDays (length candidate))
  | reports_day k d r :
      candidate <> [] -> Z.of_nat (length candidate) = expectedDays ->
      candidate !! k = Some d ->
      (forall j d', (j < k)%nat -> candidate !! j = Some d' -> day_ok (Z.of_nat j + 1) d') ->
      day_reason (Z.of_nat k + 1) d r ->
      reported candidate expectedDays r.

End Spec.

(** ** The retry policy of the generation client, as the design words it *)

Module ClientSpec.

(** Retryable: a rate-limiting response, a request timeout, a
    network-transport failure. *)
Definition retryable (o : http_outcome) : Prop :=
  match o with
  | HttpTimeout | HttpClientError _ => True
  | HttpResponse status _ | HttpNotJson status _ _ => status = 429%Z
  end.

(** Any other non-success response status. *)
Definition other_failure (o : http_outcome) : Prop :=
  match o with
  | HttpResponse status _ | HttpNotJson status _ _ => status <> 200%Z /\ status <> 429%Z
  | _ => False
  end.

(** A failure of the transport, as opposed to one of the content. *)
Definition transport (x : exn) : Prop :=
  match x with
  | TimeoutError | ClientError _ => True
  | _ => False
  end.

(** A failure of what a success response holds. *)
Definition content_error (x : exn) : Prop :=
  match x with
  | ValueError _ | JSONDecodeError _ | ValidationError _ | KeyError _ | IndexError _
  | TypeError _ | AttributeError _ => True
  | _ => False
  end.

(** The failures that exhausting the retries ends in. *)
Definition exhaustion (x : exn) : Prop :=
  x = PyException "Rate limit exceeded after all retries" \/
  x = PyException "Request timeout after all retries" \/
  exists msg, x = PyException ("Network error after all retries: " +:+ msg).

End ClientSpec.

(** ** The service as a transition system

    Requests arrive one at a time; between two requests the framework may
    start any queued background task.  Every step meets an environment of
    its own. *)

Module System.

Definition initial : world := mkWorld ∅ [] 0 0 0 0.

(** The framework takes the i-th queued task off the queue. *)
Definition start_task (i : nat) (w : world) : world :=
  mkWorld (store w) (delete i (pending w)) (db_calls w) (http_calls w)
          (clock_reads w) (uuid_calls w).

Section WithRuntime.
Context {rt : PyRuntime}.

Inductive step (w w' : world) : Prop :=
  | step_create (e : env) (destination : string) (durationDays : Z) r tr :
      Main.post_generate_itinerary destination durationDays e w = (r, w', tr) ->
      step w w'
  | step_status (e : env) (job_id : string) r tr :
      Main.get_job_status_endpoint job_id e w = (r, w', tr) ->
      step w w'
  | step_run (e : env) (i : nat) (t : task) r tr :
      pending w !! i = Some t ->
      ItineraryGenerator.generate_and_save_itinerary OpenAIService.init
        (task_job_id t) (task_destination t) (task_duration_days t) e (start_task i w)
        = (r, w', tr) ->
      step w w'.

Definition reachable : world -> Prop := rtc step initial.

End WithRuntime.

(** The [day] values of a stored itinerary. *)
Definition stored_day (v : value) : option Z :=
  match v with
  | VDict items =>
      match dict_get "day" items with
      | Some (VInt z) => Some z
      | _ => None
      end
  | _ => None
  end.

(** The terminal writes in a trace: the [status] each update sets. *)
Definition terminal_write (ev : event) : option value :=
  match ev with
  | DbUpdateOne _ fields => dict_get "status" fields
  | _ => None
  end.

Definition terminal_writes (tr : list event) : list value :=
  omap terminal_write tr.

Definition is_sleep (ev : event) : option Z :=
  match ev with Sleep s => Some s | _ => None end.

(** The backoff delays in a trace, in order. *)
Definition sleeps (tr : list event) : list Z := omap is_sleep tr.

Definition is_post (ev : event) : bool :=
  match ev with HttpPost => true | _ => false end.

(** The number of requests sent in a trace. *)
Definition posts (tr : list event) : nat := length (filter is_post tr).

End System.

(** ** A runtime to run the model on

    [json.loads] decodes exactly the serialisations of a given list of
    values (none holding a datetime); pydantic is strict; datetimes are
    read and written as [YYYY-MM-DD] or [YYYY-MM-DDTHH:MM:SS]. *)

Module Demo.

Definition quote : string := String "034"%char EmptyString.
Definition backslash : string := String "092"%char EmptyString.

Fixpoint escape (s : string) : string :=
  match s with
  | EmptyString => EmptyString
  | String c r =>
      if Ascii.eqb c "034"%char then backslash +:+ quote +:+ escape r
      else if Ascii.eqb c "092"%char then backslash +:+ backslash +:+ escape r
      else String c (escape r)
  end.

(** [json.dumps(v)] *)
Fixpoint dumps (v : value) : string :=
  match v with
  | VNone | VDatetime _ => "null"
  | VBool true => "true"
  | VBool false => "false"
  | VInt z => pretty z
  | VStr s => quote +:+ escape s +:+ quote
  | VList l => "[" +:+ PyStr.join ", " (map dumps l) +:+ "]"
  | VDict items =>
      "{" +:+ PyStr.join ", "
                (map (fun kv => quote +:+ escape kv.1 +:+ quote +:+ ": " +:+ dumps kv.2) items)
          +:+ "}"
  end.

Fixpoint loads_among (known : list value) (text : string) : string + value :=
  match known with
  | [] => inl "Expecting value"
  | v :: rest => if String.eqb (dumps v) text then inr v else loads_among rest text
  end.

Definition digit (c : ascii) : option Z :=
  let n := nat_of_ascii c in
  if ((48 <=? n)%nat && (n <=? 57)%nat)%bool then Some (Z.of_nat n - 48)%Z else None.

Fixpoint number (acc : Z) (s : string) : option Z :=
  match s with
  | EmptyString => Some acc
  | String c r =>
      match digit c with
      | Some d => number (10 * acc + d)%Z r
      | None => None
      end
  end.

Definition field (s : string) (start len : nat) : option Z :=
  number 0 (String.substring start len s).

Definition separator (s : string) (pos : nat) (c : ascii) : bool :=
  match String.get pos s with
  | Some c' => Ascii.eqb c c'
  | None => false
  end.

Definition leap (y : Z) : bool :=
  (((y mod 4 =? 0) && negb (y mod 100 =? 0)) || (y mod 400 =? 0))%Z%bool.

Definition days_in_month (y m : Z) : Z :=
  if (m =? 2)%Z then (if leap y then 29 else 28)
  else if ((m =? 4) || (m =? 6) || (m =? 9) || (m =? 11))%Z%bool then 30 else 31.

Definition read_date (s : string) : option (Z * Z * Z) :=
  if (separator s 4 "-" && separator s 7 "-")%bool then
    match field s 0 4, field s 5 2, field s 8 2 with
    | Some y, Some m, Some d =>
        if ((1 <=? y)%Z && (1 <=? m)%Z && (m <=? 12)%Z && (1 <=? d)%Z
            && (d <=? days_in_month y m)%Z)%bool
        then Some (y, m, d) else None
    | _, _, _ => None
    end
  else None.

Definition read_time (s : string) : option (Z * Z * Z) :=
  if (separator s 13 ":" && separator s 16 ":")%bool then
    match field s 11 2, field s 14 2, field s 17 2 with
    | Some h, Some m, Some sec =>
        if ((h <=? 23)%Z && (m <=? 59)%Z && (sec <=? 59)%Z)%bool
        then Some (h, m, sec) else None
    | _, _, _ => None
    end
  else None.

Definition read_iso (s : string) : option datetime :=
  match String.length s with
  | 10%nat =>
      match read_date s with
      | Some (y, m, d) => Some (mkDatetime y m d 0 0 0 0 None)
      | None => None
      end
  | 19%nat =>
      match read_date s, read_time s with
      | Some (y, m, d), Some (h, mi, sec) => Some (mkDatetime y m d h mi sec 0 None)
      | _, _ => None
      end
  | _ => None
  end.

Definition pad (width : nat) (z : Z) : string :=
  let digits := pretty z in
  String.concat "" (replicate (width - String.length digits) "0") +:+ digits.

Definition write_iso (d : datetime) : string :=
  pad 4 (dt_year d) +:+ "-" +:+ pad 2 (dt_month d) +:+ "-" +:+ pad 2 (dt_day d) +:+ "T"
    +:+ pad 2 (dt_hour d) +:+ ":" +:+ pad 2 (dt_minute d) +:+ ":" +:+ pad 2 (dt_second d).

Definition render (v : value) : string :=
  match v with
  | VNone => "None"
  | VBool true => "True"
  | VBool false => "False"
  | VInt z => pretty z
  | VStr s => s
  | v => dumps v
  end.

(** [bytes.strip()] leaves nothing of the body: it holds only blanks, TAB,
    LF, VT, FF and CR. *)
Definition blank_body (text : string) : bool :=
  forallb (fun c => let n := nat_of_ascii c in
                    (((9 <=? n)%nat && (n <=? 13)%nat) || (n =? 32)%nat)%bool)
          (list_ascii_of_string text).

(** aiohttp answers [None] for a blank body and decodes any other. *)
Definition json_of_body (known : list value) (text : string) : string + value :=
  if blank_body text then inr VNone else loads_among known text.

Definition runtime (known : list value) : PyRuntime := {|
  json_loads := loads_among known;
  response_json := json_of_body known;
  str_of_value := render;
  isoformat := write_iso;
  fromisoformat := read_iso;
  pydantic_str := fun v => match v with VStr s => Some s | _ => None end;
  pydantic_int := fun v => match v with VInt z => Some z | _ => None end
|}.

(** The body of a provider response whose message content is [content]. *)
Definition envelope (content : value) : value :=
  VDict [("choices", VList [VDict [("message", VDict [("content", VStr (dumps content))])]])].

Definition paris_day (n : Z) : DayItinerary :=
  mkDayItinerary n "Art"
    [mkActivity "Morning" "Louvre, book ahead" "Musee du Louvre";
     mkActivity "Afternoon" "Orsay" "Musee d'Orsay";
     mkActivity "Evening" "Cruise" "Seine"].

Definition paris (days : Z) : list DayItinerary := paris_day <$> seqZ 1 days.

Definition content_of (itinerary : list DayItinerary) : value :=
  VDict [("itinerary", VList (DayItinerary_dict <$> itinerary))].

(** A runtime that knows the provider's answer [itinerary]. *)
Definition runtime_for (itinerary : list DayItinerary) : PyRuntime :=
  runtime [content_of itinerary; envelope (content_of itinerary)].

Definition ok_response (itinerary : list DayItinerary) : http_outcome :=
  HttpResponse 200 (dumps (envelope (content_of itinerary))).

Definition epoch : datetime := mkDatetime 2024 1 1 0 0 0 0 None.

(** An environment in which the driver never fails and the provider
    answers every request with [itinerary]. *)
Definition calm (itinerary : list DayItinerary) : env :=
  mkEnv (fun _ => None) (fun _ => ok_response itinerary) (fun _ => epoch) (fun _ => "job-1").

End Demo.


(** * Properties *)

(** ** The content validator *)

Module ValidatorProofs.
Import Validator.

Lemma truthy_false s : PyStr.truthy s = false <-> s = "".
Proof. destruct s; simpl; split; congruence. Qed.

Lemma blank_false s : PyStr.blank s = false <-> Spec.nonblank s.
Proof.
  unfold PyStr.blank, Spec.nonblank. destruct s as [|c s].
  - simpl. split; [discriminate | intros H; exfalso; apply H; reflexivity].
  - cbn [PyStr.truthy negb orb].
    destruct (PyStr.strip (String c s)) eqn:E; simpl; split; congruence.
Qed.

Lemma blank_true s : PyStr.blank s = true <-> ~ Spec.nonblank s.
Proof.
  rewrite <- blank_false. destruct (PyStr.blank s); split; congruence.
Qed.

Lemma slots_subset d :
  required_times ⊆ activity_times (activities d) <-> Spec.slots_present d.
Proof.
  assert (Hcan : forall slot, slot ∈ Spec.canonical_slots <-> slot ∈ required_times).
  { intros slot. unfold Spec.canonical_slots, required_times.
    rewrite !elem_of_union, !elem_of_singleton, !elem_of_cons, elem_of_nil. tauto. }
  unfold Spec.slots_present, activity_times. split.
  - intros H slot Hin. apply Hcan, H in Hin.
    apply elem_of_list_to_set, list_elem_of_fmap in Hin as (a & -> & Ha). eauto.
  - intros H slot Hin. apply Hcan, H in Hin as (a & Ha & <-).
    apply elem_of_list_to_set, list_elem_of_fmap. eauto.
Qed.

Lemma check_activities_none i acts :
  check_activities i acts = None <-> Forall Spec.activity_ok acts.
Proof.
  induction acts as [|a acts IH]; simpl.
  - split; [constructor | reflexivity].
  - destruct (PyStr.blank (description a)) eqn:Ed.
    { split; [discriminate|]. intros H. inversion H as [|? ? [Hd _] _]; subst.
      apply blank_false in Hd. congruence. }
    destruct (PyStr.blank (location a)) eqn:El.
    { split; [discriminate|]. intros H. inversion H as [|? ? [_ Hl] _]; subst.
      apply blank_false in Hl. congruence. }
    rewrite IH. split.
    + intros H. constructor; [|exact H]. split; apply blank_false; assumption.
    + intros H. inversion H; assumption.
Qed.

(** What [check_activities] reports: the first activity with a blank
    description or location, the description first. *)
Lemma check_activities_some i acts r :
  check_activities i acts = Some r <->
  exists before a after,
    acts = (before ++ a :: after)%list /\ Forall Spec.activity_ok before /\
    ((~ Spec.nonblank (description a) /\ r = MissingDescription i (time a)) \/
     (Spec.nonblank (description a) /\ ~ Spec.nonblank (location a) /\
      r = MissingLocation i (time a))).
Proof.
  induction acts as [|a acts IH]; simpl.
  - split; [discriminate|]. intros (b & a & af & H & _). destruct b; discriminate.
  - destruct (PyStr.blank (description a)) eqn:Ed.
    { apply blank_true in Ed. split.
      - intros [= <-]. exists [], a, acts. split; [reflexivity|]. split; [constructor|]. tauto.
      - intros (b & a' & af & H & Hb & Hr). destruct b as [|b0 b].
        + simpl in H. injection H as <- <-. destruct Hr as [[_ ->]|[Hd _]]; [reflexivity|tauto].
        + simpl in H. injection H as <- ->. inversion Hb as [|? ? [Hd _] _]; subst. tauto. }
    apply blank_false in Ed.
    destruct (PyStr.blank (location a)) eqn:El.
    { apply blank_true in El. split.
      - intros [= <-]. exists [], a, acts. split; [reflexivity|]. split; [constructor|]. tauto.
      - intros (b & a' & af & H & Hb & Hr). destruct b as [|b0 b].
        + simpl in H. injection H as <- <-. destruct Hr as [[Hd _]|(_ & _ & ->)]; [tauto|reflexivity].
        + simpl in H. injection H as <- ->. inversion Hb as [|? ? [_ Hl] _]; subst. tauto. }
    apply blank_false in El. rewrite IH. split.
    + intros (b & a' & af & -> & Hb & Hr). exists (a :: b), a', af.
      split; [reflexivity|]. split; [|exact Hr]. constructor; [split|]; assumption.
    + intros (b & a' & af & H & Hb & Hr). destruct b as [|b0 b].
      * simpl in H. injection H as <- <-. destruct Hr as [[Hd _]|(_ & Hl & _)]; tauto.
      * simpl in H. injection H as <- ->. exists b, a', af.
        split; [reflexivity|]. split; [|exact Hr]. inversion Hb; assumption.
Qed.

Lemma check_day_none i d : check_day i d = None <-> Spec.day_ok i d.
Proof.
  unfold check_day, Spec.day_ok.
  destruct (Z.eqb_spec (day d) i) as [Hd|Hd]; simpl.
  2: { split; [discriminate | tauto]. }
  destruct (PyStr.blank (theme d)) eqn:Et.
  { apply blank_true in Et. split; [discriminate | tauto]. }
  apply blank_false in Et.
  case_bool_decide as Ha.
  { split; [discriminate | tauto]. }
  case_bool_decide as Hs; simpl.
  - rewrite check_activities_none. rewrite slots_subset in Hs. tauto.
  - rewrite slots_subset in Hs. split; [discriminate | tauto].
Qed.

Lemma check_day_some i d r : check_day i d = Some r <-> Spec.day_reason i d r.
Proof.
  unfold check_day.
  destruct (Z.eqb_spec (day d) i) as [Hd|Hd]; simpl.
  2: { split.
       - intros [= <-]. constructor. exact Hd.
       - intros H. inversion H; subst; try tauto. }
  destruct (PyStr.blank (theme d)) eqn:Et.
  { apply blank_true in Et. split.
    - intros [= <-]. constructor; assumption.
    - intros H. inversion H; subst; try tauto. }
  apply blank_false in Et.
  case_bool_decide as Ha.
  { split.
    - intros [= <-]. constructor; assumption.
    - intros H. inversion H as [| | | |b a af ? ? ? Hs|b a af ? ? ? Hs]; subst; try tauto;
        rewrite Ha in Hs; destruct b; discriminate. }
  case_bool_decide as Hs; simpl; rewrite slots_subset in Hs.
  - rewrite check_activities_some. split.
    + intros (b & a & af & Hsplit & Hb & [[Hx ->]|(Hx & Hy & ->)]).
      * eapply Spec.fails_description; eauto.
      * eapply Spec.fails_location; eauto.
    + intros H. inversion H as [| | | |b a af ? ? ? Hsp|b a af ? ? ? Hsp]; subst; try tauto.
      * exists b, a, af. tauto.
      * exists b, a, af. tauto.
  - split.
    + intros [= <-]. constructor; assumption.
    + intros H. inversion H; subst; try tauto.
Qed.

Lemma check_days_none i l :
  check_days i l = None <->
  forall k d, l !! k = Some d -> Spec.day_ok (i + Z.of_nat k) d.
Proof.
  revert i. induction l as [|x l IH]; intros i; simpl.
  - split; [intros _ k d H; destruct k; discriminate | reflexivity].
  - destruct (check_day i x) as [r|] eqn:E.
    + split; [discriminate|]. intros H.
      specialize (H 0%nat x eq_refl). replace (i + Z.of_nat 0)%Z with i in H by lia.
      apply check_day_none in H. congruence.
    + apply check_day_none in E. rewrite IH. split.
      * intros H [|k] d Hk.
        -- injection Hk as <-. replace (i + Z.of_nat 0)%Z with i by lia. exact E.
        -- replace (i + Z.of_nat (S k))%Z with (i + 1 + Z.of_nat k)%Z by lia. apply H, Hk.
      * intros H k d Hk.
        replace (i + 1 + Z.of_nat k)%Z with (i + Z.of_nat (S k))%Z by lia. apply H, Hk.
Qed.

Lemma check_days_some i l r :
  check_days i l = Some r <->
  exists k d, l !! k = Some d /\
    (forall j d', (j < k)%nat -> l !! j = Some d' -> Spec.day_ok (i + Z.of_nat j) d') /\
    Spec.day_reason (i + Z.of_nat k) d r.
Proof.
  revert i. induction l as [|x l IH]; intros i; simpl.
  - split; [discriminate|]. intros (k & d & H & _). destruct k; discriminate.
  - destruct (check_day i x) as [r'|] eqn:E.
    + split.
      * intros [= <-]. exists 0%nat, x. split; [reflexivity|]. split; [intros; lia|].
        replace (i + Z.of_nat 0)%Z with i by lia. apply check_day_some, E.
      * intros ([|k] & d & Hk & Hlt & Hr).
        -- injection Hk as <-. replace (i + Z.of_nat 0)%Z with i in Hr by lia.
           apply check_day_some in Hr. congruence.
        -- specialize (Hlt 0%nat x ltac:(lia) eq_refl).
           replace (i + Z.of_nat 0)%Z with i in Hlt by lia.
           apply check_day_none in Hlt. congruence.
    + apply check_day_none in E. rewrite IH. split.
      * intros (k & d & Hk & Hlt & Hr). exists (S k), d. split; [exact Hk|]. split.
        -- intros [|j] d' Hj Hd'.
           ++ injection Hd' as <-. replace (i + Z.of_nat 0)%Z with i by lia. exact E.
           ++ replace (i + Z.of_nat (S j))%Z with (i + 1 + Z.of_nat j)%Z by lia.
              apply Hlt; [lia | exact Hd'].
        -- replace (i + Z.of_nat (S k))%Z with (i + 1 + Z.of_nat k)%Z by lia. exact Hr.
      * intros ([|k] & d & Hk & Hlt & Hr).
        -- injection Hk as <-. replace (i + Z.of_nat 0)%Z with i in Hr by lia.
           apply check_day_some in Hr. apply check_day_none in E. congruence.
        -- exists k, d. split; [exact Hk|]. split.
           ++ intros j d' Hj Hd'.
              replace (i + 1 + Z.of_nat j)%Z with (i + Z.of_nat (S j))%Z by lia.
              apply Hlt; [lia | exact Hd'].
           ++ replace (i + 1 + Z.of_nat k)%Z with (i + Z.of_nat (S k))%Z by lia. exact Hr.
Qed.


(** All seven checks hold exactly when the candidate is non-empty, has the
    expected length and every day plan passes checks 3 to 7 at its
    position. *)
Lemma valid_daywise it n :
  Spec.valid it n <->
  it <> [] /\ Z.of_nat (length it) = n /\
  forall k d, it !! k = Some d -> Spec.day_ok (1 + Z.of_nat k) d.
Proof.
  split.
  - intros H.
    pose proof (H 1%nat) as H1. pose proof (H 2%nat) as H2. pose proof (H 3%nat) as H3.
    pose proof (H 4%nat) as H4. pose proof (H 5%nat) as H5. pose proof (H 6%nat) as H6.
    pose proof (H 7%nat) as H7. simpl in *.
    split; [exact H1|]. split; [exact H2|]. intros k d Hk.
    pose proof (lookup_lt_Some _ _ _ Hk) as Hlt.
    assert (Hin : d ∈ it) by (apply list_elem_of_lookup; eauto).
    unfold Spec.day_ok. split; [|split; [|split; [|split]]].
    + destruct (H3 (1 + Z.of_nat k)%Z) as (d' & Hd' & Hday); [unfold Spec.check2 in H2; lia|].
      replace (Z.to_nat (1 + Z.of_nat k - 1)) with k in Hd' by lia. congruence.
    + apply (proj1 (Forall_forall _ _) H4 d Hin).
    + apply (proj1 (Forall_forall _ _) H5 d Hin).
    + apply (proj1 (Forall_forall _ _) H6 d Hin).
    + apply (proj1 (Forall_forall _ _) H7 d Hin).
  - intros (H1 & H2 & Hd). unfold Spec.valid. intros k.
    assert (Hall : forall d, d ∈ it -> exists k, it !! k = Some d /\ Spec.day_ok (1 + Z.of_nat k) d).
    { intros d Hin. apply list_elem_of_lookup in Hin as [j Hj]. eauto. }
    destruct k as [|[|[|[|[|[|[|[|k]]]]]]]]; simpl; try exact I.
    + exact H1.
    + exact H2.
    + intros i Hi. destruct (lookup_lt_is_Some_2 it (Z.to_nat (i - 1))) as [d Hk].
      { unfold Spec.check2 in *. lia. }
      exists d. split; [exact Hk|]. apply Hd in Hk as [Hk _]. lia.
    + apply Forall_forall. intros d Hin. destruct (Hall d Hin) as (j & _ & Hok). apply Hok.
    + apply Forall_forall. intros d Hin. destruct (Hall d Hin) as (j & _ & Hok). apply Hok.
    + apply Forall_forall. intros d Hin. destruct (Hall d Hin) as (j & _ & Hok). apply Hok.
    + apply Forall_forall. intros d Hin. destruct (Hall d Hin) as (j & _ & Hok). apply Hok.
Qed.

Lemma violation_none it n : violation it n = None <-> Spec.valid it n.
Proof.
  rewrite valid_daywise. unfold violation.
  case_bool_decide as He.
  { split; [discriminate | tauto]. }
  destruct (Z.eqb_spec (Z.of_nat (length it)) n) as [Hn|Hn]; simpl.
  - rewrite check_days_none. tauto.
  - split; [discriminate | tauto].
Qed.

Lemma violation_some it n r : violation it n = Some r <-> Spec.reported it n r.
Proof.
  unfold violation. case_bool_decide as He.
  { split.
    - intros [= <-]. constructor. exact He.
    - intros H. inversion H; subst; try tauto. }
  destruct (Z.eqb_spec (Z.of_nat (length it)) n) as [Hn|Hn]; simpl.
  - rewrite check_days_some. split.
    + intros (k & d & Hk & Hlt & Hr).
      apply Spec.reports_day with k d; try assumption.
      * intros j d' Hj Hd'. replace (Z.of_nat j + 1)%Z with (1 + Z.of_nat j)%Z by lia. eauto.
      * replace (Z.of_nat k + 1)%Z with (1 + Z.of_nat k)%Z by lia. exact Hr.
    + intros H. inversion H as [| |k d r' ? ? Hk Hlt Hr]; subst; try tauto.
      exists k, d. split; [exact Hk|]. split.
      * intros j d' Hj Hd'. replace (1 + Z.of_nat j)%Z with (Z.of_nat j + 1)%Z by lia. eauto.
      * replace (1 + Z.of_nat k)%Z with (Z.of_nat k + 1)%Z by lia. exact Hr.
  - split.
    + intros [= <-]. constructor; assumption.
    + intros H. inversion H; subst; try tauto.
Qed.

Section WithRuntime.
Context {rt : PyRuntime}.

(** C2, as amended: validation succeeds exactly when all seven checks hold;
    otherwise a [ValueError] is raised whose reason is that of check 1, else
    of check 2, else of the first of checks 3 to 7 failed by the first day
    plan (in order) that fails any of them; a day-number mismatch names the
    position and the offending day value. *)
Theorem validation_daywise (itinerary : list DayItinerary) (expected_days : Z)
    (e : env) (w : world) :
  ((ItineraryGenerator._validate_itinerary itinerary expected_days e w).1.1 = Return tt
     <-> Spec.valid itinerary expected_days) /\
  (forall x, (ItineraryGenerator._validate_itinerary itinerary expected_days e w).1.1 = Raise x
     <-> exists r, Spec.reported itinerary expected_days r /\
                   violation itinerary expected_days = Some r /\
                   x = ValueError (reason_message r)) /\
  (forall i got, reason_message (DayNumbering i got) =
     "Day numbering mismatch: expected day " +:+ pretty i +:+ ", got day " +:+ pretty got).
Proof.
  unfold ItineraryGenerator._validate_itinerary.
  destruct (violation itinerary expected_days) as [r|] eqn:E.
  - split; [|split].
    + simpl. split; [discriminate|]. intros H. apply violation_none in H. congruence.
    + intros x. simpl. split.
      * intros [= <-]. exists r. split; [apply violation_some, E|]. split; reflexivity.
      * intros (r' & _ & [= <-] & ->). reflexivity.
    + reflexivity.
  - split; [|split].
    + simpl. split; [intros _; apply violation_none, E | reflexivity].
    + intros x. simpl. split; [discriminate|]. intros (r' & _ & H & _). discriminate.
    + reflexivity.
Qed.

End WithRuntime.

(** A two-day candidate: day 1 has a blank theme, day 2 carries number 5. *)
Definition blank_then_misnumbered : list DayItinerary :=
  [mkDayItinerary 1 "  " (activities (Demo.paris_day 1)); Demo.paris_day 5].

(** C2, as stated, fails: on [blank_then_misnumbered] the first failing
    check of the list is check 3 (position 2 holds day 5), and the reason
    reported is the blank theme of day 1, which belongs to check 4. *)
Lemma validation_not_checkwise :
  ~ (forall it n r, violation it n = Some r ->
       Spec.first_failing (Spec.check_of_reason r) it n).
Proof.
  intros H.
  specialize (H blank_then_misnumbered 2%Z (MissingTheme 1) eq_refl).
  destruct H as [Hbefore _]. specialize (Hbefore 3%nat ltac:(simpl; lia)).
  simpl in Hbefore. destruct (Hbefore 2%Z ltac:(lia)) as (d & Hd & Hday).
  simpl in Hd. injection Hd as <-. discriminate Hday.
Qed.

End ValidatorProofs.

(** ** The generation client *)

Module ClientProofs.
Import OpenAIService ClientSpec.

(** The world after [k] more requests. *)
Definition after_posts (k : nat) (w : world) : world :=
  mkWorld (store w) (pending w) (db_calls w) (k + http_calls w) (clock_reads w)
          (uuid_calls w).

(** What a retryable outcome ends in once the budget is spent. *)
Definition final_failure (o : http_outcome) : exn :=
  match o with
  | HttpTimeout => PyException "Request timeout after all retries"
  | HttpClientError msg => PyException ("Network error after all retries: " +:+ msg)
  | HttpResponse _ _ => PyException "Rate limit exceeded after all retries"
  | HttpNotJson status _ msg =>
      if (status =? 200)%Z then PyException ("Network error after all retries: " +:+ msg)
      else PyException "Rate limit exceeded after all retries"
  end.

(** A reply with status 200 that is not served as JSON: [response.json()]
    raises inside the [try], and the [except aiohttp.ClientError] clause
    catches it. *)
Definition mistyped (o : http_outcome) : Prop :=
  exists text msg, o = HttpNotJson 200 text msg.

(** What the loop retries. *)
Definition retried (o : http_outcome) : Prop := retryable o \/ mistyped o.

Lemma rbind_raise {A B} (r : result A) (k : A -> result B) x :
  rbind r k = Raise x -> r = Raise x \/ exists a, r = Return a /\ k a = Raise x.
Proof.
  destruct r as [a|y]; simpl; intros H.
  - right. exists a. split; [reflexivity | exact H].
  - left. injection H as ->. reflexivity.
Qed.

Ltac split_rbind H :=
  repeat match type of H with
         | rbind _ _ = Raise _ =>
             apply rbind_raise in H as [H | (? & _ & H)]
         end.

Section WithRuntime.
Context {rt : PyRuntime}.

Lemma getitem_raise v k x : getitem v k = Raise x -> content_error x.
Proof.
  unfold getitem. destruct v; try (intros [= <-]; exact I).
  destruct (dict_get k items); intros [= <-]; exact I.
Qed.

Lemma getitem_0_raise v x : getitem_0 v = Raise x -> content_error x.
Proof.
  unfold getitem_0. destruct v as [| | |s| |l|]; try (intros [= <-]; exact I).
  - destruct s; intros [= <-]; exact I.
  - destruct l; intros [= <-]; exact I.
Qed.

Lemma strip_value_raise v x : strip_value v = Raise x -> content_error x.
Proof. unfold strip_value. destruct v; intros [= <-]; exact I. Qed.

Lemma iterate_raise v x : iterate v = Raise x -> content_error x.
Proof. unfold iterate. destruct v; intros [= <-]; exact I. Qed.

Lemma loads_raise text x : loads text = Raise x -> content_error x.
Proof. unfold loads. destruct (json_loads text); intros [= <-]; exact I. Qed.

Lemma json_of_response_raise text x : json_of_response text = Raise x -> content_error x.
Proof. unfold json_of_response. destruct (response_json text); intros [= <-]; exact I. Qed.

Lemma str_field_raise model v x : str_field model v = Raise x -> content_error x.
Proof. unfold str_field. destruct (pydantic_str v); intros [= <-]; exact I. Qed.

Lemma day_field_raise v x : day_field v = Raise x -> content_error x.
Proof.
  unfold day_field. destruct (pydantic_int v) as [z|]; [destruct (1 <=? z)%Z|];
    intros [= <-]; exact I.
Qed.

Lemma parse_activity_raise a x : parse_activity a = Raise x -> content_error x.
Proof.
  unfold parse_activity. intros H. split_rbind H;
    eauto using getitem_raise, str_field_raise. discriminate.
Qed.

Lemma parse_activities_raise l x : parse_activities l = Raise x -> content_error x.
Proof.
  induction l as [|a l IH]; simpl; [discriminate|]. intros H. split_rbind H;
    eauto using parse_activity_raise. discriminate.
Qed.

Lemma parse_day_raise d x : parse_day d = Raise x -> content_error x.
Proof.
  unfold parse_day. intros H. split_rbind H;
    eauto using getitem_raise, iterate_raise, parse_activities_raise, day_field_raise,
      str_field_raise. discriminate.
Qed.

Lemma day_label_raise d x : day_label d = Raise x -> content_error x.
Proof.
  unfold day_label. destruct d; try (intros [= <-]; exact I).
  destruct (dict_get "day" items); discriminate.
Qed.

Lemma parse_day_guarded_raise d x : parse_day_guarded d = Raise x -> content_error x.
Proof.
  unfold parse_day_guarded. destruct (parse_day d) as [a|y] eqn:E; [discriminate|].
  apply parse_day_raise in E.
  destruct y; try (intros [= <-]; exact E);
    (intros H; split_rbind H; [eauto using day_label_raise | injection H as <-; exact I]).
Qed.

Lemma parse_days_raise l x : parse_days l = Raise x -> content_error x.
Proof.
  induction l as [|d l IH]; simpl; [discriminate|]. intros H. split_rbind H;
    eauto using parse_day_guarded_raise. discriminate.
Qed.

Lemma _parse_itinerary_raise v x : _parse_itinerary v = Raise x -> content_error x.
Proof.
  unfold _parse_itinerary. intros H. split_rbind H;
    eauto using iterate_raise, parse_days_raise.
Qed.

Lemma parse_content_raise content x : parse_content content = Raise x -> content_error x.
Proof.
  unfold parse_content.
  destruct (rbind (loads content) _) as [a|y] eqn:E; [discriminate|].
  assert (Hy : content_error y).
  { split_rbind E; eauto using loads_raise, getitem_raise, _parse_itinerary_raise. }
  destruct y; intros [= <-]; first [exact Hy | exact I].
Qed.

(** Whatever the status-200 branch raises is a content error. *)
Lemma on_success_raise text x : on_success text = Raise x -> content_error x.
Proof.
  unfold on_success. intros H. split_rbind H;
    eauto using json_of_response_raise, getitem_raise, getitem_0_raise, strip_value_raise,
      parse_content_raise.
Qed.

Lemma content_not_transport x : content_error x -> ~ transport x.
Proof. destruct x; simpl; tauto. Qed.

Lemma content_not_exhaustion x : content_error x -> ~ exhaustion x.
Proof.
  intros Hc [H|[H|[msg H]]]; subst; exact Hc.
Qed.

(** Neither [except] clause of an attempt catches a content error. *)
Lemma handlers_none self a x : content_error x -> attempt_handlers self a x = None.
Proof. destruct x; simpl; tauto. Qed.

Lemma attempt_retried self a e w :
  retried (http e (http_calls w)) ->
  try_except (attempt_body self a) (attempt_handlers self a) e w =
    if (a <? max_retries self - 1)%Z
    then (Return Continue, after_posts 1 w, [HttpPost; Sleep (retry_delay self * 2 ^ a)])
    else (Raise (final_failure (http e (http_calls w))), after_posts 1 w, [HttpPost]).
Proof.
  intros Hr. unfold try_except, attempt_body, bind, http_post.
  destruct (http e (http_calls w)) as [|msg|status text|status text msg] eqn:Eo.
  - simpl. unfold backoff_or. destruct (a <? max_retries self - 1)%Z; reflexivity.
  - simpl. unfold backoff_or. destruct (a <? max_retries self - 1)%Z; reflexivity.
  - destruct Hr as [Hr|(t & m & Hr)]; [|discriminate]. simpl in Hr. subst status.
    simpl. unfold backoff_or. destruct (a <? max_retries self - 1)%Z; reflexivity.
  - destruct Hr as [Hr|(t & m & Hr)].
    + simpl in Hr. subst status. simpl. unfold backoff_or.
      destruct (a <? max_retries self - 1)%Z; reflexivity.
    + injection Hr as -> _ _. simpl. unfold backoff_or.
      destruct (a <? max_retries self - 1)%Z; reflexivity.
Qed.

Lemma attempt_retryable self a e w :
  retryable (http e (http_calls w)) ->
  try_except (attempt_body self a) (attempt_handlers self a) e w =
    if (a <? max_retries self - 1)%Z
    then (Return Continue, after_posts 1 w, [HttpPost; Sleep (retry_delay self * 2 ^ a)])
    else (Raise (final_failure (http e (http_calls w))), after_posts 1 w, [HttpPost]).
Proof. intros Hr. apply attempt_retried. left. exact Hr. Qed.

Lemma attempt_success self a e w text :
  http e (http_calls w) = HttpResponse 200 text ->
  try_except (attempt_body self a) (attempt_handlers self a) e w =
    (match on_success text with
     | Return itinerary => Return (Done itinerary)
     | Raise x => Raise x
     end, after_posts 1 w, [HttpPost]).
Proof.
  intros Ho. unfold try_except, attempt_body, bind, http_post. rewrite Ho. simpl.
  unfold lift. destruct (on_success text) as [it|x] eqn:E; simpl; [reflexivity|].
  rewrite (handlers_none self a x (on_success_raise _ _ E)). reflexivity.
Qed.

Lemma attempt_other self a e w :
  other_failure (http e (http_calls w)) ->
  exists status text,
    (http e (http_calls w) = HttpResponse status text \/
     exists msg, http e (http_calls w) = HttpNotJson status text msg) /\
    try_except (attempt_body self a) (attempt_handlers self a) e w =
      (Raise (PyException ("OpenAI API error " +:+ pretty status +:+ ": " +:+ text)),
       after_posts 1 w, [HttpPost]).
Proof.
  intros Ho. unfold try_except, attempt_body, bind, http_post.
  destruct (http e (http_calls w)) as [| |status text|status text msg]; simpl in Ho;
    try tauto.
  - exists status, text. split; [left; reflexivity|]. destruct Ho as [H2 H4].
    apply Z.eqb_neq in H2, H4. rewrite H2, H4. reflexivity.
  - exists status, text. split; [right; eauto|]. destruct Ho as [H2 H4].
    apply Z.eqb_neq in H2, H4. rewrite H2, H4. reflexivity.
Qed.


(** Every outcome is one the loop retries, a success response served as
    JSON, or another failure. *)
Lemma outcome_cases (o : http_outcome) :
  retried o \/ (exists text, o = HttpResponse 200 text) \/ other_failure o.
Proof.
  unfold retried, mistyped.
  destruct o as [| |status text|status text msg]; simpl; try tauto.
  - destruct (Z.eq_dec status 429); [tauto|].
    destruct (Z.eq_dec status 200); [subst; eauto | tauto].
  - destruct (Z.eq_dec status 429); [tauto|].
    destruct (Z.eq_dec status 200); [subst; eauto | tauto].
Qed.

(** One attempt ends in one of three ways, after exactly one request. *)
Lemma attempt_cases self a e w :
  try_except (attempt_body self a) (attempt_handlers self a) e w
    = (Return Continue, after_posts 1 w, [HttpPost; Sleep (retry_delay self * 2 ^ a)]) \/
  (exists itinerary,
      try_except (attempt_body self a) (attempt_handlers self a) e w
        = (Return (Done itinerary), after_posts 1 w, [HttpPost])) \/
  (exists x,
      try_except (attempt_body self a) (attempt_handlers self a) e w
        = (Raise x, after_posts 1 w, [HttpPost])).
Proof.
  destruct (outcome_cases (http e (http_calls w))) as [H|[[text H]|H]].
  - rewrite (attempt_retried self a e w H).
    destruct (a <? max_retries self - 1)%Z; [left | right; right]; eauto.
  - rewrite (attempt_success self a e w text H).
    destruct (on_success text); right; [left | right]; eauto.
  - destruct (attempt_other self a e w H) as (status & text & _ & ->). right; right. eauto.
Qed.

Lemma loop_retried self a rest e w :
  retried (http e (http_calls w)) -> (a < max_retries self - 1)%Z ->
  attempt_loop self (a :: rest) e w =
    (let '(r, w', tr) := attempt_loop self rest e (after_posts 1 w) in
     (r, w', HttpPost :: Sleep (retry_delay self * 2 ^ a) :: tr)).
Proof.
  intros Hr Hlt. simpl. unfold bind at 1. rewrite (attempt_retried self a e w Hr).
  apply Z.ltb_lt in Hlt. rewrite Hlt.
  destruct (attempt_loop self rest e (after_posts 1 w)) as [[r w'] tr]. reflexivity.
Qed.

Lemma loop_spent self a rest e w :
  retried (http e (http_calls w)) -> (max_retries self - 1 <= a)%Z ->
  attempt_loop self (a :: rest) e w =
    (Raise (final_failure (http e (http_calls w))), after_posts 1 w, [HttpPost]).
Proof.
  intros Hr Hge. simpl. unfold bind at 1. rewrite (attempt_retried self a e w Hr).
  apply Z.ltb_ge in Hge. rewrite Hge. reflexivity.
Qed.

Lemma loop_retry self a rest e w :
  retryable (http e (http_calls w)) -> (a < max_retries self - 1)%Z ->
  attempt_loop self (a :: rest) e w =
    (let '(r, w', tr) := attempt_loop self rest e (after_posts 1 w) in
     (r, w', HttpPost :: Sleep (retry_delay self * 2 ^ a) :: tr)).
Proof. intros Hr. apply loop_retried. left. exact Hr. Qed.

Lemma loop_exhausted self a rest e w :
  retryable (http e (http_calls w)) -> (max_retries self - 1 <= a)%Z ->
  attempt_loop self (a :: rest) e w =
    (Raise (final_failure (http e (http_calls w))), after_posts 1 w, [HttpPost]).
Proof. intros Hr. apply loop_spent. left. exact Hr. Qed.

Lemma loop_success self a rest e w text :
  http e (http_calls w) = HttpResponse 200 text ->
  attempt_loop self (a :: rest) e w = (on_success text, after_posts 1 w, [HttpPost]).
Proof.
  intros Ho. simpl. unfold bind at 1. rewrite (attempt_success self a e w text Ho).
  destruct (on_success text); reflexivity.
Qed.

Lemma loop_other self a rest e w :
  other_failure (http e (http_calls w)) ->
  exists x, ~ exhaustion x /\
    attempt_loop self (a :: rest) e w = (Raise x, after_posts 1 w, [HttpPost]).
Proof.
  intros Ho. destruct (attempt_other self a e w Ho) as (status & text & Heq & Hrun).
  eexists. split; [|simpl; unfold bind at 1; rewrite Hrun; reflexivity].
  intros [H|[H|[msg H]]]; discriminate.
Qed.

(** The trace of [k] retried attempts, the first with index [a]. *)
Fixpoint backoff_trace (self : t) (a : Z) (k : nat) : list event :=
  match k with
  | O => []
  | S k' => HttpPost :: Sleep (retry_delay self * 2 ^ a) :: backoff_trace self (a + 1) k'
  end.

Lemma after_posts_0 w : after_posts 0 w = w.
Proof. destruct w; reflexivity. Qed.

Lemma after_posts_S k w : after_posts k (after_posts 1 w) = after_posts (S k) w.
Proof. unfold after_posts; simpl. f_equal. lia. Qed.

(** [k] retried outcomes in a row, with budget left after them: the loop
    goes on with attempt [a + k]. *)
Lemma loop_skip_retried self e (k : nat) : forall (a len : Z) (w : world),
  (Z.of_nat k < len)%Z -> (a + len = max_retries self)%Z ->
  (forall j, (j < k)%nat -> retried (http e (j + http_calls w))) ->
  attempt_loop self (seqZ a len) e w =
    (let '(r, w', tr) :=
       attempt_loop self (seqZ (a + Z.of_nat k) (len - Z.of_nat k)) e (after_posts k w) in
     (r, w', (backoff_trace self a k ++ tr)%list)).
Proof.
  induction k as [|k IH]; intros a len w Hlen Hmax Hretry.
  - rewrite after_posts_0, Z.add_0_r, Z.sub_0_r. simpl.
    destruct (attempt_loop self (seqZ a len) e w) as [[r w'] tr]. reflexivity.
  - rewrite (seqZ_cons a len) by lia.
    rewrite loop_retried; [| apply (Hretry 0%nat); lia | lia].
    rewrite (IH (Z.succ a) (Z.pred len) (after_posts 1 w)); [| lia | lia |].
    + rewrite after_posts_S.
      replace (Z.succ a + Z.of_nat k)%Z with (a + Z.of_nat (S k))%Z by lia.
      replace (Z.pred len - Z.of_nat k)%Z with (len - Z.of_nat (S k))%Z by lia.
      destruct (attempt_loop self _ e (after_posts (S k) w)) as [[r w'] tr].
      simpl. replace (a + 1)%Z with (Z.succ a) by lia. reflexivity.
    + intros j Hj. simpl. replace (j + S (http_calls w))%nat with (S j + http_calls w)%nat by lia.
      apply Hretry. lia.
Qed.

(** [k] retryable outcomes in a row, with budget left after them, are all
    retried: the loop goes on with attempt [a + k]. *)
Lemma loop_skip self e (k : nat) : forall (a len : Z) (w : world),
  (Z.of_nat k < len)%Z -> (a + len = max_retries self)%Z ->
  (forall j, (j < k)%nat -> retryable (http e (j + http_calls w))) ->
  attempt_loop self (seqZ a len) e w =
    (let '(r, w', tr) :=
       attempt_loop self (seqZ (a + Z.of_nat k) (len - Z.of_nat k)) e (after_posts k w) in
     (r, w', (backoff_trace self a k ++ tr)%list)).
Proof.
  intros a len w Hlen Hmax Hretry. apply loop_skip_retried; [exact Hlen | exact Hmax|].
  intros j Hj. left. apply Hretry, Hj.
Qed.

Lemma posts_app t1 t2 : System.posts (t1 ++ t2) = (System.posts t1 + System.posts t2)%nat.
Proof. unfold System.posts. rewrite filter_app, length_app. reflexivity. Qed.

Lemma sleeps_app t1 t2 : System.sleeps (t1 ++ t2) = (System.sleeps t1 ++ System.sleeps t2)%list.
Proof. unfold System.sleeps. apply omap_app. Qed.

Lemma posts_retry s tr : System.posts (HttpPost :: Sleep s :: tr) = S (System.posts tr).
Proof. reflexivity. Qed.

Lemma posts_single : System.posts [HttpPost] = 1%nat.
Proof. reflexivity. Qed.

Lemma sleeps_retry s tr : System.sleeps (HttpPost :: Sleep s :: tr) = s :: System.sleeps tr.
Proof. reflexivity. Qed.

Lemma posts_backoff self a k : System.posts (backoff_trace self a k) = k.
Proof.
  revert a. induction k as [|k IH]; intros a; [reflexivity|].
  simpl backoff_trace. rewrite posts_retry, IH. reflexivity.
Qed.

Lemma sleeps_backoff self a k :
  System.sleeps (backoff_trace self a k) =
    (fun j => retry_delay self * 2 ^ j)%Z <$> seqZ a (Z.of_nat k).
Proof.
  revert a. induction k as [|k IH]; intros a; [reflexivity|].
  rewrite (seqZ_cons a) by lia. rewrite fmap_cons.
  simpl backoff_trace. rewrite sleeps_retry, IH. replace (Z.pred (Z.of_nat (S k))) with (Z.of_nat k) by lia.
  replace (Z.succ a) with (a + 1)%Z by lia. reflexivity.
Qed.

(** Over any list of attempt indices, the delays are those of a prefix of
    the list, and each attempt sends one request. *)
Lemma loop_delays self e l : forall w r w' tr,
  attempt_loop self l e w = (r, w', tr) ->
  http_calls w' = (System.posts tr + http_calls w)%nat /\
  exists n,
    System.sleeps tr = (fun j => retry_delay self * 2 ^ j)%Z <$> take n l /\
    (System.posts tr = S n /\ (n < length l)%nat \/ System.posts tr = n /\ n = length l).
Proof.
  induction l as [|a l IH]; intros w r w' tr Hrun.
  - simpl in Hrun. injection Hrun as <- <- <-. split; [reflexivity|]. exists 0%nat. simpl. auto.
  - simpl in Hrun. unfold bind at 1 in Hrun.
    destruct (attempt_cases self a e w) as [H|[[it H]|[x H]]]; rewrite H in Hrun.
    + destruct (attempt_loop self l e (after_posts 1 w)) as [[r1 w1] t1] eqn:E.
      injection Hrun as <- <- <-.
      destruct (IH _ _ _ _ E) as (Hc & n & Hs & Hp). split.
      * rewrite Hc. simpl app. rewrite posts_retry. cbn [after_posts http_calls]. lia.
      * exists (S n). simpl app. rewrite sleeps_retry, posts_retry, Hs.
        split; [reflexivity|]. cbn [length].
        lia.
    + simpl in Hrun. injection Hrun as <- <- <-. split; [reflexivity|]. exists 0%nat.
      split; [reflexivity | left; split; [reflexivity | simpl; lia]].
    + injection Hrun as <- <- <-. split; [reflexivity|]. exists 0%nat.
      split; [reflexivity | left; split; [reflexivity | simpl; lia]].
Qed.

Lemma loop_posts_bounds self e l w r w' tr :
  attempt_loop self l e w = (r, w', tr) ->
  (System.posts tr <= length l)%nat /\ (l <> [] -> (1 <= System.posts tr)%nat).
Proof.
  intros Hrun. destruct (loop_delays _ _ _ _ _ _ _ Hrun) as (_ & n & _ & Hp).
  split; [lia|]. intros Hne. destruct l; [congruence|]. simpl in Hp. lia.
Qed.

(** When the indices run up to [max_retries - 1], the loop never runs out:
    the last request is not followed by a delay. *)
Lemma loop_aligned self e (len : nat) : forall a w r w' tr,
  (a + Z.of_nat len = max_retries self)%Z -> (0 < len)%nat ->
  attempt_loop self (seqZ a (Z.of_nat len)) e w = (r, w', tr) ->
  System.posts tr = S (length (System.sleeps tr)).
Proof.
  induction len as [|len IH]; intros a w r w' tr Hmax Hpos Hrun; [lia|].
  rewrite (seqZ_cons a) in Hrun by lia.
  destruct (outcome_cases (http e (http_calls w))) as [H|[[text H]|H]].
  - destruct (Z.lt_ge_cases a (max_retries self - 1)) as [Hlt|Hge].
    + rewrite loop_retried in Hrun by assumption.
      replace (Z.pred (Z.of_nat (S len))) with (Z.of_nat len) in Hrun by lia.
      destruct (attempt_loop self _ e (after_posts 1 w)) as [[r1 w1] t1] eqn:E.
      injection Hrun as <- <- <-. rewrite posts_retry, sleeps_retry. simpl. f_equal.
      apply (IH (Z.succ a) (after_posts 1 w) r1 w1 t1); [lia | lia | exact E].
    + rewrite loop_spent in Hrun by assumption. injection Hrun as <- <- <-. reflexivity.
  - rewrite (loop_success _ _ _ _ _ _ H) in Hrun. injection Hrun as <- <- <-. reflexivity.
  - destruct (loop_other self a (seqZ (Z.succ a) (Z.pred (Z.of_nat (S len)))) e w H)
      as (x & _ & Heq).
    rewrite Heq in Hrun. injection Hrun as <- <- <-. reflexivity.
Qed.

Lemma final_failure_exhaustion o : exhaustion (final_failure o).
Proof.
  destruct o as [| | |status text msg]; unfold exhaustion; simpl; eauto.
  destruct (status =? 200)%Z; eauto.
Qed.

(** C3: [generate_itinerary] sends at most 3 requests.  After [k < 3]
    retryable failures in a row a further request is sent.  If that request
    meets another non-success status the call ends there with a failure
    that is not a retry exhaustion; if it meets a retryable failure it is
    retried when it was the first or second request, and the call ends with
    an exhaustion failure, without a fourth request, when it was the
    third. *)
Theorem retry_policy (e : env) (w : world) (destination : string) (duration_days : Z)
    (r : result (list DayItinerary)) (w' : world) (tr : list event) (k : nat) :
  generate_itinerary init destination duration_days e w = (r, w', tr) ->
  (k < 3)%nat ->
  (forall j, (j < k)%nat -> retryable (http e (j + http_calls w))) ->
  (System.posts tr <= 3)%nat /\
  http_calls w' = (System.posts tr + http_calls w)%nat /\
  (k < System.posts tr)%nat /\
  (other_failure (http e (k + http_calls w)) ->
     System.posts tr = S k /\ exists x, r = Raise x /\ ~ exhaustion x) /\
  (retryable (http e (k + http_calls w)) ->
     if (k <? 2)%nat then (S k < System.posts tr)%nat
     else System.posts tr = 3%nat /\ exists x, r = Raise x /\ exhaustion x).
Proof.
  unfold generate_itinerary. change (max_retries init) with 3%Z. intros Hrun Hk Hpre.
  pose proof (loop_posts_bounds _ _ _ _ _ _ _ Hrun) as [Hle _].
  pose proof (loop_delays _ _ _ _ _ _ _ Hrun) as [Hcalls _].
  split; [exact Hle|]. split; [exact Hcalls|].
  rewrite (loop_skip init e k 0 3 w) in Hrun by (simpl; first [lia | assumption]).
  rewrite (seqZ_cons (0 + Z.of_nat k)) in Hrun by lia.
  set (rest := seqZ (Z.succ (0 + Z.of_nat k)) (Z.pred (3 - Z.of_nat k))) in Hrun.
  destruct (attempt_loop init (_ :: rest) e (after_posts k w)) as [[r2 w2] t2] eqn:E.
  injection Hrun as <- <- <-. rewrite posts_app, posts_backoff.
  pose proof (loop_posts_bounds _ _ _ _ _ _ _ E) as [_ Hge].
  specialize (Hge ltac:(discriminate)).
  split; [lia|]. split.
  - intros Ho. destruct (loop_other init (0 + Z.of_nat k) rest e (after_posts k w) Ho)
      as (x & Hx & Heq).
    rewrite Heq in E. injection E as <- <- <-. split; [rewrite posts_single; lia | eauto].
  - intros Hr. destruct (Nat.ltb_spec k 2) as [Hlt|Hge2].
    + rewrite loop_retry in E; [| exact Hr | simpl; lia].
      destruct (attempt_loop init rest e (after_posts 1 (after_posts k w)))
        as [[r3 w3] t3] eqn:E3.
      injection E as <- <- <-. rewrite posts_retry.
      pose proof (loop_posts_bounds _ _ _ _ _ _ _ E3) as [_ Hge3].
      assert (rest <> []).
      { subst rest. rewrite seqZ_cons by lia. discriminate. }
      specialize (Hge3 ltac:(assumption)). lia.
    + rewrite loop_exhausted in E; [| exact Hr | simpl; lia].
      injection E as <- <- <-. split; [rewrite posts_single; lia|].
      eexists. split; [reflexivity | apply final_failure_exhaustion].
Qed.

(** C6: the j-th backoff delay of a call, j counted from 0, is
    [retry_delay * 2 ^ j], and every request but the last is followed by
    one.  With rate-limit responses to the first two requests and a
    well-formed success response to the third, the call returns the parsed
    itinerary after 3 requests and the 2 delays 1 and 2, which increase
    strictly. *)
Theorem backoff_delays (self : t) (e : env) (w : world) (destination : string)
    (duration_days : Z) (r : result (list DayItinerary)) (w' : world) (tr : list event) :
  generate_itinerary self destination duration_days e w = (r, w', tr) ->
  (forall j s, System.sleeps tr !! j = Some s ->
     s = (retry_delay self * 2 ^ Z.of_nat j)%Z) /\
  length (System.sleeps tr) = (System.posts tr - 1)%nat /\
  (forall t1 t2 text itinerary,
     self = init ->
     http e (http_calls w) = HttpResponse 429 t1 ->
     http e (1 + http_calls w) = HttpResponse 429 t2 ->
     http e (2 + http_calls w) = HttpResponse 200 text ->
     on_success text = Return itinerary ->
     r = Return itinerary /\ System.posts tr = 3%nat /\
     System.sleeps tr = [1; 2]%Z /\ StronglySorted Z.lt (System.sleeps tr)).
Proof.
  unfold generate_itinerary. intros Hrun. split; [|split].
  - destruct (loop_delays _ _ _ _ _ _ _ Hrun) as (_ & n & Hs & _).
    intros j s Hj. rewrite Hs, list_lookup_fmap in Hj.
    destruct (take n (seqZ 0 (max_retries self)) !! j) as [a|] eqn:Ea; [|discriminate].
    injection Hj as <-. apply lookup_take_Some in Ea as [Ea _].
    apply lookup_seqZ in Ea as [-> _]. reflexivity.
  - destruct (Z.le_gt_cases (max_retries self) 0) as [Hle|Hgt].
    + rewrite seqZ_nil in Hrun by lia. simpl in Hrun. injection Hrun as <- <- <-. reflexivity.
    + replace (max_retries self) with (Z.of_nat (Z.to_nat (max_retries self))) in Hrun by lia.
      rewrite (loop_aligned self e (Z.to_nat (max_retries self)) 0 w r w' tr); [lia | lia | lia |].
      exact Hrun.
  - intros t1 t2 text itinerary -> H0 H1 H2 Hok. change (max_retries init) with 3%Z in Hrun.
    rewrite (loop_skip init e 2 0 3 w) in Hrun; [| lia | reflexivity |].
    2: { intros [|[|j]] Hj; [unfold retryable; simpl Nat.add; rewrite H0
                           | unfold retryable; rewrite H1 | lia]; reflexivity. }
    change (seqZ (0 + Z.of_nat 2) (3 - Z.of_nat 2)) with [2%Z] in Hrun.
    rewrite (loop_success init 2 [] e (after_posts 2 w) text H2) in Hrun.
    injection Hrun as <- <- <-. split; [exact Hok|]. split; [reflexivity|].
    split; [reflexivity|]. repeat constructor.
Qed.

(** The client touches nothing but the request counter and writes
    nothing to the store. *)
Lemma loop_world self e l : forall w r w' tr,
  attempt_loop self l e w = (r, w', tr) ->
  w' = after_posts (System.posts tr) w /\ System.terminal_writes tr = [].
Proof.
  induction l as [|a l IH]; intros w r w' tr Hrun.
  - simpl in Hrun. injection Hrun as <- <- <-. rewrite after_posts_0. auto.
  - simpl in Hrun. unfold bind at 1 in Hrun.
    destruct (attempt_cases self a e w) as [H|[[it H]|[x H]]]; rewrite H in Hrun.
    + destruct (attempt_loop self l e (after_posts 1 w)) as [[r1 w1] t1] eqn:E.
      injection Hrun as <- <- <-. destruct (IH _ _ _ _ E) as [-> Ht].
      simpl app. rewrite posts_retry, after_posts_S. split; [reflexivity | exact Ht].
    + simpl in Hrun. injection Hrun as <- <- <-. auto.
    + injection Hrun as <- <- <-. auto.
Qed.

Lemma generate_world self destination duration_days e w r w' tr :
  generate_itinerary self destination duration_days e w = (r, w', tr) ->
  w' = after_posts (System.posts tr) w /\ System.terminal_writes tr = [].
Proof. apply loop_world. Qed.

End WithRuntime.
End ClientProofs.

(** ** The document store adapter *)

Module StoreProofs.
Import MongoDBService.

Lemma dict_get_set k k' v d :
  dict_get k (dict_set k' v d) = if String.eqb k' k then Some v else dict_get k d.
Proof.
  induction d as [|[k0 v0] d IH]; simpl.
  - reflexivity.
  - destruct (String.eqb_spec k0 k') as [->|Hne]; simpl.
    + destruct (String.eqb k' k); reflexivity.
    + rewrite IH. destruct (String.eqb_spec k0 k) as [->|Hne'].
      * destruct (String.eqb_spec k' k) as [->|_]; [congruence | reflexivity].
      * reflexivity.
Qed.

Lemma dict_get_set_ne k k' v d : k' <> k -> dict_get k (dict_set k' v d) = dict_get k d.
Proof.
  intros Hne. rewrite dict_get_set. destruct (String.eqb_spec k' k); [congruence | reflexivity].
Qed.

Lemma dict_set_not_nil k v d : dict_set k v d <> [].
Proof. destruct d as [|[k0 v0] d]; simpl; [|destruct (String.eqb k0 k)]; discriminate. Qed.

(** An update leaves alone every key it does not mention. *)
Lemma dict_get_update_other k fields d :
  (forall v, (k, v) ∉ fields) -> dict_get k (dict_update fields d) = dict_get k d.
Proof.
  unfold dict_update. revert d. induction fields as [|[k0 v0] fields IH]; intros d Hk; simpl.
  - reflexivity.
  - rewrite IH.
    + apply dict_get_set_ne. intros ->. apply (Hk v0). left.
    + intros v Hin. apply (Hk v). right. exact Hin.
Qed.

Section WithRuntime.
Context {rt : PyRuntime}.

Lemma dict_get_prepare k data :
  dict_get k (_prepare_data_for_mongodb data) = prepare_value <$> dict_get k data.
Proof.
  induction data as [|[k0 v0] data IH]; simpl; [reflexivity|].
  destruct (String.eqb k0 k); [reflexivity | exact IH].
Qed.

Lemma dict_get_process k data :
  dict_get k (_process_data_from_mongodb data) =
    if String.eqb k "_id" then None else process_value <$> dict_get k data.
Proof.
  induction data as [|[k0 v0] data IH]; simpl.
  - destruct (String.eqb k "_id"); reflexivity.
  - destruct (String.eqb_spec k0 "_id") as [->|Hne].
    + rewrite IH. destruct (String.eqb_spec k "_id") as [->|Hk]; [reflexivity|].
      destruct (String.eqb_spec "_id" k); [congruence | reflexivity].
    + simpl. destruct (String.eqb_spec k0 k) as [->|Hk].
      * destruct (String.eqb_spec k "_id"); [congruence | reflexivity].
      * exact IH.
Qed.

(** A nested dict is decoded like a document. *)
Lemma process_value_dict items :
  process_value (VDict items) = VDict (_process_data_from_mongodb items).
Proof.
  reflexivity.
Qed.

(** What decoding makes of a string. *)
Definition decoded (s : string) : value :=
  match fromisoformat (PyStr.replace_Z s) with
  | Some d => VDatetime d
  | None => VStr s
  end.

Lemma process_value_str s : process_value (VStr s) = decoded s.
Proof.
  unfold decoded. simpl. unfold _is_iso_datetime.
  destruct (fromisoformat (PyStr.replace_Z s)); reflexivity.
Qed.


Lemma update_document_run id data e w :
  update_document id data e w =
    match db_fault e (db_calls w) with
    | Some msg =>
        (Raise (PyMongoError msg), with_db_call (store w) w,
         [DbUpdateOne id (_prepare_data_for_mongodb data);
          Log ERROR ("Failed to update document " +:+ id +:+ ": " +:+ msg)])
    | None =>
        match store w !! id with
        | Some doc =>
            (Return tt,
             with_db_call (<[id := dict_update (_prepare_data_for_mongodb data) doc]> (store w)) w,
             [DbUpdateOne id (_prepare_data_for_mongodb data);
              Log INFO ("Document updated: " +:+ id)])
        | None =>
            (Return tt, with_db_call (store w) w,
             [DbUpdateOne id (_prepare_data_for_mongodb data);
              Log WARNING ("No document found with ID: " +:+ id)])
        end
    end.
Proof.
  unfold update_document, try_except, bind, update_one.
  destruct (db_fault e (db_calls w)); [reflexivity|].
  destruct (store w !! id); reflexivity.
Qed.

(** The fields written by [mark_as_failed], as they reach the driver. *)
Definition failed_fields (now : datetime) (error_message : string) : pydict :=
  [("status", VStr "failed"); ("completedAt", VStr (isoformat now));
   ("error", VStr error_message)].

(** The fields written by [mark_as_completed], as they reach the driver. *)
Definition completed_fields (now : datetime) (itinerary : list DayItinerary) : pydict :=
  [("status", VStr "completed"); ("completedAt", VStr (isoformat now));
   ("itinerary", VList (DayItinerary_dict <$> itinerary)); ("error", VNone)].

Definition after_clock (w : world) : world :=
  mkWorld (store w) (pending w) (db_calls w) (http_calls w) (S (clock_reads w)) (uuid_calls w).

Lemma mark_as_failed_run id msg e w :
  mark_as_failed id msg e w =
    update_document id
      [("status", VStr "failed"); ("completedAt", VDatetime (clock e (clock_reads w)));
       ("error", VStr msg)] e (after_clock w).
Proof.
  unfold mark_as_failed, bind, utcnow. fold (after_clock w).
  destruct (update_document id _ e (after_clock w)) as [[r w'] tr]. reflexivity.
Qed.

Lemma prepare_activity a : prepare_value (Activity_dict a) = Activity_dict a.
Proof. reflexivity. Qed.

(** The branch taken on a list element. *)
Definition prepare_element (x : value) : value :=
  match x with VDict _ => prepare_value x | _ => x end.

Lemma prepare_activities l :
  map prepare_element (Activity_dict <$> l) = Activity_dict <$> l.
Proof.
  induction l as [|a l IH]; [reflexivity|].
  rewrite fmap_cons. cbn [map]. rewrite IH. reflexivity.
Qed.

Lemma prepare_day d : prepare_value (DayItinerary_dict d) = DayItinerary_dict d.
Proof.
  change (prepare_value (DayItinerary_dict d)) with
    (VDict [("day", VInt (day d)); ("theme", VStr (theme d));
            ("activities", VList (map prepare_element (Activity_dict <$> activities d)))]).
  rewrite prepare_activities. reflexivity.
Qed.

Lemma prepare_days l :
  map prepare_element (DayItinerary_dict <$> l) = DayItinerary_dict <$> l.
Proof.
  induction l as [|d l IH]; [reflexivity|].
  rewrite fmap_cons. cbn [map]. rewrite IH. f_equal. exact (prepare_day d).
Qed.

Lemma prepare_completed now itinerary :
  _prepare_data_for_mongodb
    [("status", VStr "completed"); ("completedAt", VDatetime now);
     ("itinerary", VList (DayItinerary_dict <$> itinerary)); ("error", VNone)]
  = completed_fields now itinerary.
Proof.
  change (_prepare_data_for_mongodb _) with
    [("status", VStr "completed"); ("completedAt", VStr (isoformat now));
     ("itinerary", VList (map prepare_element (DayItinerary_dict <$> itinerary)));
     ("error", VNone)].
  rewrite prepare_days. reflexivity.
Qed.

Lemma mark_as_completed_run id itinerary e w :
  mark_as_completed id itinerary e w =
    update_document id
      [("status", VStr "completed"); ("completedAt", VDatetime (clock e (clock_reads w)));
       ("itinerary", VList (DayItinerary_dict <$> itinerary)); ("error", VNone)]
      e (after_clock w).
Proof.
  unfold mark_as_completed, bind, utcnow. fold (after_clock w).
  destruct (update_document id _ e (after_clock w)) as [[r w'] tr]. reflexivity.
Qed.

(** The document that [create_document] hands to the driver. *)
Definition created (document_id : string) (data : pydict) : pydict :=
  _prepare_data_for_mongodb
    (dict_set "jobId" (VStr document_id) (dict_set "_id" (VStr document_id) data)).

Lemma created_id id data : dict_get "_id" (created id data) = Some (VStr id).
Proof.
  unfold created. rewrite dict_get_prepare, dict_get_set_ne by discriminate.
  rewrite dict_get_set. reflexivity.
Qed.

Lemma created_jobId id data : dict_get "jobId" (created id data) = Some (VStr id).
Proof. unfold created. rewrite dict_get_prepare, dict_get_set. reflexivity. Qed.

Lemma created_other id data k :
  k <> "_id" -> k <> "jobId" ->
  dict_get k (created id data) = prepare_value <$> dict_get k data.
Proof.
  intros H1 H2. unfold created.
  rewrite dict_get_prepare, !dict_get_set_ne by congruence. reflexivity.
Qed.

Lemma created_not_nil id data : created id data <> [].
Proof. intros H. pose proof (created_id id data) as Hid. rewrite H in Hid. discriminate. Qed.

Lemma create_document_run id data e w :
  create_document id data e w =
    match db_fault e (db_calls w) with
    | Some msg =>
        (Raise (PyMongoError msg), with_db_call (store w) w,
         [DbInsertOne (created id data);
          Log ERROR ("Failed to create document " +:+ id +:+ ": " +:+ msg)])
    | None =>
        match store w !! id with
        | Some _ =>
            (Raise (PyMongoError "E11000 duplicate key error"), with_db_call (store w) w,
             [DbInsertOne (created id data);
              Log ERROR ("Failed to create document " +:+ id +:+ ": "
                           +:+ "E11000 duplicate key error")])
        | None =>
            (Return tt, with_db_call (<[id := created id data]> (store w)) w,
             [DbInsertOne (created id data); Log INFO ("Document created with ID: " +:+ id)])
        end
    end.
Proof.
  unfold create_document, try_except, bind, insert_one. fold (created id data).
  destruct (db_fault e (db_calls w)); [reflexivity|].
  rewrite created_id. destruct (store w !! id); reflexivity.
Qed.

Lemma get_document_run id e w :
  get_document id e w =
    match db_fault e (db_calls w) with
    | Some msg =>
        (Raise (PyMongoError msg), with_db_call (store w) w,
         [DbFindOne id; Log ERROR ("Failed to retrieve document " +:+ id +:+ ": " +:+ msg)])
    | None =>
        match store w !! id with
        | Some (item :: items) =>
            (Return (Some (_process_data_from_mongodb (item :: items))),
             with_db_call (store w) w,
             [DbFindOne id; Log INFO ("Document retrieved: " +:+ id)])
        | _ =>
            (Return None, with_db_call (store w) w,
             [DbFindOne id; Log INFO ("Document not found: " +:+ id)])
        end
    end.
Proof.
  unfold get_document, try_except, bind, find_one.
  destruct (db_fault e (db_calls w)); [reflexivity|].
  destruct (store w !! id) as [[|item items]|]; reflexivity.
Qed.

(** C9: [mark_as_failed] leaves the queue and every other document alone
    and creates none; in the job's document every field other than
    [status], [completedAt] and [error] keeps its value, in particular
    [destination], [durationDays], [createdAt], [jobId] and [itinerary];
    when the driver call goes through, the three fields are set. *)
Theorem mark_as_failed_frame (document_id error_message : string) (e : env) (w : world) :
  let w' := (mark_as_failed document_id error_message e w).1.2 in
  pending w' = pending w /\
  (forall id, id <> document_id -> store w' !! id = store w !! id) /\
  match store w !! document_id with
  | None => store w' !! document_id = None
  | Some doc =>
      exists doc', store w' !! document_id = Some doc' /\
        (forall k, k <> "status" -> k <> "completedAt" -> k <> "error" ->
           dict_get k doc' = dict_get k doc) /\
        dict_get "destination" doc' = dict_get "destination" doc /\
        dict_get "durationDays" doc' = dict_get "durationDays" doc /\
        dict_get "createdAt" doc' = dict_get "createdAt" doc /\
        dict_get "jobId" doc' = dict_get "jobId" doc /\
        dict_get "itinerary" doc' = dict_get "itinerary" doc /\
        match db_fault e (db_calls w) with
        | Some _ => doc' = doc
        | None =>
            dict_get "status" doc' = Some (VStr "failed") /\
            dict_get "completedAt" doc' = Some (VStr (isoformat (clock e (clock_reads w)))) /\
            dict_get "error" doc' = Some (VStr error_message)
        end
  end.
Proof.
  rewrite mark_as_failed_run, update_document_run. cbn [after_clock db_calls store].
  destruct (db_fault e (db_calls w)) as [msg|] eqn:Ef.
  - cbn. split; [reflexivity|]. split; [reflexivity|].
    destruct (store w !! document_id) as [doc|] eqn:Ed; [|reflexivity].
    exists doc. repeat split; reflexivity.
  - destruct (store w !! document_id) as [doc|] eqn:Ed.
    + cbn [fst snd pending store with_db_call].
      split; [reflexivity|]. split; [intros id Hne; apply lookup_insert_ne; congruence|].
      eexists. split; [apply lookup_insert_eq|].
      assert (Hframe : forall k, k <> "status" -> k <> "completedAt" -> k <> "error" ->
                dict_get k
                  (dict_update
                     (_prepare_data_for_mongodb
                        [("status", VStr "failed");
                         ("completedAt", VDatetime (clock e (clock_reads w)));
                         ("error", VStr error_message)]) doc) = dict_get k doc).
      { intros k H1 H2 H3. apply dict_get_update_other. intros v Hin.
        cbn in Hin. rewrite !elem_of_cons, elem_of_nil in Hin.
        destruct Hin as [[= -> _]|[[= -> _]|[[= -> _]|[]]]]; congruence. }
      split; [exact Hframe|].
      repeat (split; [apply Hframe; discriminate|]).
      unfold dict_update. cbn [_prepare_data_for_mongodb map fold_left fst snd prepare_value].
      rewrite !dict_get_set. cbn. repeat split; reflexivity.
    + cbn. split; [reflexivity|]. split; [reflexivity | exact Ed].
Qed.


End WithRuntime.
End StoreProofs.

(** ** The orchestrator *)

Module OrchestratorProofs.
Import MongoDBService StoreProofs ClientProofs.

Lemma terminal_writes_app t1 t2 :
  System.terminal_writes (t1 ++ t2) =
    (System.terminal_writes t1 ++ System.terminal_writes t2)%list.
Proof. apply omap_app. Qed.

Lemma terminal_writes_log level msg tr :
  System.terminal_writes (Log level msg :: tr) = System.terminal_writes tr.
Proof. reflexivity. Qed.

Lemma terminal_writes_nil : System.terminal_writes [] = [].
Proof. reflexivity. Qed.

Ltac writes_norm :=
  repeat first [ rewrite terminal_writes_app
               | rewrite terminal_writes_log
               | rewrite terminal_writes_nil ].

Section WithRuntime.
Context {rt : PyRuntime}.

(** What one call of [update_document] does, whatever it finds. *)
Lemma update_document_effect id data e w :
  exists tr,
    update_document id data e w =
      (match db_fault e (db_calls w) with
       | Some msg => Raise (PyMongoError msg)
       | None => Return tt
       end,
       with_db_call
         match db_fault e (db_calls w) with
         | Some _ => store w
         | None => alter (dict_update (_prepare_data_for_mongodb data)) id (store w)
         end w,
       tr) /\
    System.terminal_writes tr =
      match dict_get "status" (_prepare_data_for_mongodb data) with
      | Some v => [v]
      | None => []
      end.
Proof.
  rewrite update_document_run. destruct (db_fault e (db_calls w)) as [msg|].
  - eexists. split; [reflexivity|]. cbn.
    destruct (dict_get "status" (_prepare_data_for_mongodb data)); reflexivity.
  - destruct (store w !! id) as [doc|] eqn:Ed.
    + eexists. split.
      * f_equal. f_equal. f_equal. apply map_eq. intros i.
        rewrite lookup_alter. destruct (decide (id = i)) as [<-|Hne].
        -- rewrite lookup_insert_eq, Ed. reflexivity.
        -- rewrite lookup_insert_ne by exact Hne. reflexivity.
      * cbn. destruct (dict_get "status" (_prepare_data_for_mongodb data)); reflexivity.
    + eexists. split.
      * f_equal. f_equal. f_equal. apply map_eq. intros i.
        rewrite lookup_alter. destruct (decide (id = i)) as [<-|Hne]; [rewrite Ed|]; reflexivity.
      * cbn. destruct (dict_get "status" (_prepare_data_for_mongodb data)); reflexivity.
Qed.

Lemma prepare_failed now msg :
  _prepare_data_for_mongodb
    [("status", VStr "failed"); ("completedAt", VDatetime now); ("error", VStr msg)]
  = failed_fields now msg.
Proof. reflexivity. Qed.

(** How far a run gets before its first write: the failure of generation
    or validation, or the validated itinerary. *)
Definition staged (g : result (list DayItinerary)) (duration_days : Z)
  : exn + list DayItinerary :=
  match g with
  | Raise x => inl x
  | Return itinerary =>
      match Validator.violation itinerary duration_days with
      | Some r => inl (ValueError (Validator.reason_message r))
      | None => inr itinerary
      end
  end.

Definition failure_message (x : exn) : string :=
  "Failed to generate itinerary: " +:+ str_of_exn x.

(** The store after one [$set] of [fields] on the job's document, when the
    driver call number [call] goes through. *)
Definition written (e : env) (call : nat) (fields : pydict) (job_id : string)
    (st : gmap string pydict) : gmap string pydict :=
  match db_fault e call with
  | Some _ => st
  | None => alter (dict_update fields) job_id st
  end.

(** When driver call number [call] fails, the trace ends with the log
    line of the failed [mark_as_failed] write. *)
Definition logged_last (e : env) (call : nat) (job_id : string) (tr : list event) : Prop :=
  forall msg, db_fault e call = Some msg ->
    last tr = Some (Log ERROR ("Failed to update MongoDB with error status for job "
                                 +:+ job_id +:+ ": " +:+ msg)).

(** A run of the background task, case by case. *)
Lemma run_cases svc job_id destination duration_days e w r w' tr :
  ItineraryGenerator.generate_and_save_itinerary svc job_id destination duration_days e w
    = (r, w', tr) ->
  exists g n tg,
    OpenAIService.generate_itinerary svc destination duration_days e w
      = (g, after_posts n w, tg) /\
    r = Return tt /\ pending w' = pending w /\
    match staged g duration_days with
    | inr itinerary =>
        match db_fault e (db_calls w) with
        | None =>
            System.terminal_writes tr = [VStr "completed"] /\
            db_calls w' = S (db_calls w) /\
            store w' =
              alter (dict_update (completed_fields (clock e (clock_reads w)) itinerary))
                    job_id (store w)
        | Some msg =>
            System.terminal_writes tr = [VStr "completed"; VStr "failed"] /\
            db_calls w' = S (S (db_calls w)) /\
            store w' =
              written e (S (db_calls w))
                (failed_fields (clock e (S (clock_reads w)))
                   (failure_message (PyMongoError msg)))
                job_id (store w) /\
            logged_last e (S (db_calls w)) job_id tr
        end
    | inl x =>
        System.terminal_writes tr = [VStr "failed"] /\
        db_calls w' = S (db_calls w) /\
        store w' =
          written e (db_calls w)
            (failed_fields (clock e (clock_reads w)) (failure_message x)) job_id (store w) /\
        logged_last e (db_calls w) job_id tr
    end.
Proof.
  unfold ItineraryGenerator.generate_and_save_itinerary.
  unfold try_except at 1. unfold bind at 1. unfold log at 1, emit at 1.
  unfold bind at 1.
  destruct (OpenAIService.generate_itinerary svc destination duration_days e w)
    as [[g wg] tg] eqn:Eg.
  destruct (generate_world _ _ _ _ _ _ _ _ Eg) as [-> Htg].
  intros Hrun. exists g, (System.posts tg), tg. split; [reflexivity|].
  assert (Hfail : forall x t0 wa r w' tr,
    store wa = store w -> pending wa = pending w ->
    (let '(r2, w2, t2) :=
       bind (log ERROR ("Error for job " +:+ job_id +:+ ": " +:+ failure_message x))
         (fun _ => try_except (mark_as_failed job_id (failure_message x))
            (fun mongodb_error => Some (
               log ERROR ("Failed to update MongoDB with error status for job " +:+ job_id
                            +:+ ": " +:+ str_of_exn mongodb_error)))) e wa in
     (r2, w2, (t0 ++ t2)%list)) = (r, w', tr) ->
    r = Return tt /\ pending w' = pending w /\
    System.terminal_writes tr = (System.terminal_writes t0 ++ [VStr "failed"])%list /\
    db_calls w' = S (db_calls wa) /\
    store w' = written e (db_calls wa)
                 (failed_fields (clock e (clock_reads wa)) (failure_message x))
                 job_id (store w) /\
    logged_last e (db_calls wa) job_id tr).
  { intros x t0 wa r0 w0 tr0 Hst Hpe.
    unfold bind at 1. unfold log at 1, emit at 1. unfold try_except.
    rewrite mark_as_failed_run.
    destruct (update_document_effect job_id
                [("status", VStr "failed");
                 ("completedAt", VDatetime (clock e (clock_reads wa)));
                 ("error", VStr (failure_message x))] e (after_clock wa)) as (tu & -> & Htu).
    rewrite prepare_failed in *. cbn [after_clock db_calls store] in *.
    unfold written, logged_last. rewrite <- Hst.
    destruct (db_fault e (db_calls wa)) as [msg|]; cbn; intros [= <- <- <-];
      writes_norm; rewrite Htu; cbn [app]; rewrite ?app_nil_r;
      repeat (split; [solve [auto]|]); intros m Hm; [injection Hm as <- | discriminate].
    rewrite last_app, last_cons, last_snoc. reflexivity. }
  destruct g as [itinerary|x]; cbn [staged].
  2: { destruct (Hfail x
                   ([Log INFO ("Starting itinerary generation for job " +:+ job_id)] ++ tg)%list
                   (after_posts (System.posts tg) w) r w' tr eq_refl eq_refl Hrun)
         as (-> & Hp & Ht & Hc & Hs & Hl).
       revert Ht. writes_norm. rewrite Htg. auto 10. }
  unfold bind at 1 in Hrun. unfold ItineraryGenerator._validate_itinerary in Hrun.
  destruct (Validator.violation itinerary duration_days) as [reason|] eqn:Ev.
  { unfold raise at 1 in Hrun.
    destruct (Hfail (ValueError (Validator.reason_message reason))
                (([Log INFO ("Starting itinerary generation for job " +:+ job_id)] ++ tg)
                   ++ [])%list
                (after_posts (System.posts tg) w) r w' tr eq_refl eq_refl Hrun)
      as (-> & Hp & Ht & Hc & Hs & Hl).
    revert Ht. writes_norm. rewrite Htg. auto 10. }
  unfold log at 1, emit at 1 in Hrun. unfold bind at 1 in Hrun.
  rewrite mark_as_completed_run in Hrun.
  destruct (update_document_effect job_id
              [("status", VStr "completed");
               ("completedAt", VDatetime (clock e (clock_reads (after_posts (System.posts tg) w))));
               ("itinerary", VList (DayItinerary_dict <$> itinerary)); ("error", VNone)]
              e (after_clock (after_posts (System.posts tg) w))) as (tu & Hu & Htu).
  rewrite Hu in Hrun. rewrite prepare_completed in *.
  cbn [after_clock after_posts db_calls store clock_reads] in *.
  destruct (db_fault e (db_calls w)) as [msg|] eqn:Ef.
  - destruct (Hfail (PyMongoError msg)
                ([Log INFO ("Starting itinerary generation for job " +:+ job_id)] ++
                 tg ++
                 [Log INFO ("Itinerary validation passed: " +:+ pretty (length itinerary)
                              +:+ " days with all required fields")] ++ tu)%list
                (with_db_call (store w) (after_clock (after_posts (System.posts tg) w)))
                r w' tr eq_refl eq_refl Hrun)
      as (-> & Hp & Ht & Hc & Hs & Hl).
    revert Ht. writes_norm. rewrite Htg, Htu. auto 10.
  - unfold log, emit in Hrun. cbn in Hrun. injection Hrun as <- <- <-.
    writes_norm. rewrite Htg, Htu. auto.
Qed.


End WithRuntime.
End OrchestratorProofs.

(** ** The two job endpoints *)

Module EndpointProofs.
Import MongoDBService StoreProofs.

Section WithRuntime.
Context {rt : PyRuntime}.

Lemma status_read_only job_id e w r w' tr :
  Main.get_job_status_endpoint job_id e w = (r, w', tr) ->
  store w' = store w /\ pending w' = pending w.
Proof.
  unfold Main.get_job_status_endpoint, Main.respond, Main.get_job_status.
  unfold try_except at 1. unfold bind at 1. unfold try_except at 1. unfold bind at 1.
  rewrite get_document_run.
  destruct (db_fault e (db_calls w)) as [msg|]; [cbn; intros [= <- <- <-]; auto|].
  destruct (store w !! job_id) as [[|item items]|];
    [| destruct (_process_data_from_mongodb (item :: items)) |];
    cbn; intros [= <- <- <-]; auto.
Qed.

(** Creation either leaves the store and the queue as they were, or
    records a fresh job and queues its task. *)
Lemma create_cases destination durationDays e w r w' tr :
  Main.post_generate_itinerary destination durationDays e w = (r, w', tr) ->
  store w' = store w /\ pending w' = pending w \/
  (1 <= durationDays <= 30)%Z /\
  store w !! uuid4 e (uuid_calls w) = None /\
  store w' =
    <[uuid4 e (uuid_calls w) :=
        created (uuid4 e (uuid_calls w))
          (Main.initial_data (mkTravelRequest destination durationDays)
             (clock e (clock_reads w)))]> (store w) /\
  pending w' =
    (pending w ++ [mkTask (uuid4 e (uuid_calls w)) destination durationDays])%list.
Proof.
  unfold Main.post_generate_itinerary, Main.TravelRequest_validate.
  destruct (0 <? durationDays)%Z eqn:E1; [destruct (durationDays <=? 30)%Z eqn:E2|];
    cbn [andb].
  2,3: (intros [= <- <- <-]; left; auto).
  apply Z.ltb_lt in E1. apply Z.leb_le in E2.
  unfold Main.respond, Main.generate_itinerary.
  unfold try_except at 1. unfold bind at 1. unfold bind at 1. unfold new_uuid at 1.
  unfold try_except at 1. unfold bind at 1. unfold utcnow at 1. unfold bind at 1.
  rewrite create_document_run. cbn [db_calls store uuid_calls clock_reads].
  destruct (db_fault e (db_calls w)) as [msg|]; [cbn; intros [= <- <- <-]; left; auto|].
  destruct (store w !! uuid4 e (uuid_calls w)) as [old|] eqn:Eu;
    cbn; intros [= <- <- <-]; [left; auto|].
  right. cbn. split; [lia|]. auto.
Qed.

(** C4, on the code: the job-status query never writes.  With the driver
    answering, a stored job is returned decoded with status 200; an id that
    is not in the store is answered with status 500, not 404: the 404
    raised for it inside the [try] is caught by the handler's own
    [except Exception] and re-raised as a 500. *)
Theorem job_status_unknown_answers_500 (job_id : string) (e : env) (w : world)
    (r : result Main.reply) (w' : world) (tr : list event) :
  Main.get_job_status_endpoint job_id e w = (r, w', tr) ->
  store w' = store w /\ pending w' = pending w /\
  (db_fault e (db_calls w) = None ->
   match store w !! job_id with
   | Some doc =>
       _process_data_from_mongodb doc <> [] ->
       r = Return (Main.Reply 200 (VDict (_process_data_from_mongodb doc)))
   | None =>
       r = Return (Main.Reply 500
                     (VDict [("detail",
                              VStr "Failed to retrieve job status: 404: Job ID not found")]))
   end).
Proof.
  unfold Main.get_job_status_endpoint, Main.respond, Main.get_job_status.
  unfold try_except at 1. unfold bind at 1. unfold try_except at 1. unfold bind at 1.
  rewrite get_document_run.
  destruct (db_fault e (db_calls w)) as [msg|].
  { cbn. intros [= <- <- <-]. cbn. split; [reflexivity|]. split; [reflexivity | discriminate]. }
  destruct (store w !! job_id) as [[|item items]|] eqn:Ed.
  - cbn. intros [= <- <- <-]. cbn. split; [reflexivity|]. split; [reflexivity|].
    intros _ H. exfalso. apply H. reflexivity.
  - destruct (_process_data_from_mongodb (item :: items)) as [|p l] eqn:Ep.
    + cbn. intros [= <- <- <-]. cbn. split; [reflexivity|]. split; [reflexivity|].
      intros _ H. exfalso. apply H. reflexivity.
    + cbn. intros [= <- <- <-]. cbn. split; [reflexivity|]. split; [reflexivity|].
      intros _ _. reflexivity.
  - cbn. intros [= <- <- <-]. cbn. split; [reflexivity|]. split; [reflexivity|].
    intros _. reflexivity.
Qed.

(** C5, as amended: a request whose [durationDays] lies outside 1..30 is
    answered with 422 before anything runs: no uuid is drawn, no record
    written, no task queued.  Nothing is asked of [destination]: with
    [durationDays] in range, the driver answering and the uuid fresh, the
    job is recorded as processing and its task queued, also for the empty
    destination. *)
Theorem create_checks_duration_only (destination : string) (durationDays : Z) (e : env)
    (w : world) (r : result Main.reply) (w' : world) (tr : list event) :
  Main.post_generate_itinerary destination durationDays e w = (r, w', tr) ->
  (~ (1 <= durationDays <= 30)%Z ->
     w' = w /\ tr = [] /\ exists body, r = Return (Main.Reply 422 body)) /\
  ((1 <= durationDays <= 30)%Z ->
     db_fault e (db_calls w) = None ->
     store w !! uuid4 e (uuid_calls w) = None ->
     let job_id := uuid4 e (uuid_calls w) in
     let request := mkTravelRequest destination durationDays in
     r = Return (Main.Reply 202 (VDict [("jobId", VStr job_id)])) /\
     store w' =
       <[job_id := created job_id (Main.initial_data request (clock e (clock_reads w)))]>
         (store w) /\
     pending w' = (pending w ++ [mkTask job_id destination durationDays])%list) /\
  ((1 <= durationDays <= 30)%Z ->
     (db_fault e (db_calls w) <> None \/ store w !! uuid4 e (uuid_calls w) <> None) ->
     store w' = store w /\ pending w' = pending w /\
     exists body, r = Return (Main.Reply 500 body)).
Proof.
  unfold Main.post_generate_itinerary, Main.TravelRequest_validate.
  destruct (0 <? durationDays)%Z eqn:E1; [destruct (durationDays <=? 30)%Z eqn:E2|];
    cbn [andb].
  2,3: (intros [= <- <- <-]; split; [intros _; eauto | split; intros; lia]).
  apply Z.ltb_lt in E1. apply Z.leb_le in E2.
  unfold Main.respond, Main.generate_itinerary.
  unfold try_except at 1. unfold bind at 1. unfold bind at 1. unfold new_uuid at 1.
  unfold try_except at 1. unfold bind at 1. unfold utcnow at 1. unfold bind at 1.
  rewrite create_document_run. cbn [db_calls store uuid_calls clock_reads].
  destruct (db_fault e (db_calls w)) as [msg|] eqn:Ef.
  { cbn. intros [= <- <- <-]. split; [intros; lia|]. split; [discriminate|].
    intros _ _. cbn. eauto. }
  destruct (store w !! uuid4 e (uuid_calls w)) as [old|] eqn:Eu.
  { cbn. intros [= <- <- <-]. split; [intros; lia|]. split; [discriminate|].
    intros _ _. cbn. eauto. }
  cbn. intros [= <- <- <-]. split; [intros; lia|]. split.
  - intros _ _ _. cbn. auto.
  - intros _ [H|H]; congruence.
Qed.

End WithRuntime.
End EndpointProofs.

(** ** The invariant of the job records *)

Module InvariantProofs.
Import MongoDBService StoreProofs ClientProofs OrchestratorProofs EndpointProofs.

(** The invariant of a job record, as the design states it. *)
Definition job_invariant (doc : pydict) : Prop :=
  exists status n itinerary,
    dict_get "status" doc = Some (VStr status) /\
    dict_get "durationDays" doc = Some (VInt n) /\
    dict_get "itinerary" doc = Some (VList itinerary) /\
    (Z.of_nat (length itinerary) = n <-> status = "completed") /\
    (status = "completed" -> System.stored_day <$> itinerary = Some <$> seqZ 1 n).

(** What holds of every stored record, stage by stage. *)
Definition record_ok (doc : pydict) : Prop :=
  exists status n itinerary,
    dict_get "status" doc = Some (VStr status) /\
    dict_get "durationDays" doc = Some (VInt n) /\
    dict_get "itinerary" doc = Some (VList itinerary) /\
    (1 <= n <= 30)%Z /\
    ((status = "processing" \/ status = "failed") /\ itinerary = [] \/
     status = "completed" /\ Z.of_nat (length itinerary) = n /\
     System.stored_day <$> itinerary = Some <$> seqZ 1 n).

(** A queued task belongs to a record that is still processing. *)
Definition task_ok (st : gmap string pydict) (t : task) : Prop :=
  exists doc,
    st !! task_job_id t = Some doc /\
    dict_get "status" doc = Some (VStr "processing") /\
    dict_get "durationDays" doc = Some (VInt (task_duration_days t)) /\
    dict_get "itinerary" doc = Some (VList []) /\
    (1 <= task_duration_days t <= 30)%Z.

Definition world_ok (w : world) : Prop :=
  (forall id doc, store w !! id = Some doc -> record_ok doc) /\
  Forall (task_ok (store w)) (pending w) /\
  NoDup (task_job_id <$> pending w).

Lemma record_ok_invariant doc : record_ok doc -> job_invariant doc.
Proof.
  intros (status & n & it & Hs & Hn & Hi & Hrange & Hcase).
  exists status, n, it. split; [exact Hs|]. split; [exact Hn|]. split; [exact Hi|].
  destruct Hcase as [[Hst ->]|(-> & Hlen & Hdays)].
  - split.
    + split; [simpl; lia|]. intros ->. destruct Hst; discriminate.
    + intros ->. destruct Hst; discriminate.
  - split; [tauto | auto].
Qed.

(** A validated itinerary has the expected length and day numbers. *)
Lemma validated_days (itinerary : list DayItinerary) (n : Z) :
  Validator.violation itinerary n = None ->
  Z.of_nat (length itinerary) = n /\ day <$> itinerary = seqZ 1 n.
Proof.
  intros Hv. apply ValidatorProofs.violation_none, ValidatorProofs.valid_daywise in Hv
    as (_ & Hlen & Hdays).
  split; [exact Hlen|]. apply list_eq. intros k. rewrite list_lookup_fmap.
  destruct (itinerary !! k) as [d|] eqn:Ek; simpl.
  - pose proof (lookup_lt_Some _ _ _ Ek) as Hlt.
    rewrite lookup_seqZ_lt by lia. destruct (Hdays k d Ek) as [-> _]. reflexivity.
  - apply lookup_ge_None in Ek. rewrite lookup_seqZ_ge by lia. reflexivity.
Qed.

Lemma stored_days (itinerary : list DayItinerary) :
  System.stored_day <$> (DayItinerary_dict <$> itinerary) = Some <$> (day <$> itinerary).
Proof.
  induction itinerary as [|d l IH]; [reflexivity|].
  rewrite !fmap_cons, IH. reflexivity.
Qed.

Section WithRuntime.
Context {rt : PyRuntime}.

Lemma initial_ok : world_ok System.initial.
Proof.
  split; [|split].
  - intros id doc H. cbn in H. rewrite lookup_empty in H. discriminate.
  - constructor.
  - constructor.
Qed.

Lemma created_record_ok job_id request now :
  (1 <= durationDays request <= 30)%Z ->
  record_ok (created job_id (Main.initial_data request now)).
Proof.
  intros Hr. exists "processing", (durationDays request), [].
  rewrite !created_other by discriminate. cbn. auto 10.
Qed.

Lemma task_ok_insert st id doc t :
  st !! id = None -> task_ok st t -> task_ok (<[id := doc]> st) t.
Proof.
  intros Hfree (d & Hd & H). exists d. split; [|exact H].
  rewrite lookup_insert_ne; [exact Hd|]. intros ->. congruence.
Qed.

Lemma task_ok_alter st f id t :
  task_job_id t <> id -> task_ok st t -> task_ok (alter f id st) t.
Proof.
  intros Hne (d & Hd & H). exists d. split; [|exact H].
  rewrite lookup_alter_ne; [exact Hd | congruence].
Qed.

Lemma create_preserves destination durationDays e w r w' tr :
  Main.post_generate_itinerary destination durationDays e w = (r, w', tr) ->
  world_ok w -> world_ok w'.
Proof.
  intros Hrun (Hdocs & Htasks & Hnodup).
  destruct (create_cases _ _ _ _ _ _ _ Hrun) as [[Hs Hp]|(Hr & Eu & Hs & Hp)];
    unfold world_ok; rewrite Hs, Hp; [repeat split; assumption|].
  split; [|split].
  - intros id doc Hl. destruct (decide (uuid4 e (uuid_calls w) = id)) as [<-|Hne].
    + rewrite lookup_insert_eq in Hl. injection Hl as <-.
      apply created_record_ok. exact Hr.
    + rewrite lookup_insert_ne in Hl by exact Hne. eauto.
  - apply Forall_app. split.
    + eapply Forall_impl; [exact Htasks|]. intros t Ht. apply task_ok_insert; assumption.
    + constructor; [|constructor]. eexists. split; [apply lookup_insert_eq|].
      rewrite !created_other by discriminate. cbn. auto.
  - rewrite fmap_app. apply NoDup_app. split; [exact Hnodup|]. split.
    + intros id Hin Hin2. cbn in Hin2. apply list_elem_of_singleton in Hin2 as ->.
      apply list_elem_of_fmap in Hin as (t & Heq & Hin).
      apply (proj1 (Forall_forall _ _) Htasks) in Hin as (d & Hd & _).
      rewrite <- Heq in Hd. congruence.
    + apply NoDup_singleton.
Qed.

Lemma status_preserves job_id e w r w' tr :
  Main.get_job_status_endpoint job_id e w = (r, w', tr) ->
  world_ok w -> world_ok w'.
Proof.
  intros Hrun Hok. destruct (status_read_only _ _ _ _ _ _ Hrun) as (Hs & Hp).
  unfold world_ok. rewrite Hs, Hp. exact Hok.
Qed.

(** What a run may have done to the store: nothing, or one write on the
    job's document, of the failed fields or of the completed fields with a
    validated itinerary. *)
Lemma run_store svc job_id destination duration_days e w r w' tr :
  ItineraryGenerator.generate_and_save_itinerary svc job_id destination duration_days e w
    = (r, w', tr) ->
  pending w' = pending w /\
  (store w' = store w \/
   (exists now msg,
      store w' = alter (dict_update (failed_fields now msg)) job_id (store w)) \/
   (exists now itinerary,
      Validator.violation itinerary duration_days = None /\
      store w' = alter (dict_update (completed_fields now itinerary)) job_id (store w))).
Proof.
  intros Hrun. destruct (run_cases _ _ _ _ _ _ _ _ _ Hrun) as (g & n & tg & _ & _ & Hp & Hc).
  split; [exact Hp|]. unfold staged, written in Hc.
  destruct g as [itinerary|x].
  - destruct (Validator.violation itinerary duration_days) eqn:Ev.
    + destruct Hc as (_ & _ & Hs & _).
      destruct (db_fault e (db_calls w)); [left | right; left]; eauto.
    + destruct (db_fault e (db_calls w)).
      * destruct Hc as (_ & _ & Hs & _).
        destruct (db_fault e (S (db_calls w))); [left | right; left]; eauto.
      * destruct Hc as (_ & _ & Hs). right. right. eauto.
  - destruct Hc as (_ & _ & Hs & _).
    destruct (db_fault e (db_calls w)); [left | right; left]; eauto.
Qed.

Lemma failed_record_ok doc now msg n :
  dict_get "durationDays" doc = Some (VInt n) ->
  dict_get "itinerary" doc = Some (VList []) ->
  (1 <= n <= 30)%Z ->
  record_ok (dict_update (failed_fields now msg) doc).
Proof.
  intros Hn Hi Hr. exists "failed", n, [].
  unfold dict_update, failed_fields. cbn [fold_left fst snd].
  rewrite !dict_get_set. cbn. rewrite Hn, Hi. auto 10.
Qed.

Lemma completed_record_ok doc now itinerary n :
  dict_get "durationDays" doc = Some (VInt n) ->
  Validator.violation itinerary n = None ->
  (1 <= n <= 30)%Z ->
  record_ok (dict_update (completed_fields now itinerary) doc).
Proof.
  intros Hn Hv Hr. destruct (validated_days _ _ Hv) as [Hlen Hdays].
  exists "completed", n, (DayItinerary_dict <$> itinerary).
  unfold dict_update, completed_fields. cbn [fold_left fst snd].
  rewrite !dict_get_set. cbn. rewrite Hn.
  split; [reflexivity|]. split; [reflexivity|]. split; [reflexivity|]. split; [exact Hr|].
  right. rewrite length_fmap, stored_days, Hdays. auto.
Qed.

Lemma run_preserves e i t w r w' tr :
  pending w !! i = Some t ->
  ItineraryGenerator.generate_and_save_itinerary OpenAIService.init
    (task_job_id t) (task_destination t) (task_duration_days t) e (System.start_task i w)
    = (r, w', tr) ->
  world_ok w -> world_ok w'.
Proof.
  intros Hi Hrun (Hdocs & Htasks & Hnodup).
  destruct (run_store _ _ _ _ _ _ _ _ _ Hrun) as (Hp & Hs).
  cbn [System.start_task pending store] in Hp, Hs.
  rewrite <- (take_drop_middle _ _ _ Hi) in Htasks, Hnodup.
  rewrite delete_take_drop in Hp.
  apply Forall_app in Htasks as [Hbefore Hrest]. apply Forall_cons in Hrest as [Ht Hafter].
  rewrite fmap_app, fmap_cons in Hnodup.
  apply NoDup_app in Hnodup as (Hnd1 & Hcross & Hnd2).
  apply NoDup_cons in Hnd2 as (Hnotin & Hnd2).
  assert (Hothers : forall t', t' ∈ (take i (pending w) ++ drop (S i) (pending w))%list ->
                      task_job_id t' <> task_job_id t).
  { intros t' Hin Heq. apply elem_of_app in Hin as [Hin|Hin].
    - apply (Hcross (task_job_id t')); [apply list_elem_of_fmap; eauto|].
      rewrite Heq. left.
    - apply Hnotin. rewrite <- Heq. apply list_elem_of_fmap. eauto. }
  assert (Hnodup' : NoDup (task_job_id <$> (take i (pending w) ++ drop (S i) (pending w))%list)).
  { rewrite fmap_app. apply NoDup_app. split; [exact Hnd1|]. split; [|exact Hnd2].
    intros x Hx Hx'. apply (Hcross x Hx). right. exact Hx'. }
  assert (Htasks' : Forall (task_ok (store w))
                      (take i (pending w) ++ drop (S i) (pending w))%list).
  { apply Forall_app. split; assumption. }
  destruct Ht as (doc & Hdoc & Hst & Hn & Hit & Hr).
  unfold world_ok. rewrite Hp.
  assert (Hcase : exists f, store w' = alter f (task_job_id t) (store w) /\ record_ok (f doc)).
  { destruct Hs as [Hs|[(now & msg & Hs)|(now & itinerary & Hv & Hs)]].
    - exists id. split.
      + rewrite Hs. apply map_eq. intros j. rewrite lookup_alter.
        destruct (decide (task_job_id t = j)) as [<-|]; [rewrite Hdoc|]; reflexivity.
      + apply (Hdocs _ _ Hdoc).
    - eexists. split; [exact Hs|]. apply failed_record_ok with (task_duration_days t); assumption.
    - eexists. split; [exact Hs|].
      apply completed_record_ok with (task_duration_days t); assumption. }
  destruct Hcase as (f & -> & Hf). split; [|split].
  - intros j d Hj. destruct (decide (task_job_id t = j)) as [<-|Hne].
    + rewrite lookup_alter_eq, Hdoc in Hj. injection Hj as <-. exact Hf.
    + rewrite lookup_alter_ne in Hj by exact Hne. eauto.
  - apply Forall_forall. intros t' Hin. apply task_ok_alter; [apply Hothers, Hin|].
    apply (proj1 (Forall_forall _ _) Htasks' t' Hin).
  - exact Hnodup'.
Qed.

Lemma reachable_ok w : System.reachable w -> world_ok w.
Proof.
  unfold System.reachable. intros H.
  refine (rtc_ind_r world_ok System.initial initial_ok _ w H).
  intros w1 w2 _ Hstep IH.
  destruct Hstep as [e d n r tr Hrun|e j r tr Hrun|e i t r tr Hi Hrun].
  - eapply create_preserves; eauto.
  - eapply status_preserves; eauto.
  - eapply run_preserves; eauto.
Qed.

(** C8: in every reachable state, every stored job record has an itinerary
    whose length equals [durationDays] exactly when its status is
    completed, and a completed record's day values are 1, ..., durationDays
    in order. *)
Theorem reachable_records_invariant (w : world) (job_id : string) (doc : pydict) :
  System.reachable w ->
  store w !! job_id = Some doc ->
  job_invariant doc.
Proof.
  intros Hreach Hdoc. apply record_ok_invariant.
  destruct (reachable_ok w Hreach) as (Hdocs & _). eauto.
Qed.

End WithRuntime.
End InvariantProofs.

(** ** The properties at work on concrete runs *)

Module Scenarios.
Import OpenAIService ClientSpec ClientProofs MongoDBService StoreProofs OrchestratorProofs
       EndpointProofs InvariantProofs.

(** A content without the [itinerary] key. *)
Definition keyless : value := VDict [("days", VList [])].

#[local] Instance demo : PyRuntime :=
  Demo.runtime
    [Demo.content_of (Demo.paris 2); Demo.envelope (Demo.content_of (Demo.paris 2));
     keyless; Demo.envelope keyless].

Lemma run_eq {A B C : Type} (x : A * B * C) : x = (x.1.1, x.1.2, x.2).
Proof. destruct x as [[a b] c]. reflexivity. Defined.

Definition env_with (faults : nat -> option string) (outcomes : nat -> http_outcome) : env :=
  mkEnv faults outcomes (fun _ => Demo.epoch) (fun _ => "job-1").

(** Three retryable failures in a row. *)
Definition stormy : env :=
  env_with (fun _ => None)
    (fun n => match n with
              | O => HttpTimeout
              | S O => HttpResponse 429 "slow down"
              | _ => HttpClientError "connection reset"
              end).

(** Two rate-limit responses, then the answer. *)
Definition throttled : env :=
  env_with (fun _ => None)
    (fun n => match n with
              | O | S O => HttpResponse 429 "slow down"
              | _ => Demo.ok_response (Demo.paris 2)
              end).

(** A timeout, then a success response whose content lacks the key. *)
Definition garbled : env :=
  env_with (fun _ => None)
    (fun n => match n with
              | O => HttpTimeout
              | _ => HttpResponse 200 (Demo.dumps (Demo.envelope keyless))
              end).


Definition calm : env := Demo.calm (Demo.paris 2).

Lemma retry_policy_witness :
  let run := generate_itinerary init "Paris" 2 stormy System.initial in
  (System.posts run.2 <= 3)%nat /\
  http_calls run.1.2 = (System.posts run.2 + 0)%nat /\
  (2 < System.posts run.2)%nat /\
  (other_failure (http stormy 2) ->
     System.posts run.2 = 3%nat /\ exists x, run.1.1 = Raise x /\ ~ exhaustion x) /\
  (retryable (http stormy 2) ->
     System.posts run.2 = 3%nat /\ exists x, run.1.1 = Raise x /\ exhaustion x).
Proof.
  intros run.
  apply (retry_policy stormy System.initial "Paris" 2 run.1.1 run.1.2 run.2 2).
  - apply run_eq.
  - lia.
  - intros [|[|j]] Hj; [exact I | reflexivity | lia].
Defined.

Lemma backoff_delays_witness :
  let run := generate_itinerary init "Paris" 2 throttled System.initial in
  run.1.1 = Return (Demo.paris 2) /\ System.posts run.2 = 3%nat /\
  System.sleeps run.2 = [1; 2]%Z /\ StronglySorted Z.lt (System.sleeps run.2).
Proof.
  intros run.
  destruct (backoff_delays init throttled System.initial "Paris" 2
              run.1.1 run.1.2 run.2 (run_eq _)) as (_ & _ & H).
  apply (H "slow down" "slow down"
           (Demo.dumps (Demo.envelope (Demo.content_of (Demo.paris 2)))) (Demo.paris 2));
    vm_compute; reflexivity.
Defined.



(** The world after [POST /generate-itinerary] for two days in Paris. *)
Definition accepted (e : env) : world :=
  (Main.post_generate_itinerary "Paris" 2 e System.initial).1.2.

(** The run of the queued task. *)
Definition background (e : env) : result unit * world * list event :=
  ItineraryGenerator.generate_and_save_itinerary init "job-1" "Paris" 2 e
    (System.start_task 0 (accepted e)).



Lemma job_status_unknown_answers_500_witness :
  let run := Main.get_job_status_endpoint "job-2" calm (accepted calm) in
  store run.1.2 = store (accepted calm) /\
  run.1.1 = Return (Main.Reply 500
              (VDict [("detail",
                       VStr "Failed to retrieve job status: 404: Job ID not found")])).
Proof.
  intros run.
  destruct (job_status_unknown_answers_500 "job-2" calm (accepted calm)
              run.1.1 run.1.2 run.2 (run_eq _)) as (Hs & _ & Hr).
  split; [exact Hs|]. apply (Hr eq_refl).
Defined.

(** C5, as stated, fails: a request with an empty destination is accepted
    and its job recorded. *)
Lemma empty_destination_is_accepted :
  let run := Main.post_generate_itinerary "" 3 calm System.initial in
  run.1.1 = Return (Main.Reply 202 (VDict [("jobId", VStr "job-1")])) /\
  store System.initial !! "job-1" = None /\
  (dict_get "status" <$> store run.1.2 !! "job-1") = Some (Some (VStr "processing")) /\
  (dict_get "destination" <$> store run.1.2 !! "job-1") = Some (Some (VStr "")).
Proof. vm_compute. repeat split; reflexivity. Qed.

Lemma create_checks_duration_only_witness :
  (let run := Main.post_generate_itinerary "Paris" 31 calm System.initial in
   run.1.2 = System.initial /\ run.2 = [] /\
   exists body, run.1.1 = Return (Main.Reply 422 body)) /\
  (let run := Main.post_generate_itinerary "" 3 calm System.initial in
   run.1.1 = Return (Main.Reply 202 (VDict [("jobId", VStr "job-1")])) /\
   pending run.1.2 = [mkTask "job-1" "" 3]).
Proof.
  split.
  - intros run.
    destruct (create_checks_duration_only "Paris" 31 calm System.initial
                run.1.1 run.1.2 run.2 (run_eq _)) as (H & _).
    apply H. lia.
  - intros run.
    destruct (create_checks_duration_only "" 3 calm System.initial
                run.1.1 run.1.2 run.2 (run_eq _)) as (_ & H & _).
    destruct H as (Hr & _ & Hp); [lia | reflexivity | reflexivity |].
    split; [exact Hr | exact Hp].
Defined.

Lemma reachable_after_run : System.reachable (background calm).1.2.
Proof.
  unfold System.reachable.
  eapply rtc_l.
  - exact (System.step_create System.initial (accepted calm) calm "Paris" 2 _ _ (run_eq _)).
  - eapply rtc_l; [|apply rtc_refl].
    exact (System.step_run (accepted calm) (background calm).1.2 calm 0
             (mkTask "job-1" "Paris" 2) _ _ eq_refl (run_eq _)).
Defined.

Lemma reachable_records_invariant_witness :
  exists doc,
    store (background calm).1.2 !! "job-1" = Some doc /\
    dict_get "status" doc = Some (VStr "completed") /\
    job_invariant doc.
Proof.
  eexists. split; [vm_compute; reflexivity|]. split; [reflexivity|].
  apply (reachable_records_invariant (background calm).1.2 "job-1").
  - exact reachable_after_run.
  - vm_compute. reflexivity.
Defined.

End Scenarios.

(** * Further properties of the services *)

(** ** services/firestore_service.py: the encoding step of the other adapter *)

Module FirestoreService.

(** The branch that [_prepare_data_for_firestore] takes on one item value:
    a datetime is kept, a dict processed, of a list the dict elements. *)
Fixpoint prepare_value (v : value) : value :=
  match v with
  | VDatetime d => VDatetime d
  | VDict items => VDict (map (fun kv => (kv.1, prepare_value kv.2)) items)
  | VList l =>
      VList (map (fun x => match x with VDict _ => prepare_value x | _ => x end) l)
  | _ => v
  end.

Definition _prepare_data_for_firestore (data : pydict) : pydict :=
  map (fun kv => (kv.1, prepare_value kv.2)) data.

End FirestoreService.

(** ** Induction on values through their lists and dicts *)

Module ValueInduction.

Section Principle.
Variable P : value -> Prop.
Hypothesis HNone : P VNone.
Hypothesis HBool : forall b, P (VBool b).
Hypothesis HInt : forall z, P (VInt z).
Hypothesis HStr : forall s, P (VStr s).
Hypothesis HDatetime : forall d, P (VDatetime d).
Hypothesis HList : forall l, Forall P l -> P (VList l).
Hypothesis HDict : forall items, Forall (fun kv => P kv.2) items -> P (VDict items).

Fixpoint value_nested_ind (v : value) : P v :=
  match v with
  | VNone => HNone
  | VBool b => HBool b
  | VInt z => HInt z
  | VStr s => HStr s
  | VDatetime d => HDatetime d
  | VList l =>
      HList l ((fix go (l : list value) : Forall P l :=
                  match l with
                  | [] => @List.Forall_nil _ P
                  | x :: r => @List.Forall_cons _ P x r (value_nested_ind x) (go r)
                  end) l)
  | VDict items =>
      HDict items ((fix go (l : pydict) : Forall (fun kv => P kv.2) l :=
                      match l with
                      | [] => @List.Forall_nil _ _
                      | kv :: r => @List.Forall_cons _ _ kv r (value_nested_ind kv.2) (go r)
                      end) items)
  end.

End Principle.

End ValueInduction.

(** ** The encoding and decoding steps of the store adapters *)

Module CodecProofs.
Import MongoDBService StoreProofs ValueInduction.

Lemma map_ext_Forall {A B} (f g : A -> B) (l : list A) :
  Forall (fun x => f x = g x) l -> map f l = map g l.
Proof. induction 1 as [|x l Hx _ IH]; simpl; [reflexivity | rewrite Hx, IH; reflexivity]. Qed.

Lemma firestore_prepare_value_id (v : value) : FirestoreService.prepare_value v = v.
Proof.
  induction v as [| | | | |l IH|items IH] using value_nested_ind; try reflexivity.
  - cbn [FirestoreService.prepare_value]. f_equal.
    rewrite <- (map_id l) at 2. apply map_ext_Forall.
    eapply Forall_impl; [exact IH|]. intros x Hx. destruct x; try reflexivity. exact Hx.
  - cbn [FirestoreService.prepare_value]. f_equal.
    rewrite <- (map_id items) at 2. apply map_ext_Forall.
    eapply Forall_impl; [exact IH|]. intros [k x] Hx. cbn in *. rewrite Hx. reflexivity.
Qed.

(** X1: the Firestore adapter's encoding step changes nothing: it returns
    a dict equal to its argument, datetimes included. *)
Theorem firestore_prepare_is_identity (data : pydict) :
  FirestoreService._prepare_data_for_firestore data = data.
Proof.
  unfold FirestoreService._prepare_data_for_firestore.
  rewrite <- (map_id data) at 2. apply map_ext. intros [k v]. cbn.
  rewrite firestore_prepare_value_id. reflexivity.
Qed.

Section WithRuntime.
Context {rt : PyRuntime}.

Lemma prepare_element_dict (x : value) :
  prepare_element x = match x with VDict _ => prepare_value x | _ => x end.
Proof. reflexivity. Qed.

Lemma prepare_value_idempotent (v : value) :
  prepare_value (prepare_value v) = prepare_value v.
Proof.
  induction v as [| | | | |l IH|items IH] using value_nested_ind; try reflexivity.
  - cbn [prepare_value]. f_equal. rewrite map_map. apply map_ext_Forall.
    eapply Forall_impl; [exact IH|]. intros x Hx.
    destruct x; try reflexivity. exact Hx.
  - cbn [prepare_value]. f_equal. rewrite map_map. apply map_ext_Forall.
    eapply Forall_impl; [exact IH|]. intros [k x] Hx. cbn in *. rewrite Hx. reflexivity.
Qed.

(** X2: encoding a document for the store keeps its keys in order, and
    encoding twice is the same as encoding once. *)
Theorem prepare_idempotent (data : pydict) :
  _prepare_data_for_mongodb (_prepare_data_for_mongodb data) = _prepare_data_for_mongodb data /\
  map fst (_prepare_data_for_mongodb data) = map fst data.
Proof.
  unfold _prepare_data_for_mongodb. split.
  - rewrite map_map. apply map_ext. intros [k v]. cbn.
    rewrite prepare_value_idempotent. reflexivity.
  - rewrite map_map. apply map_ext. intros [k v]. reflexivity.
Qed.

(** No dict among the elements. *)
Definition scalar (v : value) : bool :=
  match v with VDict _ => false | _ => true end.

(** X3: a datetime is turned into its ISO text only where it is the value
    of a dict item; a list without dict elements is passed on as it is,
    so a datetime that is itself an element of a list reaches the driver
    unconverted. *)
Theorem prepare_skips_list_elements (k : string) (l : list value) (d : datetime) :
  forallb scalar l = true ->
  _prepare_data_for_mongodb [(k, VList l)] = [(k, VList l)] /\
  _prepare_data_for_mongodb [(k, VDatetime d)] = [(k, VStr (isoformat d))] /\
  _prepare_data_for_mongodb [(k, VList (VDatetime d :: l))] = [(k, VList (VDatetime d :: l))].
Proof.
  intros Hl.
  assert (Hmap : map (fun x => match x with VDict _ => prepare_value x | _ => x end) l = l).
  { induction l as [|x l IH]; [reflexivity|]. cbn in Hl. apply andb_prop in Hl as [Hx Hl].
    cbn [map]. rewrite (IH Hl). destruct x; try reflexivity. discriminate. }
  split; [|split].
  - cbn. rewrite Hmap. reflexivity.
  - reflexivity.
  - cbn. rewrite Hmap. reflexivity.
Qed.

Lemma process_data_value (items : pydict) :
  process_value (VDict items) = VDict (_process_data_from_mongodb items).
Proof. reflexivity. Qed.

Lemma process_value_idempotent (v : value) :
  process_value (process_value v) = process_value v.
Proof.
  induction v as [| | |s| |l IH|items IH] using value_nested_ind; try reflexivity.
  - rewrite process_value_str. unfold decoded.
    destruct (fromisoformat (PyStr.replace_Z s)) eqn:E; [reflexivity|].
    rewrite process_value_str. unfold decoded. rewrite E. reflexivity.
  - cbn [process_value]. f_equal. rewrite map_map. apply map_ext_Forall.
    eapply Forall_impl; [exact IH|]. intros x Hx.
    destruct x; try reflexivity. exact Hx.
  - rewrite !process_data_value. f_equal.
    induction IH as [|[k x] r Hx _ IHr]; [reflexivity|]. cbn in Hx.
    cbn [_process_data_from_mongodb]. destruct (String.eqb k "_id") eqn:Ek.
    + exact IHr.
    + cbn [_process_data_from_mongodb]. rewrite Ek, Hx, IHr. reflexivity.
Qed.

(** X4: decoding a document twice is the same as decoding once, and a
    decoded document holds no [_id] item, neither at the top nor in a dict
    that is the value of one of its items. *)
Theorem process_idempotent (data : pydict) :
  _process_data_from_mongodb (_process_data_from_mongodb data)
    = _process_data_from_mongodb data /\
  dict_get "_id" (_process_data_from_mongodb data) = None /\
  (forall k items,
     dict_get k (_process_data_from_mongodb data) = Some (VDict items) ->
     dict_get "_id" items = None).
Proof.
  split; [|split].
  - pose proof (process_value_idempotent (VDict data)) as H.
    rewrite !process_data_value in H. injection H as H. exact H.
  - rewrite dict_get_process. reflexivity.
  - intros k items. rewrite dict_get_process.
    destruct (String.eqb k "_id"); [discriminate|].
    destruct (dict_get k data) as [v|]; [|discriminate]. cbn [fmap option_fmap option_map].
    destruct v as [| | |s| |l|items0]; try discriminate.
    + rewrite process_value_str. unfold decoded.
      destruct (fromisoformat (PyStr.replace_Z s)); discriminate.
    + rewrite process_data_value. intros [= <-]. rewrite dict_get_process. reflexivity.
Qed.

(** The values that come back from the store as they went in: [None],
    booleans, integers, a string that is not read as a datetime, a datetime
    whose ISO text is read back as itself, a list whose dict elements come
    back, a dict without [_id] item whose values come back. *)
Fixpoint roundtrips (v : value) : Prop :=
  match v with
  | VNone | VBool _ | VInt _ => True
  | VStr s => fromisoformat (PyStr.replace_Z s) = None
  | VDatetime d => fromisoformat (PyStr.replace_Z (isoformat d)) = Some d
  | VList l =>
      (fix go (l : list value) : Prop :=
         match l with
         | [] => True
         | x :: r => match x with VDict _ => roundtrips x | _ => scalar x = true end /\ go r
         end) l
  | VDict items =>
      (fix go (l : pydict) : Prop :=
         match l with
         | [] => True
         | kv :: r => kv.1 <> "_id" /\ roundtrips kv.2 /\ go r
         end) items
  end.

Lemma decode_encode (v : value) :
  roundtrips v -> process_value (prepare_value v) = v.
Proof.
  induction v as [| | |s|d|l IH|items IH] using value_nested_ind; try reflexivity.
  - intros H. cbn [prepare_value]. rewrite process_value_str. unfold decoded.
    cbn in H. rewrite H. reflexivity.
  - intros H. cbn [prepare_value]. rewrite process_value_str. unfold decoded.
    cbn in H. rewrite H. reflexivity.
  - intros H. cbn [prepare_value process_value]. f_equal. rewrite map_map.
    induction IH as [|x r Hx _ IHr]; [reflexivity|]. destruct H as [H1 H2].
    cbn [map]. rewrite (IHr H2). f_equal.
    destruct x; try reflexivity. exact (Hx H1).
  - intros H. cbn [prepare_value]. rewrite process_data_value. f_equal.
    induction IH as [|[k x] r Hx _ IHr]; [reflexivity|]. destruct H as (Hk & H1 & H2).
    cbn in Hk, H1, Hx. cbn [map fst snd _process_data_from_mongodb].
    destruct (String.eqb_spec k "_id") as [->|_]; [congruence|].
    rewrite (Hx H1), (IHr H2). reflexivity.
Qed.

(** X5: after [create_document], [get_document] returns a field of the
    created data unchanged when the field's value is one that round-trips:
    what is encoded on the way in ([datetime] to ISO text) is decoded on
    the way out. *)
Theorem stored_value_roundtrip (document_id : string) (data : pydict) (e : env) (w : world)
    (k : string) (v : value) :
  db_fault e (db_calls w) = None ->
  db_fault e (S (db_calls w)) = None ->
  store w !! document_id = None ->
  k <> "_id" -> k <> "jobId" ->
  dict_get k data = Some v ->
  roundtrips v ->
  exists w1 tr1 w2 tr2 doc,
    create_document document_id data e w = (Return tt, w1, tr1) /\
    get_document document_id e w1 = (Return (Some doc), w2, tr2) /\
    dict_get k doc = Some v.
Proof.
  intros Hf1 Hf2 Hfresh Hk1 Hk2 Hget Hv.
  rewrite create_document_run, Hf1, Hfresh.
  eexists _, _, _, _, _. split; [reflexivity|].
  rewrite get_document_run. cbn [db_calls with_db_call store].
  rewrite Hf2, lookup_insert_eq.
  destruct (created document_id data) as [|item items] eqn:Ec.
  { exfalso. exact (created_not_nil _ _ Ec). }
  rewrite <- Ec. split; [reflexivity|].
  rewrite dict_get_process. destruct (String.eqb_spec k "_id"); [congruence|].
  rewrite created_other, Hget by assumption.
  cbn [fmap option_fmap option_map]. rewrite (decode_encode v Hv). reflexivity.
Qed.

(** X6: [mark_as_completed] leaves the queue and every other document
    alone and creates none; in the job's document every field other than
    [status], [completedAt], [itinerary] and [error] keeps its value; when
    the driver call goes through, [status] is completed, [error] is
    [None] and [itinerary] holds one dict per day plan, in order. *)
Theorem mark_as_completed_frame (document_id : string) (itinerary_data : list DayItinerary)
    (e : env) (w : world) :
  let w' := (mark_as_completed document_id itinerary_data e w).1.2 in
  pending w' = pending w /\
  (forall id, id <> document_id -> store w' !! id = store w !! id) /\
  match store w !! document_id with
  | None => store w' !! document_id = None
  | Some doc =>
      exists doc', store w' !! document_id = Some doc' /\
        (forall k, k <> "status" -> k <> "completedAt" -> k <> "itinerary" -> k <> "error" ->
           dict_get k doc' = dict_get k doc) /\
        match db_fault e (db_calls w) with
        | Some _ => doc' = doc
        | None =>
            dict_get "status" doc' = Some (VStr "completed") /\
            dict_get "completedAt" doc' = Some (VStr (isoformat (clock e (clock_reads w)))) /\
            dict_get "itinerary" doc' = Some (VList (DayItinerary_dict <$> itinerary_data)) /\
            dict_get "error" doc' = Some VNone
        end
  end.
Proof.
  rewrite mark_as_completed_run, update_document_run, prepare_completed.
  cbn [after_clock db_calls store].
  destruct (db_fault e (db_calls w)) as [msg|] eqn:Ef.
  - cbn. split; [reflexivity|]. split; [reflexivity|].
    destruct (store w !! document_id) as [doc|] eqn:Ed; [|reflexivity].
    exists doc. repeat split; reflexivity.
  - destruct (store w !! document_id) as [doc|] eqn:Ed.
    + cbn [fst snd pending store with_db_call].
      split; [reflexivity|]. split; [intros id Hne; apply lookup_insert_ne; congruence|].
      eexists. split; [apply lookup_insert_eq|]. split.
      * intros k H1 H2 H3 H4. apply dict_get_update_other. intros v Hin.
        unfold completed_fields in Hin. rewrite !elem_of_cons, elem_of_nil in Hin.
        destruct Hin as [[= -> _]|[[= -> _]|[[= -> _]|[[= -> _]|[]]]]]; congruence.
      * unfold dict_update, completed_fields. cbn [fold_left fst snd].
        rewrite !dict_get_set. cbn. repeat split; reflexivity.
    + cbn. split; [reflexivity|]. split; [reflexivity | exact Ed].
Qed.

(** X7: [update_document] never creates or deletes a document and touches
    no document but the one named; when no document has that id the store
    stays as it is and, the driver answering, the call returns normally,
    its last log line being the warning. *)
Theorem update_document_never_creates (document_id : string) (data : pydict) (e : env)
    (w : world) :
  let run := update_document document_id data e w in
  dom (store run.1.2) = dom (store w) /\
  (forall id, id <> document_id -> store run.1.2 !! id = store w !! id) /\
  (store w !! document_id = None ->
     store run.1.2 = store w /\
     (db_fault e (db_calls w) = None ->
        run.1.1 = Return tt /\
        last run.2 = Some (Log WARNING ("No document found with ID: " +:+ document_id)))).
Proof.
  cbn zeta. rewrite update_document_run.
  destruct (db_fault e (db_calls w)) as [msg|].
  - cbn. split; [reflexivity|]. split; [reflexivity|]. intros _. split; [reflexivity|].
    discriminate.
  - destruct (store w !! document_id) as [doc|] eqn:Ed.
    + cbn. split; [|split].
      * apply dom_insert_lookup_L. rewrite Ed. eauto.
      * intros id Hne. apply lookup_insert_ne. congruence.
      * discriminate.
    + cbn. split; [reflexivity|]. split; [reflexivity|]. intros _. split; [reflexivity|].
      intros _. split; reflexivity.
Qed.

(** X8: [create_document] never overwrites or drops a stored document.  It
    returns normally exactly when the driver answers and the id is free,
    and then the id holds the encoded data with [_id] and [jobId] set to
    it; otherwise it raises, the store is as before and the last log line
    is the error. *)
Theorem create_document_never_overwrites (document_id : string) (data : pydict) (e : env)
    (w : world) :
  let run := create_document document_id data e w in
  (forall id doc, store w !! id = Some doc -> store run.1.2 !! id = Some doc) /\
  (run.1.1 = Return tt <->
     db_fault e (db_calls w) = None /\ store w !! document_id = None) /\
  (run.1.1 = Return tt ->
     exists doc, store run.1.2 !! document_id = Some doc /\
       dict_get "_id" doc = Some (VStr document_id) /\
       dict_get "jobId" doc = Some (VStr document_id) /\
       forall k, k <> "_id" -> k <> "jobId" ->
         dict_get k doc = prepare_value <$> dict_get k data) /\
  (run.1.1 <> Return tt ->
     store run.1.2 = store w /\
     exists x, run.1.1 = Raise x /\
       last run.2 = Some (Log ERROR ("Failed to create document " +:+ document_id +:+ ": "
                                       +:+ str_of_exn x))).
Proof.
  cbn zeta. rewrite create_document_run.
  destruct (db_fault e (db_calls w)) as [msg|].
  - cbn. split; [auto|]. split; [split; [discriminate | intros [H _]; discriminate]|].
    split; [discriminate|]. intros _. split; [reflexivity|]. eexists. split; reflexivity.
  - destruct (store w !! document_id) as [old|] eqn:Ed.
    + cbn. split; [auto|]. split; [split; [discriminate | intros [_ H]; discriminate]|].
      split; [discriminate|]. intros _. split; [reflexivity|]. eexists. split; reflexivity.
    + cbn. split; [|split; [|split]].
      * intros id doc Hid. rewrite lookup_insert_ne; [exact Hid|]. intros <-. congruence.
      * split; auto.
      * intros _. eexists. split; [apply lookup_insert_eq|].
        split; [apply created_id|]. split; [apply created_jobId|].
        intros k H1 H2. apply created_other; assumption.
      * intros H. exfalso. apply H. reflexivity.
Qed.

End WithRuntime.
End CodecProofs.

(** ** More on the generation client *)

Module ClientExtras.
Import OpenAIService ClientSpec ClientProofs.

(** The sum of the delays. *)
Definition total (delays : list Z) : Z := foldr Z.add 0%Z delays.

Lemma total_backoff (d a : Z) (n : nat) :
  (0 <= a)%Z ->
  total ((fun j => d * 2 ^ j)%Z <$> seqZ a (Z.of_nat n)) = (d * 2 ^ a * (2 ^ Z.of_nat n - 1))%Z.
Proof.
  revert a. induction n as [|n IH]; intros a Ha.
  - change (Z.of_nat 0) with 0%Z. rewrite seqZ_nil by lia. rewrite Z.pow_0_r.
    cbn [fmap list_fmap total foldr]. lia.
  - rewrite (seqZ_cons a) by lia. rewrite fmap_cons. cbn [total foldr].
    replace (Z.pred (Z.of_nat (S n))) with (Z.of_nat n) by lia.
    fold (total ((fun j => d * 2 ^ j)%Z <$> seqZ (Z.succ a) (Z.of_nat n))).
    rewrite IH by lia. rewrite Nat2Z.inj_succ, !Z.pow_succ_r by lia. lia.
Qed.

Definition out_of_attempts : exn :=
  PyException "Failed to generate itinerary after all retries".

Section WithRuntime.
Context {rt : PyRuntime}.

(** With the indices running up to [max_retries - 1], the delays are those
    of the first [n] indices, [n] below the number of indices, and the
    loop does not fall through to the statement after it. *)
Lemma loop_aligned_delays self e (len : nat) : forall a w r w' tr,
  (a + Z.of_nat len = max_retries self)%Z -> (0 < len)%nat ->
  attempt_loop self (seqZ a (Z.of_nat len)) e w = (r, w', tr) ->
  r <> Raise out_of_attempts /\
  exists n, (n < len)%nat /\
    System.sleeps tr = (fun j => retry_delay self * 2 ^ j)%Z <$> seqZ a (Z.of_nat n).
Proof.
  induction len as [|len IH]; intros a w r w' tr Hmax Hpos Hrun; [lia|].
  rewrite (seqZ_cons a) in Hrun by lia.
  destruct (outcome_cases (http e (http_calls w))) as [H|[[text H]|H]].
  - destruct (Z.lt_ge_cases a (max_retries self - 1)) as [Hlt|Hge].
    + rewrite loop_retried in Hrun by assumption.
      replace (Z.pred (Z.of_nat (S len))) with (Z.of_nat len) in Hrun by lia.
      destruct (attempt_loop self _ e (after_posts 1 w)) as [[r1 w1] t1] eqn:E.
      injection Hrun as <- <- <-.
      destruct (IH (Z.succ a) (after_posts 1 w) r1 w1 t1) as (Hr & n & Hn & Hs);
        [lia | lia | exact E |].
      split; [exact Hr|]. exists (S n). split; [lia|].
      rewrite sleeps_retry, Hs, (seqZ_cons a (Z.of_nat (S n))) by lia.
      rewrite fmap_cons. replace (Z.pred (Z.of_nat (S n))) with (Z.of_nat n) by lia.
      reflexivity.
    + rewrite loop_spent in Hrun by assumption. injection Hrun as <- <- <-.
      split; [|exists 0%nat; split; [lia | reflexivity]].
      destruct (http e (http_calls w)) as [| | |status text msg]; try discriminate.
      simpl. destruct (status =? 200)%Z; discriminate.
  - rewrite (loop_success _ _ _ _ _ _ H) in Hrun. injection Hrun as <- <- <-.
    split; [|exists 0%nat; split; [lia | reflexivity]].
    intros Hx. apply on_success_raise in Hx. exact Hx.
  - destruct (attempt_other self a e w H) as (status & text & _ & Heq).
    simpl in Hrun. unfold bind at 1 in Hrun. rewrite Heq in Hrun.
    injection Hrun as <- <- <-.
    split; [discriminate | exists 0%nat; split; [lia | reflexivity]].
Qed.

(** X9: when a request meets a success response whose body the
    status-200 branch accepts, after [k] retryable failures in a row
    within the budget, the call returns the parsed itinerary at once:
    [k + 1] requests, the [k] delays before it, nothing after. *)
Theorem success_ends_the_call (self : t) (e : env) (w : world)
    (destination : string) (duration_days : Z) (k : nat) (text : string)
    (itinerary : list DayItinerary) :
  (Z.of_nat k < max_retries self)%Z ->
  (forall j, (j < k)%nat -> retryable (http e (j + http_calls w))) ->
  http e (k + http_calls w) = HttpResponse 200 text ->
  on_success text = Return itinerary ->
  generate_itinerary self destination duration_days e w =
    (Return itinerary, after_posts (S k) w, (backoff_trace self 0 k ++ [HttpPost])%list) /\
  System.sleeps (backoff_trace self 0 k ++ [HttpPost]) =
    (fun j => retry_delay self * 2 ^ j)%Z <$> seqZ 0 (Z.of_nat k).
Proof.
  intros Hk Hpre Ho Hok. split.
  - unfold generate_itinerary.
    rewrite (loop_skip self e k 0 (max_retries self) w); [| lia | lia | exact Hpre].
    rewrite (seqZ_cons (0 + Z.of_nat k)) by lia.
    rewrite (loop_success self _ _ e (after_posts k w) text Ho), Hok. reflexivity.
  - rewrite sleeps_app, sleeps_backoff. cbn. apply app_nil_r.
Qed.

(** X10: the statement after the loop, which raises "Failed to generate
    itinerary after all retries", is reached exactly when [max_retries]
    is not positive; then no request is sent and the world is untouched. *)
Theorem fall_through_only_without_budget (self : t) (e : env) (w : world)
    (destination : string) (duration_days : Z) :
  let run := generate_itinerary self destination duration_days e w in
  (run.1.1 = Raise out_of_attempts <-> (max_retries self <= 0)%Z) /\
  ((max_retries self <= 0)%Z -> run.1.2 = w /\ run.2 = []).
Proof.
  cbn zeta. unfold generate_itinerary.
  destruct (Z.le_gt_cases (max_retries self) 0) as [Hle|Hgt].
  - rewrite seqZ_nil by lia. cbn. split; [split; auto | auto].
  - split; [|intros; lia]. split; [|intros; lia]. intros Hr. exfalso.
    destruct (attempt_loop self (seqZ 0 (max_retries self)) e w) as [[r w'] tr] eqn:E.
    replace (max_retries self) with (Z.of_nat (Z.to_nat (max_retries self))) in E by lia.
    destruct (loop_aligned_delays self e (Z.to_nat (max_retries self)) 0 w r w' tr)
      as [Hne _]; [lia | lia | exact E |].
    exact (Hne Hr).
Qed.

(** X11: the delays of one call are [retry_delay * 2 ^ j] for
    [j = 0 .. n - 1], with [n] at most [max_retries - 1], so the call
    sleeps [retry_delay * (2 ^ n - 1)] in all; with the service as
    [__init__] sets it up that is at most 3 time units. *)
Theorem total_backoff_of_call (self : t) (e : env) (w : world) (destination : string)
    (duration_days : Z) (r : result (list DayItinerary)) (w' : world) (tr : list event) :
  generate_itinerary self destination duration_days e w = (r, w', tr) ->
  (exists n : nat,
     (Z.of_nat n <= Z.max 0 (max_retries self - 1))%Z /\
     System.sleeps tr = (fun j => retry_delay self * 2 ^ j)%Z <$> seqZ 0 (Z.of_nat n) /\
     total (System.sleeps tr) = (retry_delay self * (2 ^ Z.of_nat n - 1))%Z) /\
  (self = init -> (0 <= total (System.sleeps tr) <= 3)%Z).
Proof.
  unfold generate_itinerary. intros Hrun.
  assert (Hn : exists n : nat,
     (Z.of_nat n <= Z.max 0 (max_retries self - 1))%Z /\
     System.sleeps tr = (fun j => retry_delay self * 2 ^ j)%Z <$> seqZ 0 (Z.of_nat n)).
  { destruct (Z.le_gt_cases (max_retries self) 0) as [Hle|Hgt].
    - rewrite seqZ_nil in Hrun by lia. cbn in Hrun. injection Hrun as <- <- <-.
      exists 0%nat. split; [lia | reflexivity].
    - replace (max_retries self) with (Z.of_nat (Z.to_nat (max_retries self))) in Hrun by lia.
      destruct (loop_aligned_delays self e (Z.to_nat (max_retries self)) 0 w r w' tr)
        as (_ & n & Hlt & Hs); [lia | lia | exact Hrun |].
      exists n. split; [lia | exact Hs]. }
  destruct Hn as (n & Hle & Hs). split.
  - exists n. split; [exact Hle|]. split; [exact Hs|].
    rewrite Hs, total_backoff by lia. rewrite Z.pow_0_r. lia.
  - intros ->. rewrite Hs, total_backoff by lia. cbn [retry_delay max_retries init] in *.
    assert (Hcases : (n = 0 \/ n = 1 \/ n = 2)%nat) by lia.
    destruct Hcases as [-> | [-> | ->]]; cbn; lia.
Qed.

End WithRuntime.
End ClientExtras.

(** ** The parser of the provider's answer *)

Module ParserProofs.
Import OpenAIService CodecProofs.

Lemma rbind_return {A B} (r : result A) (k : A -> result B) (b : B) :
  rbind r k = Return b -> exists a, r = Return a /\ k a = Return b.
Proof. destruct r as [a|x]; simpl; [eauto | discriminate]. Qed.

Ltac split_return H :=
  repeat match type of H with
         | rbind _ _ = Return _ =>
             let a := fresh "a" in
             let Ha := fresh "Ha" in
             apply rbind_return in H as (a & Ha & H)
         end.

Section WithRuntime.
Context {rt : PyRuntime}.

Lemma parse_activity_encoded (a : Activity) :
  (forall s, pydantic_str (VStr s) = Some s) ->
  parse_activity (Activity_dict a) = Return a.
Proof.
  intros Hs. destruct a as [t d loc].
  unfold parse_activity, Activity_dict, getitem, str_field. cbn. rewrite !Hs. reflexivity.
Qed.

Lemma parse_activities_encoded (l : list Activity) :
  (forall s, pydantic_str (VStr s) = Some s) ->
  parse_activities (Activity_dict <$> l) = Return l.
Proof.
  intros Hs. induction l as [|a l IH]; [reflexivity|].
  rewrite fmap_cons. cbn [parse_activities].
  rewrite parse_activity_encoded by exact Hs. cbn [rbind]. rewrite IH. reflexivity.
Qed.

Lemma parse_day_encoded (d : DayItinerary) :
  (forall s, pydantic_str (VStr s) = Some s) ->
  (forall z, pydantic_int (VInt z) = Some z) ->
  (1 <= day d)%Z ->
  parse_day_guarded (DayItinerary_dict d) = Return d.
Proof.
  intros Hs Hi Hd. destruct d as [n t acts]. cbn in Hd.
  assert (Hp : parse_day (DayItinerary_dict (mkDayItinerary n t acts))
               = Return (mkDayItinerary n t acts)).
  { unfold parse_day, DayItinerary_dict.
    cbn [getitem dict_get String.eqb Ascii.eqb Bool.eqb rbind iterate day theme activities].
    rewrite parse_activities_encoded by exact Hs. cbn [rbind].
    unfold day_field, str_field. rewrite Hi, Hs. apply Z.leb_le in Hd. rewrite Hd.
    reflexivity. }
  unfold parse_day_guarded. rewrite Hp. reflexivity.
Qed.

(** X12: parsing undoes [.dict()]: when pydantic takes a string as a
    [str] and an integer as an [int], the day plans encoded as the
    provider is asked to send them, each with [day] at least 1, are parsed
    back to themselves, also through the JSON content that holds them
    under [itinerary]. *)
Theorem parse_encoded_itinerary (itinerary : list DayItinerary) :
  (forall s, pydantic_str (VStr s) = Some s) ->
  (forall z, pydantic_int (VInt z) = Some z) ->
  Forall (fun d => (1 <= day d)%Z) itinerary ->
  _parse_itinerary (VList (DayItinerary_dict <$> itinerary)) = Return itinerary /\
  (forall content items,
     json_loads content = inr (VDict items) ->
     dict_get "itinerary" items = Some (VList (DayItinerary_dict <$> itinerary)) ->
     parse_content content = Return itinerary).
Proof.
  intros Hs Hi Hall.
  assert (Hp : _parse_itinerary (VList (DayItinerary_dict <$> itinerary)) = Return itinerary).
  { unfold _parse_itinerary. cbn [iterate rbind].
    induction Hall as [|d l Hd _ IH]; [reflexivity|].
    rewrite fmap_cons. cbn [parse_days]. rewrite parse_day_encoded by assumption.
    cbn [rbind]. rewrite IH. reflexivity. }
  split; [exact Hp|].
  intros content items Hj Hk. unfold parse_content, loads. rewrite Hj. cbn [rbind getitem].
  rewrite Hk. cbn [rbind]. rewrite Hp. reflexivity.
Qed.

Lemma parse_day_guarded_return v d :
  parse_day_guarded v = Return d -> parse_day v = Return d.
Proof.
  unfold parse_day_guarded. destruct (parse_day v) as [a|x]; [auto|].
  destruct x; try discriminate; destruct (day_label v); discriminate.
Qed.

Lemma parse_day_day v d : parse_day v = Return d -> (1 <= day d)%Z.
Proof.
  unfold parse_day. intros H. split_return H.
  unfold day_field in *. destruct (pydantic_int _) as [z|]; [|discriminate].
  destruct (Z.leb_spec 1 z); [|discriminate].
  match goal with Hd : Return z = Return _ |- _ => injection Hd as <- end.
  injection H as <-. exact H0.
Qed.

(** X13: a successful parse returns one day plan per element of the
    array, in order, each the parse of its element, and each with [day] at
    least 1: no element is dropped, merged or reordered. *)
Theorem parse_keeps_every_day (l : list value) (itinerary : list DayItinerary) :
  _parse_itinerary (VList l) = Return itinerary ->
  length itinerary = length l /\
  Forall2 (fun v d => parse_day v = Return d) l itinerary /\
  Forall (fun d => (1 <= day d)%Z) itinerary.
Proof.
  unfold _parse_itinerary. cbn [iterate rbind]. revert itinerary.
  induction l as [|v l IH]; intros itinerary H.
  - injection H as <-. split; [reflexivity|]. split; constructor.
  - cbn [parse_days] in H. split_return H. injection H as <-.
    match goal with Hv : parse_day_guarded v = Return _ |- _ =>
      apply parse_day_guarded_return in Hv; rename Hv into Hday end.
    match goal with Hr : parse_days l = Return _ |- _ =>
      destruct (IH _ Hr) as (Hlen & Hall & Hge) end.
    split; [cbn; lia|]. split; constructor; eauto using parse_day_day.
Qed.

(** X14: what the [except (KeyError, TypeError)] clause of
    [_parse_itinerary] makes of a bad first element.  A dict without the
    [activities] key gives the [ValueError] that names the day (its [day]
    value, or "unknown") and the missing key.  An element that is not a
    dict makes the clause itself fail, on [day_data.get], with the
    [AttributeError] that names the element's type, as in
    "'int' object has no attribute 'get'". *)
Theorem parse_bad_day (v : value) (rest : list value) :
  (forall items,
     v = VDict items -> dict_get "activities" items = None ->
     _parse_itinerary (VList (v :: rest)) =
       Raise (ValueError ("Invalid itinerary structure for day "
                            +:+ match dict_get "day" items with
                                | Some n => str_of_value n
                                | None => "unknown"
                                end
                            +:+ ": 'activities'"))) /\
  (scalar v = true ->
     _parse_itinerary (VList (v :: rest)) =
       Raise (AttributeError ("'" +:+ type_name v +:+ "' object has no attribute 'get'"))).
Proof.
  split.
  - intros items -> Hk. unfold _parse_itinerary. cbn [iterate rbind parse_days].
    unfold parse_day_guarded, parse_day, getitem. rewrite Hk. cbn.
    destruct (dict_get "day" items); reflexivity.
  - intros Hv. unfold _parse_itinerary. cbn [iterate rbind parse_days].
    destruct v; try discriminate; reflexivity.
Qed.

End WithRuntime.
End ParserProofs.

(** ** The reading of a success response *)

Module ContentSpec.

(** What a [for] loop goes through: the items of an array; Python also
    iterates an object, by its keys, and a string, by its characters. *)
Definition elements (v : value) (l : list value) : Prop :=
  match v with
  | VList items => l = items
  | VDict items => l = (fun kv => VStr kv.1) <$> items
  | VStr s => l = (fun c => VStr (String c EmptyString)) <$> list_ascii_of_string s
  | _ => False
  end.

Section WithRuntime.
Context {rt : PyRuntime}.

(** The fixed structured schema: an object with [itinerary], an array of
    {day, theme, activities: array of {time, description, location}}; the
    fields are those pydantic accepts, [day] at least 1. *)
Definition reads_activity (v : value) (a : Activity) : Prop :=
  exists items t d l,
    v = VDict items /\
    dict_get "time" items = Some t /\
    dict_get "description" items = Some d /\
    dict_get "location" items = Some l /\
    pydantic_str t = Some (time a) /\
    pydantic_str d = Some (description a) /\
    pydantic_str l = Some (location a).

Definition reads_day (v : value) (d : DayItinerary) : Prop :=
  exists items acts avs n t,
    v = VDict items /\
    dict_get "activities" items = Some acts /\
    elements acts avs /\
    Forall2 reads_activity avs (activities d) /\
    dict_get "day" items = Some n /\
    dict_get "theme" items = Some t /\
    pydantic_int n = Some (day d) /\ (1 <= day d)%Z /\
    pydantic_str t = Some (theme d).

Definition reads_itinerary (v : value) (itinerary : list DayItinerary) : Prop :=
  exists days, elements v days /\ Forall2 reads_day days itinerary.

(** The message content: JSON for an object whose [itinerary] reads as
    day plans. *)
Definition reads_content (content : string) (itinerary : list DayItinerary) : Prop :=
  exists items v,
    json_loads content = inr (VDict items) /\
    dict_get "itinerary" items = Some v /\
    reads_itinerary v itinerary.

(** The body of the reply: JSON for an object that holds the message
    content, a string, at [choices[0].message.content]. *)
Definition reads_reply (text : string) (itinerary : list DayItinerary) : Prop :=
  exists items choice rest message content,
    response_json text = inr (VDict items) /\
    dict_get "choices" items = Some (VList (VDict choice :: rest)) /\
    dict_get "message" choice = Some (VDict message) /\
    dict_get "content" message = Some (VStr content) /\
    reads_content (PyStr.strip content) itinerary.

End WithRuntime.
End ContentSpec.

Module ContentProofs.
Import OpenAIService ClientSpec ClientProofs ParserProofs ContentSpec.

Section WithRuntime.
Context {rt : PyRuntime}.

Lemma getitem_return v k x :
  getitem v k = Return x <-> exists items, v = VDict items /\ dict_get k items = Some x.
Proof.
  unfold getitem. split.
  - destruct v as [| | | | | |items]; try discriminate.
    destruct (dict_get k items) eqn:E; [intros [= <-]; eauto | discriminate].
  - intros (items & -> & H). rewrite H. reflexivity.
Qed.

Lemma getitem_0_dict v items :
  getitem_0 v = Return (VDict items) -> exists rest, v = VList (VDict items :: rest).
Proof.
  unfold getitem_0. destruct v as [| | |s| |l|]; try discriminate.
  - destruct s; discriminate.
  - destruct l as [|x l]; [discriminate|]. intros [= ->]. eauto.
Qed.

Lemma strip_value_return v s :
  strip_value v = Return s <-> exists c, v = VStr c /\ s = PyStr.strip c.
Proof.
  unfold strip_value. split.
  - destruct v; try discriminate. intros [= <-]. eauto.
  - intros (c & -> & ->). reflexivity.
Qed.

Lemma iterate_elements v l : iterate v = Return l <-> elements v l.
Proof.
  unfold iterate, elements. destruct v; split; try discriminate; try tauto;
    first [intros [= <-]; reflexivity | intros ->; reflexivity].
Qed.

Lemma str_field_return model v s : str_field model v = Return s <-> pydantic_str v = Some s.
Proof.
  unfold str_field. destruct (pydantic_str v); split; try discriminate;
    intros [= <-]; reflexivity.
Qed.

Lemma day_field_return v z :
  day_field v = Return z <-> pydantic_int v = Some z /\ (1 <= z)%Z.
Proof.
  unfold day_field. destruct (pydantic_int v) as [n|].
  - destruct (Z.leb_spec 1 n); split.
    + intros [= <-]. auto.
    + intros [[= <-] _]. reflexivity.
    + discriminate.
    + intros [[= <-] ?]. lia.
  - split; [discriminate | intros [? _]; discriminate].
Qed.

Lemma parse_activity_reads v a : parse_activity v = Return a <-> reads_activity v a.
Proof.
  unfold parse_activity, reads_activity. split.
  - intros H.
    apply rbind_return in H as (t & Ht & H). apply rbind_return in H as (d & Hd & H).
    apply rbind_return in H as (l & Hl & H). apply rbind_return in H as (t' & Ht' & H).
    apply rbind_return in H as (d' & Hd' & H). apply rbind_return in H as (l' & Hl' & H).
    injection H as <-.
    apply getitem_return in Ht as (items & -> & Ht).
    apply getitem_return in Hd as (items2 & [= <-] & Hd).
    apply getitem_return in Hl as (items3 & [= <-] & Hl).
    apply str_field_return in Ht', Hd', Hl'.
    exists items, t, d, l. cbn [time description location]. auto 10.
  - intros (items & t & d & l & -> & Ht & Hd & Hl & Ht' & Hd' & Hl').
    unfold getitem. rewrite Ht, Hd, Hl. cbn [rbind].
    unfold str_field. rewrite Ht', Hd', Hl'. cbn [rbind]. destruct a; reflexivity.
Qed.

Lemma parse_activities_reads l acts :
  parse_activities l = Return acts <-> Forall2 reads_activity l acts.
Proof.
  split.
  - revert acts. induction l as [|v l IH]; intros acts H; cbn [parse_activities] in H.
    + injection H as <-. constructor.
    + apply rbind_return in H as (a & Ha & H). apply rbind_return in H as (r & Hr & H).
      injection H as <-. constructor; [apply parse_activity_reads, Ha | apply IH, Hr].
  - induction 1 as [|v a l acts Hv _ IH]; cbn [parse_activities]; [reflexivity|].
    rewrite (proj2 (parse_activity_reads v a) Hv). cbn [rbind]. rewrite IH. reflexivity.
Qed.

Lemma parse_day_reads v d : parse_day v = Return d <-> reads_day v d.
Proof.
  unfold parse_day, reads_day. split.
  - intros H.
    apply rbind_return in H as (acts & Ha & H). apply rbind_return in H as (avs & Hi & H).
    apply rbind_return in H as (parsed & Hp & H). apply rbind_return in H as (n & Hn & H).
    apply rbind_return in H as (t & Ht & H). apply rbind_return in H as (z & Hz & H).
    apply rbind_return in H as (s & Hs & H). injection H as <-.
    apply getitem_return in Ha as (items & -> & Ha).
    apply getitem_return in Hn as (items2 & [= <-] & Hn).
    apply getitem_return in Ht as (items3 & [= <-] & Ht).
    apply iterate_elements in Hi. apply parse_activities_reads in Hp.
    apply day_field_return in Hz as [Hz Hge]. apply str_field_return in Hs.
    exists items, acts, avs, n, t. cbn [day theme activities]. auto 12.
  - intros (items & acts & avs & n & t & -> & Ha & Hi & Hp & Hn & Ht & Hz & Hge & Hs).
    unfold getitem. rewrite Ha. cbn [rbind].
    rewrite (proj2 (iterate_elements _ _) Hi). cbn [rbind].
    rewrite (proj2 (parse_activities_reads _ _) Hp). cbn [rbind].
    rewrite Hn, Ht. cbn [rbind].
    rewrite (proj2 (day_field_return _ _) (conj Hz Hge)). cbn [rbind].
    rewrite (proj2 (str_field_return _ _ _) Hs). cbn [rbind]. destruct d; reflexivity.
Qed.

Lemma parse_day_guarded_reads v d : parse_day_guarded v = Return d <-> reads_day v d.
Proof.
  rewrite <- parse_day_reads. split; [apply parse_day_guarded_return|].
  intros H. unfold parse_day_guarded. rewrite H. reflexivity.
Qed.

Lemma parse_days_reads l itinerary :
  parse_days l = Return itinerary <-> Forall2 reads_day l itinerary.
Proof.
  split.
  - revert itinerary. induction l as [|v l IH]; intros itinerary H; cbn [parse_days] in H.
    + injection H as <-. constructor.
    + apply rbind_return in H as (d & Hd & H). apply rbind_return in H as (r & Hr & H).
      injection H as <-. constructor; [apply parse_day_guarded_reads, Hd | apply IH, Hr].
  - induction 1 as [|v d l days Hv _ IH]; cbn [parse_days]; [reflexivity|].
    rewrite (proj2 (parse_day_guarded_reads v d) Hv). cbn [rbind]. rewrite IH. reflexivity.
Qed.

Lemma _parse_itinerary_reads v itinerary :
  _parse_itinerary v = Return itinerary <-> reads_itinerary v itinerary.
Proof.
  unfold _parse_itinerary, reads_itinerary. split.
  - intros H. apply rbind_return in H as (days & Hi & H).
    exists days. split; [apply iterate_elements, Hi | apply parse_days_reads, H].
  - intros (days & Hi & H). rewrite (proj2 (iterate_elements _ _) Hi). cbn [rbind].
    apply parse_days_reads, H.
Qed.

Lemma parse_content_reads content itinerary :
  parse_content content = Return itinerary <-> reads_content content itinerary.
Proof.
  unfold parse_content, reads_content.
  destruct (rbind (loads content) _) as [a|y] eqn:E.
  - split.
    + intros [= <-]. apply rbind_return in E as (v & Hv & E).
      apply rbind_return in E as (iv & Hiv & E).
      apply getitem_return in Hiv as (items & -> & Hiv).
      unfold loads in Hv. destruct (json_loads content) as [msg|v'] eqn:Ej; [discriminate|].
      injection Hv as ->. exists items, iv. split; [reflexivity|].
      split; [exact Hiv | apply _parse_itinerary_reads, E].
    + intros (items & v & Hj & Hv & Hr). unfold loads in E. rewrite Hj in E.
      cbn [rbind] in E. unfold getitem in E. rewrite Hv in E. cbn [rbind] in E.
      rewrite (proj2 (_parse_itinerary_reads _ _) Hr) in E. symmetry. exact E.
  - split.
    + destruct y; discriminate.
    + intros (items & v & Hj & Hv & Hr). unfold loads in E. rewrite Hj in E.
      cbn [rbind] in E. unfold getitem in E. rewrite Hv in E. cbn [rbind] in E.
      rewrite (proj2 (_parse_itinerary_reads _ _) Hr) in E. discriminate.
Qed.

(** The status-200 branch returns exactly what the body reads as. *)
Lemma on_success_reads text itinerary :
  on_success text = Return itinerary <-> reads_reply text itinerary.
Proof.
  unfold on_success, reads_reply. split.
  - intros H.
    apply rbind_return in H as (result & Hj & H). apply rbind_return in H as (choices & Hc & H).
    apply rbind_return in H as (choice & H0 & H). apply rbind_return in H as (message & Hm & H).
    apply rbind_return in H as (content & Hx & H). apply rbind_return in H as (s & Hs & H).
    apply getitem_return in Hc as (items & -> & Hc).
    apply getitem_return in Hm as (citems & -> & Hm).
    apply getitem_return in Hx as (mitems & -> & Hx).
    apply getitem_0_dict in H0 as (rest & ->).
    apply strip_value_return in Hs as (c & -> & ->).
    unfold json_of_response in Hj.
    destruct (response_json text) as [msg|v] eqn:Ej; [discriminate|]. injection Hj as ->.
    exists items, citems, rest, mitems, c.
    split; [reflexivity|]. split; [exact Hc|]. split; [exact Hm|]. split; [exact Hx|].
    apply parse_content_reads, H.
  - intros (items & citems & rest & mitems & c & Hj & Hc & Hm & Hx & Hr).
    unfold json_of_response. rewrite Hj. cbn [rbind].
    unfold getitem at 1. rewrite Hc. cbn [rbind getitem_0].
    unfold getitem at 1. rewrite Hm. cbn [rbind].
    unfold getitem at 1. rewrite Hx. cbn [rbind strip_value].
    apply parse_content_reads, Hr.
Qed.

(** C7, as amended: the status-200 branch returns exactly when the body
    of a reply served as JSON reads as the schema, and then what it reads
    as.  When a request, after [k] retried failures within the budget,
    meets a success response served as JSON whose body does not read as
    the schema, the call ends there with a content error: no delay, no
    further request, whatever is left of the budget, and the error is
    neither a transport failure nor a retry exhaustion.  Content that is
    not JSON, or that has no [itinerary] key, is rejected with a
    [ValueError].  A success response that is not served as JSON is
    handled by the client-error clause instead: while budget remains it is
    followed by the delay and a further request, and on the last attempt
    the call ends with "Network error after all retries". *)
Theorem content_failure_is_terminal (self : t) (e : env) (w : world)
    (destination : string) (duration_days : Z) (k : nat) (text : string)
    (Hk : (Z.of_nat k < max_retries self)%Z)
    (Hpre : forall j, (j < k)%nat -> retried (http e (j + http_calls w))) :
  (forall itinerary, on_success text = Return itinerary <-> reads_reply text itinerary) /\
  (http e (k + http_calls w) = HttpResponse 200 text ->
   (forall itinerary, ~ reads_reply text itinerary) ->
   exists x,
     generate_itinerary self destination duration_days e w =
       (Raise x, after_posts (S k) w, (backoff_trace self 0 k ++ [HttpPost])%list) /\
     content_error x /\ ~ transport x /\ ~ exhaustion x) /\
  (forall content msg,
     json_loads content = inl msg ->
     parse_content content =
       Raise (ValueError ("Invalid JSON response from OpenAI: " +:+ msg))) /\
  (forall content items,
     json_loads content = inr (VDict items) -> dict_get "itinerary" items = None ->
     parse_content content =
       Raise (ValueError "Invalid JSON response from OpenAI: 'itinerary'")) /\
  (forall msg r w' tr,
     http e (k + http_calls w) = HttpNotJson 200 text msg ->
     generate_itinerary self destination duration_days e w = (r, w', tr) ->
     if (Z.of_nat k <? max_retries self - 1)%Z
     then (S k < System.posts tr)%nat /\
          System.sleeps tr !! k = Some (retry_delay self * 2 ^ Z.of_nat k)%Z
     else r = Raise (PyException ("Network error after all retries: " +:+ msg)) /\
          System.posts tr = S k /\ length (System.sleeps tr) = k).
Proof.
  split; [intros itinerary; apply on_success_reads|].
  split; [|split; [|split]].
  - intros Ho Hbad. destruct (on_success text) as [itinerary|x] eqn:E.
    { exfalso. apply (Hbad itinerary), on_success_reads, E. }
    pose proof (on_success_raise _ _ E) as Hc. exists x.
    split; [|split; [exact Hc|split; [apply content_not_transport, Hc
                                     |apply content_not_exhaustion, Hc]]].
    unfold generate_itinerary.
    rewrite (loop_skip_retried self e k 0 (max_retries self) w); [| lia | lia | exact Hpre].
    rewrite (seqZ_cons (0 + Z.of_nat k)) by lia.
    rewrite (loop_success self _ _ e (after_posts k w) text Ho), E.
    reflexivity.
  - intros content msg Hj. unfold parse_content, loads. rewrite Hj. reflexivity.
  - intros content items Hj Hnone. unfold parse_content, loads. rewrite Hj. simpl.
    rewrite Hnone. reflexivity.
  - intros msg r w' tr Ho. unfold generate_itinerary.
    rewrite (loop_skip_retried self e k 0 (max_retries self) w); [| lia | lia | exact Hpre].
    rewrite (seqZ_cons (0 + Z.of_nat k)) by lia.
    assert (Hm : retried (http e (http_calls (after_posts k w)))).
    { right. exists text, msg. exact Ho. }
    destruct (Z.ltb_spec (Z.of_nat k) (max_retries self - 1)) as [Hlt|Hge].
    + rewrite (loop_retried self _ _ e (after_posts k w) Hm) by lia.
      destruct (attempt_loop self _ e (after_posts 1 (after_posts k w)))
        as [[r1 w1] t1] eqn:E1.
      intros [= <- <- <-].
      pose proof (loop_posts_bounds _ _ _ _ _ _ _ E1) as [_ Hge1].
      rewrite posts_app, posts_backoff, posts_retry, sleeps_app, sleeps_backoff,
        sleeps_retry.
      split.
      * assert (1 <= System.posts t1)%nat; [|lia]. apply Hge1.
        rewrite seqZ_cons by lia. discriminate.
      * apply list_lookup_middle. rewrite length_fmap, length_seqZ. lia.
    + rewrite (loop_spent self _ _ e (after_posts k w) Hm) by lia.
      intros [= <- <- <-]. cbn [http_calls after_posts] in *.
      rewrite Ho. cbn [final_failure]. rewrite Z.eqb_refl.
      rewrite posts_app, posts_backoff, posts_single, sleeps_app, sleeps_backoff.
      split; [reflexivity|]. split; [lia|].
      rewrite length_app, length_fmap, length_seqZ. cbn. lia.
Qed.

End WithRuntime.
End ContentProofs.

(** ** What a background run leaves in the job's record *)

Module RunProofs.
Import MongoDBService StoreProofs ClientProofs OrchestratorProofs InvariantProofs.

Lemma alter_missing {A} (f : A -> A) (k : string) (m : gmap string A) :
  m !! k = None -> alter f k m = m.
Proof.
  intros Hk. apply map_eq. intros j. rewrite lookup_alter.
  destruct (decide (k = j)) as [<-|]; [rewrite Hk|]; reflexivity.
Qed.

Section WithRuntime.
Context {rt : PyRuntime}.

(** X15: when generation and validation succeed and the driver answers,
    the run leaves the job's record completed: [status] is completed,
    [error] is [None], [completedAt] is the ISO text of the clock reading
    and [itinerary] holds the validated day plans, as many as
    [duration_days]; every other field keeps its value. *)
Theorem completed_run_records_itinerary (svc : OpenAIService.t)
    (job_id destination : string) (duration_days : Z) (e : env) (w : world)
    (itinerary : list DayItinerary) (doc : pydict) :
  let run := ItineraryGenerator.generate_and_save_itinerary svc job_id destination
               duration_days e w in
  (OpenAIService.generate_itinerary svc destination duration_days e w).1.1
    = Return itinerary ->
  Validator.violation itinerary duration_days = None ->
  db_fault e (db_calls w) = None ->
  store w !! job_id = Some doc ->
  exists doc',
    store run.1.2 !! job_id = Some doc' /\
    dict_get "status" doc' = Some (VStr "completed") /\
    dict_get "error" doc' = Some VNone /\
    dict_get "completedAt" doc' = Some (VStr (isoformat (clock e (clock_reads w)))) /\
    dict_get "itinerary" doc' = Some (VList (DayItinerary_dict <$> itinerary)) /\
    Z.of_nat (length itinerary) = duration_days /\
    (forall k, k <> "status" -> k <> "completedAt" -> k <> "itinerary" -> k <> "error" ->
       dict_get k doc' = dict_get k doc).
Proof.
  cbn zeta. intros Hg Hv Hf Hdoc.
  destruct (ItineraryGenerator.generate_and_save_itinerary svc job_id destination
              duration_days e w) as [[r w'] tr] eqn:Hrun.
  destruct (run_cases _ _ _ _ _ _ _ _ _ Hrun) as (g & n & tg & Eg & _ & _ & Hc).
  rewrite Eg in Hg. cbn in Hg. subst g. unfold staged in Hc. rewrite Hv, Hf in Hc.
  destruct Hc as (_ & _ & Hs). cbn [fst snd]. rewrite Hs, lookup_alter_eq, Hdoc.
  eexists. split; [reflexivity|].
  unfold dict_update, completed_fields. cbn [fold_left fst snd].
  rewrite !dict_get_set. cbn.
  split; [reflexivity|]. split; [reflexivity|]. split; [reflexivity|].
  split; [reflexivity|]. split; [apply (validated_days _ _ Hv)|].
  intros k H1 H2 H3 H4. rewrite !dict_get_set_ne by congruence. reflexivity.
Qed.

(** X16: when generation or validation fails and the driver answers, the
    run leaves the job's record failed: [status] is failed and [error] is
    "Failed to generate itinerary: " followed by the text of the
    exception, for a rejected itinerary the validator's reason; every
    other field but [completedAt], the itinerary among them, keeps its
    value. *)
Theorem failed_run_records_error (svc : OpenAIService.t)
    (job_id destination : string) (duration_days : Z) (e : env) (w : world)
    (x : exn) (doc : pydict) :
  let run := ItineraryGenerator.generate_and_save_itinerary svc job_id destination
               duration_days e w in
  let generated := (OpenAIService.generate_itinerary svc destination duration_days e w).1.1 in
  (generated = Raise x \/
   exists itinerary reason,
     generated = Return itinerary /\
     Validator.violation itinerary duration_days = Some reason /\
     x = ValueError (Validator.reason_message reason)) ->
  db_fault e (db_calls w) = None ->
  store w !! job_id = Some doc ->
  exists doc',
    store run.1.2 !! job_id = Some doc' /\
    dict_get "status" doc' = Some (VStr "failed") /\
    dict_get "error" doc' = Some (VStr ("Failed to generate itinerary: " +:+ str_of_exn x)) /\
    dict_get "completedAt" doc' = Some (VStr (isoformat (clock e (clock_reads w)))) /\
    (forall k, k <> "status" -> k <> "completedAt" -> k <> "error" ->
       dict_get k doc' = dict_get k doc).
Proof.
  cbn zeta. intros Hg Hf Hdoc.
  destruct (ItineraryGenerator.generate_and_save_itinerary svc job_id destination
              duration_days e w) as [[r w'] tr] eqn:Hrun.
  destruct (run_cases _ _ _ _ _ _ _ _ _ Hrun) as (g & n & tg & Eg & _ & _ & Hc).
  rewrite Eg in Hg. cbn [fst] in Hg.
  assert (Hst : staged g duration_days = inl x).
  { destruct Hg as [->|(it & reason & -> & Hv & ->)]; [reflexivity|].
    unfold staged. rewrite Hv. reflexivity. }
  rewrite Hst in Hc. destruct Hc as (_ & _ & Hs & _). unfold written in Hs. rewrite Hf in Hs.
  cbn [fst snd]. rewrite Hs, lookup_alter_eq, Hdoc.
  eexists. split; [reflexivity|].
  unfold dict_update, failed_fields. cbn [fold_left fst snd].
  rewrite !dict_get_set. cbn.
  split; [reflexivity|]. split; [reflexivity|]. split; [reflexivity|].
  intros k H1 H2 H3. rewrite !dict_get_set_ne by congruence. reflexivity.
Qed.

(** X17: a run leaves the queue as it is, creates and deletes no record
    and touches no record but the job's own; when the job has no record
    the store is left as it is. *)
Theorem run_touches_own_record_only (svc : OpenAIService.t)
    (job_id destination : string) (duration_days : Z) (e : env) (w : world) :
  let run := ItineraryGenerator.generate_and_save_itinerary svc job_id destination
               duration_days e w in
  run.1.1 = Return tt /\
  pending run.1.2 = pending w /\
  dom (store run.1.2) = dom (store w) /\
  (forall id, id <> job_id -> store run.1.2 !! id = store w !! id) /\
  (store w !! job_id = None -> store run.1.2 = store w).
Proof.
  cbn zeta.
  destruct (ItineraryGenerator.generate_and_save_itinerary svc job_id destination
              duration_days e w) as [[r w'] tr] eqn:Hrun.
  destruct (run_cases _ _ _ _ _ _ _ _ _ Hrun) as (_ & _ & _ & _ & Hr & _).
  destruct (run_store _ _ _ _ _ _ _ _ _ Hrun) as (Hp & Hs). cbn [fst snd].
  split; [exact Hr|]. split; [exact Hp|].
  assert (Hf : exists f, store w' = alter f job_id (store w)).
  { destruct Hs as [Hs|[(now & msg & Hs)|(now & it & _ & Hs)]]; [|eauto|eauto].
    exists id. rewrite Hs. apply map_eq. intros j. rewrite lookup_alter.
    destruct (decide (job_id = j)) as [<-|]; [destruct (store w !! job_id)|]; reflexivity. }
  destruct Hf as (f & ->). split; [apply dom_alter_L|]. split.
  - intros j Hne. apply lookup_alter_ne. congruence.
  - apply alter_missing.
Qed.

End WithRuntime.
End RunProofs.

(** ** Start-up and the health endpoint *)

Module Lifecycle.

(** What [client.admin.command('ping')] meets: an answer, a
    [ConnectionFailure], or any other error of the driver. *)
Inductive ping_outcome : Type :=
  | PingOk
  | PingConnectionFailure (msg : string)
  | PingOtherError (msg : string).

(** [MongoDBService.test_connection]: of the driver's errors its [except]
    clause catches [ConnectionFailure] only. *)
Definition test_connection (ping : ping_outcome) : M bool :=
  match ping with
  | PingOk =>
      do _ <- log INFO "MongoDB connection test successful" ;
      ret true
  | PingConnectionFailure msg =>
      do _ <- log ERROR ("MongoDB connection test failed: " +:+ msg) ;
      ret false
  | PingOtherError msg => raise (PyMongoError msg)
  end.

(** [MongoDBService.__init__] with [_initialize_client]; [client_error] is
    what creating the client raises, if anything. *)
Definition MongoDBService_init (client_error : option string) : M unit :=
  match client_error with
  | None => log INFO "MongoDB client initialized successfully"
  | Some msg =>
      do _ <- log ERROR ("Failed to initialize MongoDB client: " +:+ msg) ;
      raise (ValueError ("MongoDB connection failed: " +:+ msg))
  end.

(** [OpenAIService.__init__]; [api_key] is [os.getenv("OPENAI_API_KEY")]. *)
Definition OpenAIService_init (api_key : option string) : result OpenAIService.t :=
  match api_key with
  | Some (String _ _) => Return OpenAIService.init
  | _ => Raise (ValueError "OPENAI_API_KEY environment variable is required")
  end.

(** The start-up half of [lifespan], up to the [yield]. *)
Definition startup (client_error : option string) (api_key : option string)
    (ping : ping_outcome) : M OpenAIService.t :=
  do _ <- MongoDBService_init client_error ;
  do openai_service <- lift (OpenAIService_init api_key) ;
  do connected <- test_connection ping ;
  if negb connected then raise (PyException "Failed to connect to MongoDB")
  else ret openai_service.

Section WithRuntime.
Context {rt : PyRuntime}.

(** The handler of [GET /health]. *)
Definition health_check (ping : ping_outcome) : M value :=
  try_except
    (do mongodb_healthy <- test_connection ping ;
     do now <- utcnow ;
     ret (VDict [("status", VStr (if mongodb_healthy then "healthy" else "unhealthy"));
                 ("timestamp", VStr (isoformat now));
                 ("database",
                  VStr (if mongodb_healthy then "connected" else "disconnected"))]))
    (fun e => Some (
       do now <- utcnow ;
       ret (VDict [("status", VStr "unhealthy");
                   ("timestamp", VStr (isoformat now));
                   ("error", VStr (str_of_exn e))]))).

Definition health_endpoint (ping : ping_outcome) : M Main.reply :=
  Main.respond 200 (health_check ping).

(** X18: the health endpoint always answers with status 200 and never
    writes.  Its body says healthy exactly when the ping is answered; a
    driver error other than a connection failure is reported under
    [error], a connection failure as a disconnected database; the
    timestamp is the ISO text of the clock reading. *)
Theorem health_always_answers (ping : ping_outcome) (e : env) (w : world) :
  exists body,
    (health_endpoint ping e w).1.1 = Return (Main.Reply 200 (VDict body)) /\
    store (health_endpoint ping e w).1.2 = store w /\
    pending (health_endpoint ping e w).1.2 = pending w /\
    (dict_get "status" body = Some (VStr "healthy") <-> ping = PingOk) /\
    dict_get "status" body =
      Some (VStr (match ping with PingOk => "healthy" | _ => "unhealthy" end)) /\
    dict_get "timestamp" body = Some (VStr (isoformat (clock e (clock_reads w)))) /\
    dict_get "database" body =
      match ping with
      | PingOk => Some (VStr "connected")
      | PingConnectionFailure _ => Some (VStr "disconnected")
      | PingOtherError _ => None
      end /\
    dict_get "error" body =
      match ping with PingOtherError msg => Some (VStr msg) | _ => None end.
Proof.
  destruct ping as [|msg|msg]; eexists; cbn;
    (split; [reflexivity|]); (split; [reflexivity|]); (split; [reflexivity|]);
    (split; [split; [try discriminate; reflexivity | try discriminate; reflexivity]|]);
    repeat split; reflexivity.
Qed.

End WithRuntime.

(** X19: start-up goes through exactly when the client is created, the
    API key is set and not empty, and the ping is answered; it then
    yields the service with 3 attempts and base delay 1.  Otherwise it
    raises, the first failing step deciding the error, and in no case is
    the store or the queue touched. *)
Theorem startup_requirements (client_error api_key : option string) (ping : ping_outcome)
    (e : env) (w : world) :
  let run := startup client_error api_key ping e w in
  let key_set := match api_key with Some (String _ _) => true | _ => false end in
  run.1.2 = w /\
  (run.1.1 = Return OpenAIService.init <->
     client_error = None /\ key_set = true /\ ping = PingOk) /\
  (forall msg, client_error = Some msg ->
     run.1.1 = Raise (ValueError ("MongoDB connection failed: " +:+ msg))) /\
  (client_error = None -> key_set = false ->
     run.1.1 = Raise (ValueError "OPENAI_API_KEY environment variable is required")) /\
  (client_error = None -> key_set = true ->
     match ping with
     | PingOk => run.1.1 = Return OpenAIService.init
     | PingConnectionFailure _ => run.1.1 = Raise (PyException "Failed to connect to MongoDB")
     | PingOtherError msg => run.1.1 = Raise (PyMongoError msg)
     end).
Proof.
  cbn zeta. destruct client_error as [cmsg|].
  { cbn. split; [reflexivity|]. split; [split; [discriminate | intros [H _]; discriminate]|].
    split; [intros msg [= <-]; reflexivity|]. split; discriminate. }
  destruct api_key as [[|c key]|].
  1,3: (cbn; split; [reflexivity|];
        split; [split; [discriminate | intros (_ & H & _); discriminate]|];
        split; [discriminate|]; split; [reflexivity | discriminate]).
  destruct ping as [|msg|msg]; cbn.
  - split; [reflexivity|]. split; [tauto|]. split; [discriminate|]. split; [discriminate | auto].
  - split; [reflexivity|]. split; [split; [discriminate | intros (_ & _ & H); discriminate]|].
    split; [discriminate|]. split; [discriminate | auto].
  - split; [reflexivity|]. split; [split; [discriminate | intros (_ & _ & H); discriminate]|].
    split; [discriminate|]. split; [discriminate | auto].
Qed.

End Lifecycle.

(** ** Creation followed by status queries *)

Module EndpointExtras.
Import MongoDBService StoreProofs EndpointProofs.

Section WithRuntime.
Context {rt : PyRuntime}.

(** What the status endpoint answers when the driver answers: it depends
    on the stored document alone. *)
Definition answer (found : option pydict) : result Main.reply :=
  match found with
  | Some (item :: items) =>
      match _process_data_from_mongodb (item :: items) with
      | [] =>
          Return (Main.Reply 500
                    (VDict [("detail",
                             VStr "Failed to retrieve job status: 404: Job ID not found")]))
      | doc => Return (Main.Reply 200 (VDict doc))
      end
  | _ =>
      Return (Main.Reply 500
                (VDict [("detail",
                         VStr "Failed to retrieve job status: 404: Job ID not found")]))
  end.

Lemma status_answer job_id e w :
  db_fault e (db_calls w) = None ->
  (Main.get_job_status_endpoint job_id e w).1.1 = answer (store w !! job_id).
Proof.
  intros Hf.
  destruct (Main.get_job_status_endpoint job_id e w) as [[r w'] tr] eqn:E.
  revert E. unfold Main.get_job_status_endpoint, Main.respond, Main.get_job_status.
  unfold try_except at 1. unfold bind at 1. unfold try_except at 1. unfold bind at 1.
  rewrite get_document_run, Hf. unfold answer.
  destruct (store w !! job_id) as [[|item items]|];
    [| destruct (_process_data_from_mongodb (item :: items)) |];
    cbn; intros [= <- <- <-]; reflexivity.
Qed.

Lemma post_accepted destination durationDays e w :
  (1 <= durationDays <= 30)%Z ->
  db_fault e (db_calls w) = None ->
  store w !! uuid4 e (uuid_calls w) = None ->
  (Main.post_generate_itinerary destination durationDays e w).1.1
    = Return (Main.Reply 202 (VDict [("jobId", VStr (uuid4 e (uuid_calls w)))])) /\
  store (Main.post_generate_itinerary destination durationDays e w).1.2
    = <[uuid4 e (uuid_calls w) :=
          created (uuid4 e (uuid_calls w))
            (Main.initial_data (mkTravelRequest destination durationDays)
               (clock e (clock_reads w)))]> (store w).
Proof.
  intros Hr Hf Hu.
  destruct (Main.post_generate_itinerary destination durationDays e w) as [[r w'] tr] eqn:E.
  revert E. unfold Main.post_generate_itinerary, Main.TravelRequest_validate.
  assert (E1 : (0 <? durationDays)%Z = true) by (apply Z.ltb_lt; lia).
  assert (E2 : (durationDays <=? 30)%Z = true) by (apply Z.leb_le; lia).
  rewrite E1, E2. cbn [andb].
  unfold Main.respond, Main.generate_itinerary.
  unfold try_except at 1. unfold bind at 1. unfold bind at 1. unfold new_uuid at 1.
  unfold try_except at 1. unfold bind at 1. unfold utcnow at 1. unfold bind at 1.
  rewrite create_document_run. cbn [db_calls store uuid_calls clock_reads].
  rewrite Hf, Hu. cbn. intros [= <- <- <-]. split; reflexivity.
Qed.

(** X20: a status query right after an accepted creation finds the job:
    status 200 with a record that is processing, has an empty itinerary,
    no error and no completion time, the requested [durationDays], the
    [jobId], and no [_id]. *)
Theorem created_job_is_processing (destination : string) (durationDays : Z)
    (e1 e2 : env) (w : world) :
  let job_id := uuid4 e1 (uuid_calls w) in
  let w1 := (Main.post_generate_itinerary destination durationDays e1 w).1.2 in
  (1 <= durationDays <= 30)%Z ->
  db_fault e1 (db_calls w) = None ->
  store w !! job_id = None ->
  db_fault e2 (db_calls w1) = None ->
  fromisoformat (PyStr.replace_Z "processing") = None ->
  exists doc,
    (Main.get_job_status_endpoint job_id e2 w1).1.1 = Return (Main.Reply 200 (VDict doc)) /\
    dict_get "status" doc = Some (VStr "processing") /\
    dict_get "itinerary" doc = Some (VList []) /\
    dict_get "error" doc = Some VNone /\
    dict_get "completedAt" doc = Some VNone /\
    dict_get "durationDays" doc = Some (VInt durationDays) /\
    dict_get "destination" doc = Some (decoded destination) /\
    dict_get "jobId" doc = Some (decoded job_id) /\
    dict_get "_id" doc = None.
Proof.
  cbn zeta. intros Hr Hf1 Hu Hf2 Hproc.
  destruct (post_accepted destination durationDays e1 w Hr Hf1 Hu) as [_ Hs].
  rewrite (status_answer _ _ _ Hf2), Hs, lookup_insert_eq.
  set (data := Main.initial_data (mkTravelRequest destination durationDays)
                 (clock e1 (clock_reads w))).
  set (job_id := uuid4 e1 (uuid_calls w)).
  unfold answer.
  destruct (created job_id data) as [|item items] eqn:Ec.
  { exfalso. exact (created_not_nil _ _ Ec). }
  rewrite <- Ec. clear Ec item items.
  assert (Hget : forall k, k <> "_id" -> k <> "jobId" ->
            dict_get k (_process_data_from_mongodb (created job_id data))
              = process_value <$> (prepare_value <$> dict_get k data)).
  { intros k H1 H2. rewrite dict_get_process.
    destruct (String.eqb_spec k "_id"); [congruence|].
    rewrite created_other by assumption. reflexivity. }
  assert (Hjob : dict_get "jobId" (_process_data_from_mongodb (created job_id data))
                 = Some (decoded job_id)).
  { rewrite dict_get_process. cbn [String.eqb Ascii.eqb Bool.eqb].
    rewrite created_jobId.
    change (process_value <$> Some (VStr job_id)) with (Some (process_value (VStr job_id))).
    rewrite process_value_str. reflexivity. }
  assert (Hid : dict_get "_id" (_process_data_from_mongodb (created job_id data)) = None).
  { rewrite dict_get_process. reflexivity. }
  destruct (_process_data_from_mongodb (created job_id data)) as [|p l] eqn:Ep.
  { discriminate Hjob. }
  exists (p :: l). split; [reflexivity|].
  rewrite !Hget by discriminate. subst data. cbn -[process_value].
  rewrite !process_value_str. unfold decoded at 1. rewrite Hproc.
  split; [reflexivity|]. split; [reflexivity|]. split; [reflexivity|].
  split; [reflexivity|]. split; [reflexivity|]. split; [reflexivity|].
  split; [exact Hjob | exact Hid].
Qed.

(** X21: status queries can be repeated: with the driver answering both
    times, a second query returns the reply of the first, and the store
    is the same after both. *)
Theorem status_query_is_repeatable (job_id : string) (e1 e2 : env) (w : world) :
  let first := Main.get_job_status_endpoint job_id e1 w in
  let second := Main.get_job_status_endpoint job_id e2 first.1.2 in
  db_fault e1 (db_calls w) = None ->
  db_fault e2 (db_calls first.1.2) = None ->
  second.1.1 = first.1.1 /\ store second.1.2 = store w.
Proof.
  cbn zeta. intros Hf1 Hf2.
  destruct (Main.get_job_status_endpoint job_id e1 w) as [[r1 w1] t1] eqn:E1.
  cbn [fst snd] in *.
  destruct (Main.get_job_status_endpoint job_id e2 w1) as [[r2 w2] t2] eqn:E2.
  destruct (status_read_only _ _ _ _ _ _ E1) as [Hs1 _].
  destruct (status_read_only _ _ _ _ _ _ E2) as [Hs2 _].
  pose proof (status_answer job_id e1 w Hf1) as H1. rewrite E1 in H1.
  cbn [fst snd] in *.
  pose proof (status_answer job_id e2 w1 Hf2) as H2. rewrite E2 in H2. cbn [fst] in H2.
  rewrite Hs1 in H2. split; congruence.
Qed.

End WithRuntime.
End EndpointExtras.


(** ** The validator: what it accepts and what it reports *)

Module ValidatorExtras.
Import Validator.

(** Every character of the string is whitespace (the empty string too). *)
Definition whitespace (s : string) : Prop :=
  Forall (fun c => PyStr.isspace c = true) (list_ascii_of_string s).

Lemma rev_app_chars s1 s2 :
  list_ascii_of_string (String.rev_app s1 s2) =
  (List.rev (list_ascii_of_string s1) ++ list_ascii_of_string s2)%list.
Proof.
  revert s2. induction s1 as [|c s1 IH]; intros s2; simpl; [reflexivity|].
  rewrite IH. simpl. rewrite <- app_assoc. reflexivity.
Qed.

Lemma rev_chars s :
  list_ascii_of_string (String.rev s) = List.rev (list_ascii_of_string s).
Proof. unfold String.rev. rewrite rev_app_chars. simpl. apply app_nil_r. Qed.

Lemma rev_empty s : String.rev s = "" -> s = "".
Proof.
  intros H. apply (f_equal list_ascii_of_string) in H. rewrite rev_chars in H.
  destruct s as [|c s]; [reflexivity|]. simpl in H.
  destruct (List.rev (list_ascii_of_string s)); discriminate.
Qed.

Lemma whitespace_rev s : whitespace (String.rev s) <-> whitespace s.
Proof.
  unfold whitespace. rewrite rev_chars. split; intros H.
  - rewrite <- (rev_involutive (list_ascii_of_string s)). apply List.Forall_rev, H.
  - apply List.Forall_rev, H.
Qed.

Lemma lstrip_empty s : PyStr.lstrip s = "" <-> whitespace s.
Proof.
  unfold whitespace. induction s as [|c s IH]; cbn [list_ascii_of_string PyStr.lstrip].
  - split; [constructor | reflexivity].
  - destruct (PyStr.isspace c) eqn:E.
    + rewrite IH. split; intros H; [constructor; assumption | inversion H; assumption].
    + split; [discriminate|]. intros H. inversion H as [|? ? Hc _]. cbv beta in Hc.
      congruence.
Qed.

Lemma lstrip_head s c r : PyStr.lstrip s = String c r -> PyStr.isspace c = false.
Proof.
  induction s as [|a s IH]; simpl; [discriminate|].
  destruct (PyStr.isspace a) eqn:E; [exact IH|]. intros [= <- <-]. exact E.
Qed.

(** [s.strip()] is empty exactly for the strings of whitespace. *)
Lemma strip_empty s : PyStr.strip s = "" <-> whitespace s.
Proof.
  unfold PyStr.strip, PyStr.rstrip. split.
  - intros H. apply rev_empty, lstrip_empty in H.
    apply (proj1 (whitespace_rev _)) in H.
    destruct (PyStr.lstrip s) as [|c r] eqn:E; [apply lstrip_empty, E|].
    apply lstrip_head in E. unfold whitespace in H.
    cbn [list_ascii_of_string] in H. inversion H as [|? ? Hc _]. cbv beta in Hc.
    congruence.
  - intros H. apply lstrip_empty in H. rewrite H. reflexivity.
Qed.

(** [not s or not s.strip()] holds exactly for the strings of whitespace. *)
Lemma blank_whitespace s : PyStr.blank s = true <-> whitespace s.
Proof.
  rewrite <- strip_empty. unfold PyStr.blank. destruct s as [|c s].
  - simpl. split; reflexivity.
  - cbn [PyStr.truthy negb orb].
    destruct (PyStr.strip (String c s)); simpl; split; congruence.
Qed.

Lemma blank_not_whitespace s : PyStr.blank s = false <-> ~ whitespace s.
Proof.
  rewrite <- blank_whitespace. destruct (PyStr.blank s); split; congruence.
Qed.

(** X22: a day plan that carries the number of its position is reported as
    missing its theme exactly when the theme is empty or made of whitespace
    only; no other check of the day produces that report. *)
Theorem whitespace_theme_is_reported (d : DayItinerary) :
  check_day (day d) d = Some (MissingTheme (day d)) <-> whitespace (theme d).
Proof.
  rewrite <- blank_whitespace. unfold check_day. rewrite Z.eqb_refl. simpl.
  destruct (PyStr.blank (theme d)); [split; reflexivity|].
  split; [|discriminate].
  case_bool_decide as Ha; [discriminate|].
  destruct (negb _); [discriminate|].
  intros Hr. apply ValidatorProofs.check_activities_some in Hr
    as (b & a & af & _ & _ & [[_ Hr]|(_ & _ & Hr)]); discriminate.
Qed.

(** A day that has the three required time labels has three activities. *)
Lemma three_slots acts :
  required_times ⊆ activity_times acts -> (3 <= length acts)%nat.
Proof.
  intros H.
  assert (Hin : forall slot, slot ∈ required_times -> exists a, a ∈ acts /\ time a = slot).
  { intros slot Hs. apply H, elem_of_list_to_set, list_elem_of_fmap in Hs as (a & -> & Ha).
    eauto. }
  destruct (Hin "Morning") as (a1 & H1 & T1).
  { unfold required_times. rewrite !elem_of_union, !elem_of_singleton. tauto. }
  destruct (Hin "Afternoon") as (a2 & H2 & T2).
  { unfold required_times. rewrite !elem_of_union, !elem_of_singleton. tauto. }
  destruct (Hin "Evening") as (a3 & H3 & T3).
  { unfold required_times. rewrite !elem_of_union, !elem_of_singleton. tauto. }
  change 3%nat with (length [a1; a2; a3]). apply submseteq_length, NoDup_submseteq.
  - apply (NoDup_fmap_1 time). simpl. rewrite T1, T2, T3.
    repeat (apply NoDup_cons; split;
            [rewrite ?elem_of_cons, elem_of_nil; intros H'; intuition discriminate|]).
    apply NoDup_nil. exact I.
  - intros x. rewrite !elem_of_cons, elem_of_nil. intros [-> | [-> | [-> | []]]]; assumption.
Qed.

Lemma check_activities_all i acts :
  check_activities i acts = None ->
  Forall (fun a => ~ whitespace (description a) /\ ~ whitespace (location a)) acts.
Proof.
  induction acts as [|a acts IH]; simpl; [constructor|].
  destruct (PyStr.blank (description a)) eqn:Ed; [discriminate|].
  destruct (PyStr.blank (location a)) eqn:El; [discriminate|].
  intros H. constructor; [|exact (IH H)].
  split; apply blank_not_whitespace; assumption.
Qed.

Lemma check_day_shape i d :
  check_day i d = None ->
  day d = i /\ ~ whitespace (theme d) /\ (3 <= length (activities d))%nat /\
  Forall (fun a => ~ whitespace (description a) /\ ~ whitespace (location a))
    (activities d).
Proof.
  unfold check_day.
  destruct (Z.eqb_spec (day d) i) as [Hd|Hd]; simpl; [|discriminate].
  destruct (PyStr.blank (theme d)) eqn:Et; [discriminate|].
  case_bool_decide as Ha; [discriminate|].
  case_bool_decide as Hs; simpl; [|discriminate].
  intros Hc. split; [exact Hd|]. split; [apply blank_not_whitespace, Et|].
  split; [apply three_slots, Hs | apply check_activities_all with i, Hc].
Qed.

Lemma check_days_shape i l :
  check_days i l = None ->
  day <$> l = seqZ i (Z.of_nat (length l)) /\
  Forall (fun d =>
    ~ whitespace (theme d) /\ (3 <= length (activities d))%nat /\
    Forall (fun a => ~ whitespace (description a) /\ ~ whitespace (location a))
      (activities d)) l.
Proof.
  revert i. induction l as [|d l IH]; intros i; cbn [check_days].
  - intros _. split; [reflexivity | constructor].
  - destruct (check_day i d) eqn:E; [discriminate|]. intros H.
    apply check_day_shape in E as (Hd & Hrest). destruct (IH _ H) as [Hdays Hall].
    split; [|constructor; assumption].
    rewrite fmap_cons, Hd, Hdays. cbn [length].
    rewrite (seqZ_cons i) by lia. f_equal. f_equal; lia.
Qed.

Section WithRuntime.
Context {rt : PyRuntime}.

(** X23: an itinerary that passes validation has at least one day, exactly
    the requested number of days, the day numbers 1, 2, ..., n in order, and
    in every day a theme that is not blank, at least three activities, and
    no activity with a blank description or location. *)
Theorem validated_shape (itinerary : list DayItinerary) (expected_days : Z)
    (e : env) (w : world)
    (Hok : (ItineraryGenerator._validate_itinerary itinerary expected_days e w).1.1
           = Return tt) :
  (1 <= expected_days)%Z /\
  Z.of_nat (length itinerary) = expected_days /\
  day <$> itinerary = seqZ 1 expected_days /\
  Forall (fun d =>
    ~ whitespace (theme d) /\ (3 <= length (activities d))%nat /\
    Forall (fun a => ~ whitespace (description a) /\ ~ whitespace (location a))
      (activities d)) itinerary.
Proof.
  unfold ItineraryGenerator._validate_itinerary in Hok.
  destruct (violation itinerary expected_days) as [r|] eqn:E; [discriminate Hok|].
  clear Hok. unfold violation in E.
  case_bool_decide as He; [discriminate|].
  destruct (Z.eqb_spec (Z.of_nat (length itinerary)) expected_days) as [Hn|Hn];
    simpl in E; [|discriminate].
  apply check_days_shape in E as [Hdays Hall]. rewrite Hn in Hdays.
  split; [|auto]. destruct itinerary; [congruence | simpl in Hn; lia].
Qed.

(** X24: the validator puts no upper bound on a day's activities and does
    not restrict their time labels: activities added to a day of a valid
    itinerary, whatever their labels, keep it valid as long as their
    descriptions and locations are not blank. *)
Theorem added_activities_are_accepted (itinerary : list DayItinerary)
    (expected_days : Z) (i : nat) (d : DayItinerary) (extra : list Activity)
    (e : env) (w : world)
    (Hok : (ItineraryGenerator._validate_itinerary itinerary expected_days e w).1.1
           = Return tt)
    (Hday : itinerary !! i = Some d)
    (Hextra : Forall (fun a => PyStr.blank (description a) = false /\
                               PyStr.blank (location a) = false) extra) :
  (ItineraryGenerator._validate_itinerary
     (<[i := mkDayItinerary (day d) (theme d) (activities d ++ extra)]> itinerary)
     expected_days e w).1.1 = Return tt.
Proof.
  unfold ItineraryGenerator._validate_itinerary in *.
  destruct (violation itinerary expected_days) as [r|] eqn:E; [discriminate Hok|].
  clear Hok.
  assert (Hv : violation
    (<[i := mkDayItinerary (day d) (theme d) (activities d ++ extra)]> itinerary)
    expected_days = None).
  { apply ValidatorProofs.violation_none, ValidatorProofs.valid_daywise.
    apply ValidatorProofs.violation_none, ValidatorProofs.valid_daywise in E
      as (H1 & H2 & H3).
    pose proof (lookup_lt_Some _ _ _ Hday) as Hlt.
    split; [|split].
    - intros Hnil. apply (f_equal length) in Hnil. rewrite length_insert in Hnil.
      simpl in Hnil. lia.
    - rewrite length_insert. exact H2.
    - intros k d' Hk. destruct (decide (i = k)) as [<-|Hne].
      + rewrite list_lookup_insert_eq in Hk by exact Hlt. injection Hk as <-.
        destruct (H3 i d Hday) as (Hd & Ht & Ha & Hs & Hf).
        split; [exact Hd|]. split; [exact Ht|]. split; [|split].
        * cbn. destruct (activities d); [congruence | discriminate].
        * intros slot Hin. destruct (Hs slot Hin) as (a & Ha' & Hta).
          exists a. split; [|exact Hta]. cbn. apply elem_of_app. left. exact Ha'.
        * cbn. apply Forall_app. split; [exact Hf|].
          eapply Forall_impl; [exact Hextra|]. intros a [Hx Hy].
          split; apply ValidatorProofs.blank_false; assumption.
      + rewrite list_lookup_insert_ne in Hk by exact Hne. apply H3, Hk. }
  rewrite Hv. reflexivity.
Qed.

End WithRuntime.

End ValidatorExtras.


(** ** The job store over the life of the service *)

Module SystemExtras.
Import MongoDBService StoreProofs InvariantProofs.

(** The fields a record gets when it is created and that no later write
    names. *)
Definition creation_key (k : string) : Prop :=
  k = "_id" \/ k = "jobId" \/ k = "destination" \/ k = "durationDays" \/ k = "createdAt".

Section WithRuntime.
Context {rt : PyRuntime}.

(** The fields of a terminal write. *)
Definition terminal_fields (fields : pydict) : Prop :=
  (exists now msg, fields = failed_fields now msg) \/
  (exists now itinerary, fields = completed_fields now itinerary).

Lemma terminal_fields_other k fields :
  terminal_fields fields -> creation_key k -> forall v, (k, v) ∉ fields.
Proof.
  intros Hf Hk v Hin.
  destruct Hf as [(now & msg & ->)|(now & itinerary & ->)];
    unfold failed_fields, completed_fields in Hin;
    rewrite !elem_of_cons, elem_of_nil in Hin;
    unfold creation_key in Hk;
    destruct Hk as [-> | [-> | [-> | [-> | ->]]]];
    intuition discriminate.
Qed.

(** What one step of the service does to the collection: nothing, the
    insertion of a new record under a key not in use, or a terminal write
    to the record of a queued task. *)
Lemma step_store w w' :
  System.step w w' ->
  store w' = store w \/
  (exists id request now,
     store w !! id = None /\
     store w' = <[id := created id (Main.initial_data request now)]> (store w)) \/
  (exists t fields,
     t ∈ pending w /\ terminal_fields fields /\
     store w' = alter (dict_update fields) (task_job_id t) (store w)).
Proof.
  intros [e d n r tr Hrun|e j r tr Hrun|e i t r tr Hi Hrun].
  - destruct (EndpointProofs.create_cases _ _ _ _ _ _ _ Hrun)
      as [[Hs _]|(_ & Hfresh & Hs & _)]; [left; exact Hs|].
    right. left. eauto.
  - left. apply (EndpointProofs.status_read_only _ _ _ _ _ _ Hrun).
  - destruct (run_store _ _ _ _ _ _ _ _ _ Hrun) as (_ & Hs).
    cbn [System.start_task store] in Hs.
    assert (Hin : t ∈ pending w) by (apply list_elem_of_lookup; eauto).
    destruct Hs as [Hs|[(now & msg & Hs)|(now & itinerary & _ & Hs)]]; [left; exact Hs| |].
    + right. right. exists t, (failed_fields now msg).
      split; [exact Hin|]. split; [left; eauto | exact Hs].
    + right. right. exists t, (completed_fields now itinerary).
      split; [exact Hin|]. split; [right; eauto | exact Hs].
Qed.

(** X25: no request and no background run removes a job record or changes
    the fields it was created with: after any step the record is still
    there, with the same [_id], [jobId], [destination], [durationDays] and
    [createdAt]. *)
Theorem creation_fields_are_immutable (w w' : world) (id : string) (doc : pydict)
    (k : string)
    (Hstep : System.step w w')
    (Hdoc : store w !! id = Some doc)
    (Hk : creation_key k) :
  exists doc', store w' !! id = Some doc' /\ dict_get k doc' = dict_get k doc.
Proof.
  destruct (step_store _ _ Hstep)
    as [->|[(id' & request & now & Hfresh & ->)|(t & fields & _ & Hf & ->)]].
  - eauto.
  - exists doc. split; [|reflexivity].
    rewrite lookup_insert_ne by congruence. exact Hdoc.
  - destruct (decide (task_job_id t = id)) as [->|Hne].
    + exists (dict_update fields doc). split.
      * rewrite lookup_alter_eq, Hdoc. reflexivity.
      * apply dict_get_update_other. apply terminal_fields_other; assumption.
    + exists doc. split; [|reflexivity]. rewrite lookup_alter_ne by exact Hne. exact Hdoc.
Qed.

(** X26: a record that has reached [completed] or [failed] is final: in a
    state the service can reach, no further step changes anything of it. *)
Theorem terminal_records_are_final (w w' : world) (id : string) (doc : pydict)
    (Hreach : System.reachable w)
    (Hstep : System.step w w')
    (Hdoc : store w !! id = Some doc)
    (Hterminal : dict_get "status" doc = Some (VStr "completed") \/
                 dict_get "status" doc = Some (VStr "failed")) :
  store w' !! id = Some doc.
Proof.
  destruct (reachable_ok _ Hreach) as (_ & Htasks & _).
  destruct (step_store _ _ Hstep)
    as [->|[(id' & request & now & Hfresh & ->)|(t & fields & Hin & _ & ->)]].
  - exact Hdoc.
  - rewrite lookup_insert_ne by congruence. exact Hdoc.
  - destruct (decide (task_job_id t = id)) as [Heq|Hne].
    + exfalso. destruct (proj1 (Forall_forall _ _) Htasks t Hin) as (doc' & Hd' & Hs & _).
      rewrite Heq, Hdoc in Hd'. injection Hd' as <-.
      rewrite Hs in Hterminal. destruct Hterminal; discriminate.
    + rewrite lookup_alter_ne by exact Hne. exact Hdoc.
Qed.

(** X27: in every state the service can reach, each queued background task
    belongs to a stored record that is still [processing], has the task's
    number of days and an empty itinerary; and no two queued tasks are for
    the same job. *)
Theorem queued_tasks_are_processing (w : world) (Hreach : System.reachable w) :
  NoDup (task_job_id <$> pending w) /\
  forall t, t ∈ pending w ->
    exists doc,
      store w !! task_job_id t = Some doc /\
      dict_get "status" doc = Some (VStr "processing") /\
      dict_get "durationDays" doc = Some (VInt (task_duration_days t)) /\
      dict_get "itinerary" doc = Some (VList []).
Proof.
  destruct (reachable_ok _ Hreach) as (_ & Htasks & Hnodup).
  split; [exact Hnodup|]. intros t Hin.
  destruct (proj1 (Forall_forall _ _) Htasks t Hin) as (doc & Hd & Hs & Hn & Hi & _).
  eauto.
Qed.

(** What creation puts in a record and nothing changes afterwards. *)
Definition identified (id : string) (doc : pydict) : Prop :=
  dict_get "_id" doc = Some (VStr id) /\
  dict_get "jobId" doc = Some (VStr id) /\
  (exists destination, dict_get "destination" doc = Some (VStr destination)) /\
  (exists now, dict_get "createdAt" doc = Some (VStr (isoformat now))).

Lemma created_identified id request now :
  identified id (created id (Main.initial_data request now)).
Proof.
  split; [apply created_id|]. split; [apply created_jobId|]. split.
  - exists (destination request). rewrite created_other by discriminate. reflexivity.
  - exists now. rewrite created_other by discriminate. reflexivity.
Qed.

Lemma updated_identified id fields doc :
  terminal_fields fields -> identified id doc -> identified id (dict_update fields doc).
Proof.
  intros Hf (H1 & H2 & H3 & H4). unfold identified.
  rewrite !dict_get_update_other
    by (apply terminal_fields_other; [exact Hf | unfold creation_key; tauto]).
  auto.
Qed.

(** X28: in every state the service can reach, every record is stored under
    its own job identifier, which is also its [_id] and its [jobId], and
    carries the destination as a string and the creation time in ISO
    form. *)
Theorem records_are_keyed_by_job_id (w : world) (id : string) (doc : pydict)
    (Hreach : System.reachable w)
    (Hdoc : store w !! id = Some doc) :
  dict_get "_id" doc = Some (VStr id) /\
  dict_get "jobId" doc = Some (VStr id) /\
  (exists destination, dict_get "destination" doc = Some (VStr destination)) /\
  (exists now, dict_get "createdAt" doc = Some (VStr (isoformat now))).
Proof.
  revert id doc Hdoc. unfold System.reachable in Hreach.
  refine (rtc_ind_r (fun w => forall id doc, store w !! id = Some doc -> identified id doc)
            System.initial _ _ w Hreach).
  - intros id doc H. cbn in H. rewrite lookup_empty in H. discriminate.
  - intros w1 w2 _ Hstep IH id doc Hdoc.
    destruct (step_store _ _ Hstep)
      as [Hs|[(id' & request & now & Hfresh & Hs)|(t & fields & _ & Hf & Hs)]];
      rewrite Hs in Hdoc.
    + apply IH, Hdoc.
    + destruct (decide (id' = id)) as [->|Hne].
      * rewrite lookup_insert_eq in Hdoc. injection Hdoc as <-. apply created_identified.
      * rewrite lookup_insert_ne in Hdoc by exact Hne. apply IH, Hdoc.
    + destruct (decide (task_job_id t = id)) as [Heq|Hne].
      * rewrite Heq, lookup_alter_eq in Hdoc.
        destruct (store w1 !! id) as [doc0|] eqn:E; [|discriminate].
        injection Hdoc as <-. apply updated_identified; [exact Hf|]. apply IH, E.
      * rewrite lookup_alter_ne in Hdoc by exact Hne. apply IH, Hdoc.
Qed.

End WithRuntime.

End SystemExtras.


(** ** The further properties on concrete runs *)

Module Examples.
Import OpenAIService ClientSpec ClientProofs MongoDBService StoreProofs InvariantProofs.

#[local] Existing Instance Scenarios.demo.

Abbreviation calm := Scenarios.calm (only parsing).
Abbreviation accepted := Scenarios.accepted (only parsing).
Abbreviation background := Scenarios.background (only parsing).

(** The record of the accepted job, as creation stores it. *)
Definition recorded : pydict :=
  created "job-1" (Main.initial_data (mkTravelRequest "Paris" 2) Demo.epoch).

(** An activity outside the three required time labels. *)
Definition night : Activity := mkActivity "Night" "Jazz" "Caveau de la Huchette".

Lemma reachable_accepted : System.reachable (accepted calm).
Proof.
  unfold System.reachable. eapply rtc_l; [|apply rtc_refl].
  exact (System.step_create System.initial (accepted calm) calm "Paris" 2 _ _
           (Scenarios.run_eq _)).
Defined.

Lemma run_step : System.step (accepted calm) (background calm).1.2.
Proof.
  exact (System.step_run (accepted calm) (background calm).1.2 calm 0
           (mkTask "job-1" "Paris" 2) _ _ eq_refl (Scenarios.run_eq _)).
Defined.

(** A second creation request meets the same identifier. *)
Definition collision : result Main.reply * world * list event :=
  Main.post_generate_itinerary "Rome" 3 calm (background calm).1.2.

Lemma collision_step : System.step (background calm).1.2 collision.1.2.
Proof.
  exact (System.step_create (background calm).1.2 collision.1.2 calm "Rome" 3 _ _
           (Scenarios.run_eq _)).
Defined.

(** The text of the [ContentTypeError] for a page served as text/html. *)
Definition mimetype_error : string :=
  "200, message='Attempt to decode JSON with unexpected mimetype: text/html', url='https://api.openai.com/v1/chat/completions'".

Definition html_page : string := "<html><body>502 Bad Gateway</body></html>".

(** Every request is answered with status 200 and an HTML page. *)
Definition proxied : env :=
  Scenarios.env_with (fun _ => None) (fun _ => HttpNotJson 200 html_page mimetype_error).

(** A content whose [itinerary] is a string where the schema has an
    array, and a provider that answers with it. *)
Definition stringly : value := VDict [("itinerary", VStr "")].

Definition stringly_runtime : PyRuntime :=
  Demo.runtime [stringly; Demo.envelope stringly].

Definition stringly_env : env :=
  Scenarios.env_with (fun _ => None)
    (fun _ => HttpResponse 200 (Demo.dumps (Demo.envelope stringly))).

(** C7, as stated, fails.  A success response served as text/html, whose
    body is no JSON at all, is retried twice with the delays 1 and 2 and
    the call ends as a network error after all retries.  And a success
    response whose content has a string where the schema has the array of
    days is not a failure at all: the call returns the empty itinerary. *)
Lemma success_response_is_retried :
  (let run := generate_itinerary init "Paris" 2 proxied System.initial in
   http proxied 0 = HttpNotJson 200 html_page mimetype_error /\
   System.posts run.2 = 3%nat /\
   System.sleeps run.2 = [1; 2]%Z /\
   run.1.1 = Raise (PyException ("Network error after all retries: " +:+ mimetype_error)) /\
   exhaustion (PyException ("Network error after all retries: " +:+ mimetype_error))) /\
  (let run := generate_itinerary (rt := stringly_runtime) init "Paris" 2 stringly_env
                System.initial in
   json_loads (PyRuntime := stringly_runtime) (Demo.dumps stringly) = inr stringly /\
   run.1.1 = Return [] /\
   System.posts run.2 = 1%nat).
Proof.
  split.
  - intros run. split; [reflexivity|]. split; [vm_compute; reflexivity|].
    split; [vm_compute; reflexivity|]. split; [vm_compute; reflexivity|].
    right. right. eexists. reflexivity.
  - intros run. split; [vm_compute; reflexivity|]. split; vm_compute; reflexivity.
Qed.

Lemma content_failure_is_terminal_witness :
  (exists x,
     generate_itinerary init "Paris" 2 Scenarios.garbled System.initial =
       (Raise x, after_posts 2 System.initial, (backoff_trace init 0 1 ++ [HttpPost])%list) /\
     content_error x /\ ~ transport x /\ ~ exhaustion x) /\
  (let run := generate_itinerary init "Paris" 2 proxied System.initial in
   run.1.1 = Raise (PyException ("Network error after all retries: " +:+ mimetype_error)) /\
   System.posts run.2 = 3%nat /\ length (System.sleeps run.2) = 2%nat).
Proof.
  split.
  - destruct (ContentProofs.content_failure_is_terminal init Scenarios.garbled
                System.initial "Paris" 2 1 (Demo.dumps (Demo.envelope Scenarios.keyless)))
      as (Hreads & Hfail & _).
    + simpl. lia.
    + intros [|j] Hj; [left; exact I | lia].
    + apply Hfail; [reflexivity|].
      intros itinerary Hr. apply Hreads in Hr. vm_compute in Hr. discriminate.
  - intros run.
    destruct (ContentProofs.content_failure_is_terminal init proxied System.initial
                "Paris" 2 2 html_page) as (_ & _ & _ & _ & Hretry).
    + simpl. lia.
    + intros j Hj. right. exists html_page, mimetype_error. reflexivity.
    + exact (Hretry mimetype_error run.1.1 run.1.2 run.2 eq_refl (Scenarios.run_eq _)).
Defined.

Lemma prepare_skips_list_elements_witness :
  _prepare_data_for_mongodb [("visited", VList [VDatetime Demo.epoch; VStr "Paris"])]
    = [("visited", VList [VDatetime Demo.epoch; VStr "Paris"])].
Proof.
  destruct (CodecProofs.prepare_skips_list_elements "visited" [VStr "Paris"] Demo.epoch
              eq_refl) as (_ & _ & H).
  exact H.
Defined.

Lemma stored_value_roundtrip_witness :
  exists w1 tr1 w2 tr2 doc,
    create_document "job-1" (Main.initial_data (mkTravelRequest "Paris" 2) Demo.epoch)
      calm System.initial = (Return tt, w1, tr1) /\
    get_document "job-1" calm w1 = (Return (Some doc), w2, tr2) /\
    dict_get "createdAt" doc = Some (VDatetime Demo.epoch).
Proof.
  apply (CodecProofs.stored_value_roundtrip "job-1"
           (Main.initial_data (mkTravelRequest "Paris" 2) Demo.epoch)
           calm System.initial "createdAt" (VDatetime Demo.epoch));
    first [reflexivity | discriminate | vm_compute; reflexivity].
Defined.

Lemma success_ends_the_call_witness :
  generate_itinerary init "Paris" 2 Scenarios.throttled System.initial =
    (Return (Demo.paris 2), after_posts 3 System.initial,
     (backoff_trace init 0 2 ++ [HttpPost])%list) /\
  System.sleeps (backoff_trace init 0 2 ++ [HttpPost]) = [1; 2]%Z.
Proof.
  destruct (ClientExtras.success_ends_the_call init Scenarios.throttled System.initial
              "Paris" 2 2
              (Demo.dumps (Demo.envelope (Demo.content_of (Demo.paris 2))))
              (Demo.paris 2)) as [H1 H2].
  - simpl. lia.
  - intros [|[|j]] Hj; [reflexivity | reflexivity | lia].
  - reflexivity.
  - vm_compute. reflexivity.
  - split; [exact H1 | exact H2].
Defined.

Lemma total_backoff_of_call_witness :
  let run := generate_itinerary init "Paris" 2 Scenarios.stormy System.initial in
  (0 <= ClientExtras.total (System.sleeps run.2) <= 3)%Z.
Proof.
  intros run.
  destruct (ClientExtras.total_backoff_of_call init Scenarios.stormy System.initial
              "Paris" 2 run.1.1 run.1.2 run.2 (Scenarios.run_eq _)) as [_ H].
  apply H. reflexivity.
Defined.

Lemma parse_encoded_itinerary_witness :
  _parse_itinerary (VList (DayItinerary_dict <$> Demo.paris 2)) = Return (Demo.paris 2) /\
  parse_content (Demo.dumps (Demo.content_of (Demo.paris 2))) = Return (Demo.paris 2).
Proof.
  destruct (ParserProofs.parse_encoded_itinerary (Demo.paris 2)) as [H1 H2].
  - intros s. reflexivity.
  - intros z. reflexivity.
  - change (Demo.paris 2) with [Demo.paris_day 1; Demo.paris_day 2].
    constructor; [simpl; lia|]. constructor; [simpl; lia|]. constructor.
  - split; [exact H1|].
    apply (H2 (Demo.dumps (Demo.content_of (Demo.paris 2)))
              [("itinerary", VList (DayItinerary_dict <$> Demo.paris 2))]);
      vm_compute; reflexivity.
Defined.

Lemma parse_keeps_every_day_witness :
  length (Demo.paris 2) = length (DayItinerary_dict <$> Demo.paris 2) /\
  Forall (fun d => (1 <= day d)%Z) (Demo.paris 2).
Proof.
  destruct (ParserProofs.parse_keeps_every_day (DayItinerary_dict <$> Demo.paris 2)
              (Demo.paris 2)) as (H1 & _ & H3).
  - vm_compute. reflexivity.
  - split; assumption.
Defined.

Lemma completed_run_records_itinerary_witness :
  exists doc,
    store (background calm).1.2 !! "job-1" = Some doc /\
    dict_get "status" doc = Some (VStr "completed") /\
    dict_get "itinerary" doc = Some (VList (DayItinerary_dict <$> Demo.paris 2)) /\
    dict_get "destination" doc = dict_get "destination" recorded.
Proof.
  destruct (RunProofs.completed_run_records_itinerary init "job-1" "Paris" 2 calm
              (System.start_task 0 (accepted calm)) (Demo.paris 2) recorded)
    as (doc & H1 & H2 & _ & _ & H5 & _ & H7).
  - vm_compute. reflexivity.
  - vm_compute. reflexivity.
  - reflexivity.
  - vm_compute. reflexivity.
  - exists doc. split; [exact H1|]. split; [exact H2|]. split; [exact H5|].
    apply H7; discriminate.
Defined.

Lemma failed_run_records_error_witness :
  exists doc,
    store (background Scenarios.garbled).1.2 !! "job-1" = Some doc /\
    dict_get "status" doc = Some (VStr "failed") /\
    dict_get "error" doc =
      Some (VStr "Failed to generate itinerary: Invalid JSON response from OpenAI: 'itinerary'") /\
    dict_get "itinerary" doc = dict_get "itinerary" recorded.
Proof.
  destruct (RunProofs.failed_run_records_error init "job-1" "Paris" 2 Scenarios.garbled
              (System.start_task 0 (accepted Scenarios.garbled))
              (ValueError "Invalid JSON response from OpenAI: 'itinerary'") recorded)
    as (doc & H1 & H2 & H3 & _ & H5).
  - left. vm_compute. reflexivity.
  - reflexivity.
  - vm_compute. reflexivity.
  - exists doc. split; [exact H1|]. split; [exact H2|]. split; [exact H3|].
    apply H5; discriminate.
Defined.

Lemma created_job_is_processing_witness :
  exists doc,
    (Main.get_job_status_endpoint "job-1" calm (accepted calm)).1.1
      = Return (Main.Reply 200 (VDict doc)) /\
    dict_get "status" doc = Some (VStr "processing") /\
    dict_get "itinerary" doc = Some (VList []) /\
    dict_get "_id" doc = None.
Proof.
  destruct (EndpointExtras.created_job_is_processing "Paris" 2 calm calm System.initial)
    as (doc & H1 & H2 & H3 & _ & _ & _ & _ & _ & H9).
  - lia.
  - reflexivity.
  - reflexivity.
  - reflexivity.
  - vm_compute. reflexivity.
  - exists doc. split; [exact H1|]. split; [exact H2|]. split; [exact H3 | exact H9].
Defined.

Lemma status_query_is_repeatable_witness :
  let first := Main.get_job_status_endpoint "job-1" calm (accepted calm) in
  let second := Main.get_job_status_endpoint "job-1" calm first.1.2 in
  second.1.1 = first.1.1 /\ store second.1.2 = store (accepted calm).
Proof.
  exact (EndpointExtras.status_query_is_repeatable "job-1" calm calm (accepted calm)
           eq_refl eq_refl).
Defined.

Lemma validated_shape_witness :
  (1 <= 2)%Z /\
  Z.of_nat (length (Demo.paris 2)) = 2%Z /\
  day <$> Demo.paris 2 = seqZ 1 2 /\
  Forall (fun d =>
    ~ ValidatorExtras.whitespace (theme d) /\ (3 <= length (activities d))%nat /\
    Forall (fun a => ~ ValidatorExtras.whitespace (description a) /\
                     ~ ValidatorExtras.whitespace (location a))
      (activities d)) (Demo.paris 2).
Proof.
  apply (ValidatorExtras.validated_shape (Demo.paris 2) 2 calm System.initial).
  vm_compute. reflexivity.
Defined.

Lemma added_activities_are_accepted_witness :
  (ItineraryGenerator._validate_itinerary
     (<[0%nat := mkDayItinerary 1 "Art" (activities (Demo.paris_day 1) ++ [night; night])]>
        (Demo.paris 2))
     2 calm System.initial).1.1 = Return tt.
Proof.
  apply (ValidatorExtras.added_activities_are_accepted (Demo.paris 2) 2 0
           (Demo.paris_day 1) [night; night] calm System.initial).
  - vm_compute. reflexivity.
  - reflexivity.
  - constructor; [split; vm_compute; reflexivity|].
    constructor; [split; vm_compute; reflexivity|]. constructor.
Defined.

Lemma creation_fields_are_immutable_witness :
  exists doc,
    store (background calm).1.2 !! "job-1" = Some doc /\
    dict_get "createdAt" doc = dict_get "createdAt" recorded.
Proof.
  apply (SystemExtras.creation_fields_are_immutable (accepted calm) (background calm).1.2
           "job-1" recorded "createdAt" run_step).
  - vm_compute. reflexivity.
  - right. right. right. right. reflexivity.
Defined.

Lemma terminal_records_are_final_witness :
  exists doc,
    store (background calm).1.2 !! "job-1" = Some doc /\
    dict_get "status" doc = Some (VStr "completed") /\
    store collision.1.2 !! "job-1" = Some doc.
Proof.
  eexists. split; [vm_compute; reflexivity|]. split; [reflexivity|].
  apply (SystemExtras.terminal_records_are_final (background calm).1.2 collision.1.2
           "job-1" _ Scenarios.reachable_after_run collision_step).
  - vm_compute. reflexivity.
  - left. reflexivity.
Defined.

Lemma queued_tasks_are_processing_witness :
  NoDup (task_job_id <$> pending (accepted calm)) /\
  forall t, t ∈ pending (accepted calm) ->
    exists doc,
      store (accepted calm) !! task_job_id t = Some doc /\
      dict_get "status" doc = Some (VStr "processing") /\
      dict_get "durationDays" doc = Some (VInt (task_duration_days t)) /\
      dict_get "itinerary" doc = Some (VList []).
Proof.
  exact (SystemExtras.queued_tasks_are_processing (accepted calm) reachable_accepted).
Defined.

Lemma records_are_keyed_by_job_id_witness :
  exists doc,
    store (background calm).1.2 !! "job-1" = Some doc /\
    dict_get "_id" doc = Some (VStr "job-1") /\
    dict_get "jobId" doc = Some (VStr "job-1").
Proof.
  eexists. split; [vm_compute; reflexivity|].
  destruct (SystemExtras.records_are_keyed_by_job_id (background calm).1.2 "job-1" _
              Scenarios.reachable_after_run eq_refl) as (H1 & H2 & _).
  split; [exact H1 | exact H2].
Defined.

End Examples.
